(** * otelgoexpert: a postal code (CEP) to temperature pipeline

    A shallow embedding of the two services of the repository,

    - servico-a (the Gateway, [servico-a/cmd/server/main.go]) and
    - servico-b (the Resolver, the second [main.go] of the repository),

    and of the tracing bootstrap [initProvider] that both of them carry.

    Go strings are byte sequences and are modelled by [string] (a list of
    8-bit characters); [int] and [rune] values are modelled by [Z];
    [float64] is the kernel's binary64 type [float]; maps with string keys
    ([http.Header], the process environment) are [gmap string _].  What the
    handlers do to the outside world (spans, reads of the environment, HTTP
    calls) is recorded in an event log that is threaded through every
    function, so that statements such as "no request was sent" are statements
    about that log. *)

From Stdlib Require Import ZArith Ascii String Bool PrimFloat DecimalString.
From stdpp Require Import base option list gmap strings.

Local Open Scope Z_scope.

(** ** Go strings *)

Module GoString.

(** The value of a byte of a string, as Go's [s[i]] converted to [int]. *)
Definition byteZ (a : ascii) : Z := Z.of_N (N_of_ascii a).

(** [len(s)]: the number of bytes. *)
Definition len (s : string) : Z := Z.of_nat (String.length s).

(** [s[i]] for an index that is in range; 0 stands for the run-time panic,
    which no caller below can reach (each guards with the length). *)
Fixpoint index (s : string) (i : nat) : Z :=
  match s, i with
  | EmptyString, _ => 0
  | String c _, O => byteZ c
  | String _ t, S j => index t j
  end.

(** [s[k:]]. *)
Fixpoint drop (k : nat) (s : string) : string :=
  match k, s with
  | O, _ => s
  | S j, EmptyString => EmptyString
  | S j, String _ t => drop j t
  end.

(** Constants of the run time's UTF-8 decoder ([runtime/utf8.go]). *)
Definition runeError : Z := 0xFFFD.
Definition runeSelf : Z := 0x80.
Definition maxRune : Z := 0x10FFFF.
Definition surrogateMin : Z := 0xD800.
Definition surrogateMax : Z := 0xDFFF.
Definition t2 : Z := 0xC0.
Definition t3 : Z := 0xE0.
Definition t4 : Z := 0xF0.
Definition t5 : Z := 0xF8.
Definition maskx : Z := 0x3F.
Definition mask2 : Z := 0x1F.
Definition mask3 : Z := 0x0F.
Definition mask4 : Z := 0x07.
Definition rune1Max : Z := 0x7F.
Definition rune2Max : Z := 0x7FF.
Definition rune3Max : Z := 0xFFFF.
Definition locb : Z := 0x80.
Definition hicb : Z := 0xBF.

Definition is_cont (b : Z) : bool := (locb <=? b) && (b <=? hicb).

(** [decoderune(s, 0)] on a non-empty [s]: the rune that starts [s] and the
    number of bytes it takes.  This is the function a [for range] loop over
    a string calls for every byte that is not below [runeSelf]; an
    ill-formed sequence gives [runeError] and a width of one byte. *)
Definition decoderune (s : string) : Z * nat :=
  let n := String.length s in
  let s0 := index s 0 in
  if (t2 <=? s0) && (s0 <? t3) then
    if (1 <? n)%nat && is_cont (index s 1) then
      let r := Z.lor (Z.shiftl (Z.land s0 mask2) 6) (Z.land (index s 1) maskx) in
      if rune1Max <? r then (r, 2%nat) else (runeError, 1%nat)
    else (runeError, 1%nat)
  else if (t3 <=? s0) && (s0 <? t4) then
    if (2 <? n)%nat && is_cont (index s 1) && is_cont (index s 2) then
      let r := Z.lor (Z.lor (Z.shiftl (Z.land s0 mask3) 12)
                            (Z.shiftl (Z.land (index s 1) maskx) 6))
                     (Z.land (index s 2) maskx) in
      if (rune2Max <? r) && negb ((surrogateMin <=? r) && (r <=? surrogateMax))
      then (r, 3%nat) else (runeError, 1%nat)
    else (runeError, 1%nat)
  else if (t4 <=? s0) && (s0 <? t5) then
    if (3 <? n)%nat && is_cont (index s 1) && is_cont (index s 2)
       && is_cont (index s 3) then
      let r := Z.lor (Z.lor (Z.lor (Z.shiftl (Z.land s0 mask4) 18)
                                   (Z.shiftl (Z.land (index s 1) maskx) 12))
                            (Z.shiftl (Z.land (index s 2) maskx) 6))
                     (Z.land (index s 3) maskx) in
      if (rune3Max <? r) && (r <=? maxRune) then (r, 4%nat)
      else (runeError, 1%nat)
    else (runeError, 1%nat)
  else (runeError, 1%nat).

(** One step of [for _, char := range s]: the rune at the head of a
    non-empty string and its width. *)
Definition next_rune (s : string) : Z * nat :=
  let b := index s 0 in
  if b <? runeSelf then (b, 1%nat) else decoderune s.

(** The runes a [for range] loop over [s] visits, in order.  The loop
    advances by at least one byte, so [String.length s] rounds are enough;
    [runes] starts it with that many. *)
Fixpoint runes_from (rounds : nat) (s : string) : list Z :=
  match rounds with
  | O => []
  | S k =>
      match s with
      | EmptyString => []
      | String _ _ =>
          let '(r, w) := next_rune s in
          r :: runes_from k (drop w s)
      end
  end.

Definition runes (s : string) : list Z := runes_from (String.length s) s.

(** A rune literal such as ['0']. *)
Definition rune_lit (c : ascii) : Z := byteZ c.

End GoString.

(** The two decimal-digit bounds both validators compare with. *)
Definition rune_0 : Z := GoString.rune_lit "0"%char.
Definition rune_9 : Z := GoString.rune_lit "9"%char.

(** A byte that is one of ['0'] .. ['9']. *)
Definition is_digit (c : ascii) : bool :=
  (rune_0 <=? GoString.byteZ c) && (GoString.byteZ c <=? rune_9).

Fixpoint bytes (s : string) : list ascii :=
  match s with
  | EmptyString => []
  | String c t => c :: bytes t
  end.

(** ** Errors

    A Go [error] is kept as the value that was built, and [Error] gives the
    text of its [Error()] method, which is all the handlers look at. *)

Inductive error : Type :=
| Errorf (msg : string)
    (** [fmt.Errorf(msg)] with a format that has no verbs *)
| UrlError (op url inner : string)
    (** the [*url.Error] in which [net/http] wraps a failed request *)
| IoError (msg : string)
    (** a failure of [io.ReadAll] on a response body *)
| JsonError (msg : string)
    (** a [*json.SyntaxError], [*json.UnmarshalTypeError] or [io.EOF] of
        [encoding/json] *)
| LibError (msg : string)
    (** an error of the tracing or connection libraries *)
| Wrapped (prefix : string) (cause : error)
    (** [fmt.Errorf(prefix + "%w", cause)] *).

Definition dquote : string := String (ascii_of_nat 34) EmptyString.

(** [strconv.Quote] on text that needs no escape. *)
Definition quote (s : string) : string := dquote +:+ s +:+ dquote.

Fixpoint Error (e : error) : string :=
  match e with
  | Errorf msg => msg
  | UrlError op url inner => op +:+ " " +:+ quote url +:+ ": " +:+ inner
  | IoError msg => msg
  | JsonError msg => msg
  | LibError msg => msg
  | Wrapped prefix cause => prefix +:+ Error cause
  end.

(** A pair [(value, err)] as Go functions return it. *)
Inductive res (A : Type) : Type :=
| Ok (a : A)
| Err (e : error).
Arguments Ok {A} a.
Arguments Err {A} e.

(** [%d] of an [int]. *)
Definition itoa (z : Z) : string := NilZero.string_of_int (Z.to_int z).

(** ** encoding/json

    The syntax of JSON text is the library's business: [scan_document] is
    what [json.Unmarshal] makes of a whole input, [scan_stream] what a
    [json.Decoder] makes of the first value of a stream, and [render] the
    bytes [Marshal] produces for a document; a scan that fails gives the
    text of the syntax error.  What the repository decides, and what is
    modelled in full, is the shape of its records: the field tags, the field
    types and the way a document is stored into them. *)

Module JSON.

#[local] Set Warnings "-register-all".

Inductive json : Type :=
| JNull
| JBool (b : bool)
| JNum (f : float)
    (** a number literal, as the value [strconv.ParseFloat] gives it; a
        literal beyond the range of [float64] is an infinity *)
| JStr (s : string)
| JArr (items : list json)
| JObj (members : list (string * json)).

Record lib : Type := {
  scan_document : string -> string + json;
  scan_stream : string -> string + json;
  render : json -> string
}.

(** The word [UnmarshalTypeError] uses for a value. *)
Definition describe (v : json) : string :=
  match v with
  | JNull => "null"
  | JBool _ => "bool"
  | JNum _ => "number"
  | JStr _ => "string"
  | JArr _ => "array"
  | JObj _ => "object"
  end.

Definition is_finite (f : float) : bool :=
  negb (PrimFloat.is_nan f) && negb (PrimFloat.is_infinity f).

(** Storing a value into a field; [null] leaves a field of these types as
    it is, and a value of another type is a type error. *)
Inductive stored (A : Type) : Type :=
| Set_to (a : A)
| Unchanged
| Mismatch (what : string).
Arguments Set_to {A} a.
Arguments Unchanged {A}.
Arguments Mismatch {A} what.

Definition store_string (v : json) : stored string :=
  match v with
  | JNull => Unchanged
  | JStr s => Set_to s
  | _ => Mismatch (describe v)
  end.

Definition store_float64 (v : json) : stored float :=
  match v with
  | JNull => Unchanged
  | JNum f => if is_finite f then Set_to f else Mismatch (describe v)
  | _ => Mismatch (describe v)
  end.

Definition store_bool (v : json) : stored bool :=
  match v with
  | JNull => Unchanged
  | JBool b => Set_to b
  | _ => Mismatch (describe v)
  end.

Definition type_error (what struct field type : string) : error :=
  JsonError ("json: cannot unmarshal " +:+ what +:+ " into Go struct field "
             +:+ struct +:+ "." +:+ field +:+ " of type " +:+ type).

Definition value_error (what type : string) : error :=
  JsonError ("json: cannot unmarshal " +:+ what +:+ " into Go value of type "
             +:+ type).

(** Field names are matched exactly and, failing that, up to case: the
    ASCII letters fold to their capitals, and so do the two other runes
    that fold to an ASCII letter, U+017F (to S) and U+212A (to K). *)
Definition foldRune (r : Z) : Z :=
  if (GoString.rune_lit "a"%char <=? r) && (r <=? GoString.rune_lit "z"%char)
  then r - 32
  else if r =? 0x17F then GoString.rune_lit "S"%char
  else if r =? 0x212A then GoString.rune_lit "K"%char
  else r.

Definition foldName (s : string) : list Z := foldRune <$> GoString.runes s.

Fixpoint find_index {A} (p : A -> bool) (l : list A) : option nat :=
  match l with
  | [] => None
  | a :: t => if p a then Some O else S <$> find_index p t
  end.

(** The position, in the list of a struct's tags, of the field a key of an
    object goes to. *)
Definition field_of (tags : list string) (key : string) : option nat :=
  match find_index (String.eqb key) tags with
  | Some i => Some i
  | None =>
      find_index (fun t => bool_decide (foldName t = foldName key)) tags
  end.

(** The members of an object are stored one after the other; a later
    member overrides an earlier one, a member that matches no field is
    skipped, and of the type errors the first is the one reported, after
    all members were gone through. *)
Fixpoint store_members {S : Type}
    (store : nat -> json -> S -> S * option error)
    (tags : list string) (members : list (string * json))
    (cur : S) (saved : option error) : S * option error :=
  match members with
  | [] => (cur, saved)
  | (key, v) :: rest =>
      match field_of tags key with
      | None => store_members store tags rest cur saved
      | Some i =>
          let '(cur', e) := store i v cur in
          store_members store tags rest cur'
            (match saved with Some _ => saved | None => e end)
      end
  end.

(** A document stored into a struct that starts out [zero]. *)
Definition into_struct {S : Type} (type : string) (zero : S)
    (store : nat -> json -> S -> S * option error)
    (tags : list string) (doc : json) : S * option error :=
  match doc with
  | JNull => (zero, None)
  | JObj members => store_members store tags members zero None
  | _ => (zero, Some (value_error (describe doc) type))
  end.

(** The outcome of storing into one field. *)
Definition field_set {A S : Type} (st : stored A) (set : A -> S)
    (cur : S) (struct field type : string) : S * option error :=
  match st with
  | Set_to a => (set a, None)
  | Unchanged => (cur, None)
  | Mismatch what => (cur, Some (type_error what struct field type))
  end.

(** [json.Unmarshal(data, &v)] for a [v] that is zero. *)
Definition Unmarshal {S : Type} (L : lib) (type : string) (zero : S)
    (store : nat -> json -> S -> S * option error) (tags : list string)
    (data : string) : res S :=
  match scan_document L data with
  | inl msg => Err (JsonError msg)
  | inr doc =>
      match into_struct type zero store tags doc with
      | (v, None) => Ok v
      | (_, Some e) => Err e
      end
  end.

(** [Marshal] of a [float64]: not-a-number and the infinities are
    unsupported values. *)
Definition marshal_float64 (f : float) : option json :=
  if is_finite f then Some (JNum f) else None.

(** [Marshal] of [map[string]string{key: value}]. *)
Definition marshal_map1 (key value : string) : json :=
  JObj [(key, JStr value)].

End JSON.
Export JSON(json(..)).

(** ** net/http *)

Module HTTP.

(** [http.Header]: the values of each key, under the canonical form of the
    key. *)
Abbreviation Header := (gmap string (list string)).

Definition is_lower (c : Z) : bool := (97 <=? c) && (c <=? 122).
Definition is_upper (c : Z) : bool := (65 <=? c) && (c <=? 90).
Definition is_decimal (c : Z) : bool := (48 <=? c) && (c <=? 57).

(** The bytes of a header field name (the token characters of RFC 7230). *)
Definition validHeaderFieldByte (a : ascii) : bool :=
  let c := GoString.byteZ a in
  is_lower c || is_upper c || is_decimal c
  || bool_decide (a ∈ bytes "!#$%&'*+-.^_`|~").

Definition shift_case (a : ascii) (d : Z) : ascii :=
  ascii_of_N (Z.to_N (GoString.byteZ a + d)).

(** The loop of [canonicalMIMEHeaderKey]: a capital at the start and after
    each dash, small letters elsewhere. *)
Fixpoint canonical_loop (upper : bool) (s : string) : string :=
  match s with
  | EmptyString => EmptyString
  | String a t =>
      let c :=
        if upper && is_lower (GoString.byteZ a) then shift_case a (-32)
        else if negb upper && is_upper (GoString.byteZ a) then shift_case a 32
        else a in
      String c (canonical_loop (bool_decide (c = "-"%char)) t)
  end.

(** [textproto.CanonicalMIMEHeaderKey]: a key with a byte that no field
    name can have is left as it is. *)
Definition CanonicalMIMEHeaderKey (s : string) : string :=
  if forallb validHeaderFieldByte (bytes s) then canonical_loop true s
  else s.

Definition Set_ (h : Header) (key value : string) : Header :=
  <[CanonicalMIMEHeaderKey key := [value]]> h.

Definition Del (h : Header) (key : string) : Header :=
  delete (CanonicalMIMEHeaderKey key) h.

Definition Get (h : Header) (key : string) : string :=
  match h !! CanonicalMIMEHeaderKey key with
  | Some (v :: _) => v
  | _ => ""
  end.

(** Status codes, as named in [net/http]. *)
Definition StatusOK : Z := 200.
Definition StatusBadRequest : Z := 400.
Definition StatusNotFound : Z := 404.
Definition StatusUnprocessableEntity : Z := 422.
Definition StatusInternalServerError : Z := 500.

(** An [http.ResponseWriter]: the header map the handler may still change,
    the status line once it is written (with the header as it was then),
    and the bytes of the body written so far. *)
Record ResponseWriter : Type := {
  header : Header;
  wrote : option (Z * Header);
  body : string
}.

Definition fresh : ResponseWriter :=
  {| header := ∅; wrote := None; body := "" |}.

Definition status (w : ResponseWriter) : option Z := fst <$> wrote w.

Definition with_header (f : Header -> Header) (w : ResponseWriter)
    : ResponseWriter :=
  {| header := f (header w); wrote := wrote w; body := body w |}.

(** [w.WriteHeader(code)]; a second call changes nothing.  The code is
    recorded as it is given: the handlers pass constants of [net/http], and
    the Gateway a status it received. *)
Definition WriteHeader (code : Z) (w : ResponseWriter) : ResponseWriter :=
  match wrote w with
  | Some _ => w
  | None => {| header := header w; wrote := Some (code, header w);
               body := body w |}
  end.

(** [w.Write(p)]; the first write sends the status 200 when none was
    sent. *)
Definition Write (p : string) (w : ResponseWriter) : ResponseWriter :=
  let w' := WriteHeader StatusOK w in
  {| header := header w'; wrote := wrote w'; body := body w' +:+ p |}.

Definition newline : string := String (ascii_of_nat 10) EmptyString.

(** [http.Error(w, msg, code)]. *)
Definition Error_ (msg : string) (code : Z) (w : ResponseWriter)
    : ResponseWriter :=
  let w1 := with_header (fun h => Del h "Content-Length") w in
  let w2 := with_header
              (fun h => Set_ h "Content-Type" "text/plain; charset=utf-8") w1 in
  let w3 := with_header
              (fun h => Set_ h "X-Content-Type-Options" "nosniff") w2 in
  Write (msg +:+ newline) (WriteHeader code w3).

(** What [io.ReadAll] gives for a body: all of it, or what was read before
    the failure and the failure. *)
Inductive read_result : Type :=
| ReadOk (data : string)
| ReadErr (partial : string) (msg : string).

(** The answer to an outgoing request: no response at all (the transport
    failed, with the text of the cause), or a response. *)
Inductive round_trip : Type :=
| NoResponse (cause : string)
| Response (status_code : Z) (resp_body : read_result).

(** An incoming request, as far as the handlers read it. *)
Record Request : Type := {
  req_header : Header;
  req_body : string
}.

(** An outgoing request. *)
Record Outgoing : Type := {
  out_method : string;
  out_url : string;
  out_header : Header
}.

End HTTP.

(** ** Effects

    Every function that acts on the outside world returns, next to its
    result, the events it caused, oldest first. *)

(** The arguments of a log line; a duration read off the clock around a call
    is not part of the model and is kept as [Measured]. *)
Inductive logarg : Type :=
| AInt (z : Z)
| AStr (s : string)
| AErr (e : error)
| ADuration (d : Z)
| Measured.

Inductive event : Type :=
| SpanStart (name : string)
| SpanEnd (name : string)
| RecordError (span msg : string)
| Getenv (key : string)
| HttpGet (url : string)
| NewRequest (method url : string)
| ClientDo (req : HTTP.Outgoing)
| Dial (attempt : Z) (target : string) (took : Z) (connected : bool)
| Sleep (d : Z)
| LogPrintf (format : string) (args : list logarg)
| SetTracerProvider
| SetTextMapPropagator
| ListenAndServe (port : string).

Definition Eff (A : Type) : Type := A * list event.

Definition ret {A} (a : A) : Eff A := (a, []).

Definition bind {A B} (m : Eff A) (k : A -> Eff B) : Eff B :=
  let '(a, l1) := m in
  let '(b, l2) := k a in
  (b, l1 ++ l2).

Definition emit (e : event) : Eff unit := (tt, [e]).

Definition result {A} (m : Eff A) : A := fst m.
Definition events {A} (m : Eff A) : list event := snd m.

Declare Scope eff_scope.
Delimit Scope eff_scope with eff.
Notation "'let*' x ':=' m 'in' k" := (bind m (fun x => k))
  (at level 10, x pattern, m at level 100, k at level 200) : eff_scope.
Notation "m ';;' k" := (bind m (fun _ => k))
  (at level 100, k at level 200, right associativity) : eff_scope.

(** [ctx, span := tracer.Start(ctx, name); defer span.End()] around the body
    of a function. *)
Definition in_span {A} (name : string) (body : Eff A) : Eff A :=
  (emit (SpanStart name);;
   let* a := body in
   emit (SpanEnd name);;
   ret a)%eff.

(** [os.Getenv]: the value of a variable, empty when it is not set. *)
Definition os_Getenv (environ : gmap string string) (key : string)
    : Eff string :=
  (emit (Getenv key);; ret (default "" (environ !! key)))%eff.

(** [json.NewEncoder(w).Encode(v)], given what [Marshal] makes of [v]: the
    document and a newline are written; a value that cannot be marshalled
    writes nothing (the handlers drop the error). *)
Definition Encode (L : JSON.lib) (doc : option json) (w : HTTP.ResponseWriter)
    : HTTP.ResponseWriter :=
  match doc with
  | Some j => HTTP.Write (JSON.render L j +:+ HTTP.newline) w
  | None => w
  end.

(** [url.QueryEscape]. *)
Module URL.

Definition unreserved (a : ascii) : bool :=
  let c := GoString.byteZ a in
  HTTP.is_lower c || HTTP.is_upper c || HTTP.is_decimal c
  || bool_decide (a ∈ bytes "-_.~").

Definition upperhex (n : Z) : ascii :=
  default "0"%char (bytes "0123456789ABCDEF" !! Z.to_nat n).

Fixpoint QueryEscape (s : string) : string :=
  match s with
  | EmptyString => EmptyString
  | String a t =>
      if unreserved a then String a (QueryEscape t)
      else if bool_decide (a = " "%char) then String "+"%char (QueryEscape t)
      else String "%"%char
             (String (upperhex (Z.shiftr (GoString.byteZ a) 4))
                (String (upperhex (Z.land (GoString.byteZ a) 15))
                   (QueryEscape t)))
  end.

End URL.

(** ** servico-b, the Resolver

    Span attributes are not recorded; everything else the handler does is. *)

Module ServicoB.

Record ViaCEPResponse : Type := {
  Cep : string;
  Logradouro : string;
  Complemento : string;
  Bairro : string;
  Localidade : string;
  UF : string;
  Erro : bool
}.

Record LocationT : Type := { Name : string }.
Record CurrentT : Type := { Current_TempC : float }.

Record WeatherAPIResponse : Type := {
  Location : LocationT;
  Current : CurrentT
}.

Record TemperatureResponse : Type := {
  City : string;
  TempC : float;
  TempF : float;
  TempK : float
}.

(** The [json] tags of the records, in the order of the fields. *)
Definition ViaCEPResponse_tags : list string :=
  ["cep"; "logradouro"; "complemento"; "bairro"; "localidade"; "uf"; "erro"].
Definition WeatherAPIResponse_tags : list string := ["location"; "current"].
Definition LocationT_tags : list string := ["name"].
Definition CurrentT_tags : list string := ["temp_c"].

Definition ViaCEPResponse_zero : ViaCEPResponse :=
  {| Cep := ""; Logradouro := ""; Complemento := ""; Bairro := "";
     Localidade := ""; UF := ""; Erro := false |}.
Definition WeatherAPIResponse_zero : WeatherAPIResponse :=
  {| Location := {| Name := "" |};
     Current := {| Current_TempC := 0%float |} |}.

Definition store_ViaCEPResponse (i : nat) (v : json) (r : ViaCEPResponse)
    : ViaCEPResponse * option error :=
  let str (set : string -> ViaCEPResponse) (field : string) :=
    JSON.field_set (JSON.store_string v) set r "ViaCEPResponse" field
      "string" in
  match i with
  | 0%nat => str (fun s => {| Cep := s; Logradouro := Logradouro r;
               Complemento := Complemento r; Bairro := Bairro r;
               Localidade := Localidade r; UF := UF r; Erro := Erro r |}) "cep"
  | 1%nat => str (fun s => {| Cep := Cep r; Logradouro := s;
               Complemento := Complemento r; Bairro := Bairro r;
               Localidade := Localidade r; UF := UF r; Erro := Erro r |})
               "logradouro"
  | 2%nat => str (fun s => {| Cep := Cep r; Logradouro := Logradouro r;
               Complemento := s; Bairro := Bairro r;
               Localidade := Localidade r; UF := UF r; Erro := Erro r |})
               "complemento"
  | 3%nat => str (fun s => {| Cep := Cep r; Logradouro := Logradouro r;
               Complemento := Complemento r; Bairro := s;
               Localidade := Localidade r; UF := UF r; Erro := Erro r |})
               "bairro"
  | 4%nat => str (fun s => {| Cep := Cep r; Logradouro := Logradouro r;
               Complemento := Complemento r; Bairro := Bairro r;
               Localidade := s; UF := UF r; Erro := Erro r |}) "localidade"
  | 5%nat => str (fun s => {| Cep := Cep r; Logradouro := Logradouro r;
               Complemento := Complemento r; Bairro := Bairro r;
               Localidade := Localidade r; UF := s; Erro := Erro r |}) "uf"
  | _ => JSON.field_set (JSON.store_bool v)
           (fun b => {| Cep := Cep r; Logradouro := Logradouro r;
               Complemento := Complemento r; Bairro := Bairro r;
               Localidade := Localidade r; UF := UF r; Erro := b |})
           r "ViaCEPResponse" "erro" "bool"
  end.

(** The two inner structs of [WeatherAPIResponse] have no name of their
    own; a value that is not an object is a type error on the field. *)
Definition store_LocationT (i : nat) (v : json) (r : LocationT)
    : LocationT * option error :=
  JSON.field_set (JSON.store_string v) (fun s => {| Name := s |}) r
    "WeatherAPIResponse" "location.name" "string".

Definition store_CurrentT (i : nat) (v : json) (r : CurrentT)
    : CurrentT * option error :=
  JSON.field_set (JSON.store_float64 v) (fun f => {| Current_TempC := f |}) r
    "WeatherAPIResponse" "current.temp_c" "float64".

Definition store_WeatherAPIResponse (i : nat) (v : json)
    (r : WeatherAPIResponse) : WeatherAPIResponse * option error :=
  match i with
  | 0%nat =>
      match v with
      | JNull => (r, None)
      | JObj members =>
          let '(l, e) := JSON.store_members store_LocationT LocationT_tags
                           members (Location r) None in
          ({| Location := l; Current := Current r |}, e)
      | _ => (r, Some (JSON.type_error (JSON.describe v) "WeatherAPIResponse"
                         "location" "struct { Name string }"))
      end
  | _ =>
      match v with
      | JNull => (r, None)
      | JObj members =>
          let '(c, e) := JSON.store_members store_CurrentT CurrentT_tags
                           members (Current r) None in
          ({| Location := Location r; Current := c |}, e)
      | _ => (r, Some (JSON.type_error (JSON.describe v) "WeatherAPIResponse"
                         "current" "struct { TempC float64 }"))
      end
  end.

Definition Unmarshal_ViaCEPResponse (L : JSON.lib) (data : string)
    : res ViaCEPResponse :=
  JSON.Unmarshal L "main.ViaCEPResponse" ViaCEPResponse_zero
    store_ViaCEPResponse ViaCEPResponse_tags data.

Definition Unmarshal_WeatherAPIResponse (L : JSON.lib) (data : string)
    : res WeatherAPIResponse :=
  JSON.Unmarshal L "main.WeatherAPIResponse" WeatherAPIResponse_zero
    store_WeatherAPIResponse WeatherAPIResponse_tags data.

Definition Marshal_TemperatureResponse (r : TemperatureResponse)
    : option json :=
  c ← JSON.marshal_float64 (TempC r);
  f ← JSON.marshal_float64 (TempF r);
  k ← JSON.marshal_float64 (TempK r);
  Some (JObj [("city", JStr (City r)); ("temp_C", c); ("temp_F", f);
              ("temp_K", k)]).

Fixpoint range_loop (rs : list Z) : bool :=
  match rs with
  | [] => true
  | char :: rest =>
      if (char <? rune_0) || (char >? rune_9) then false
      else range_loop rest
  end.

Definition validateCEP (cep : string) : bool :=
  if negb (GoString.len cep =? 8) then false
  else range_loop (GoString.runes cep).

(** The untyped constant [1.8] becomes the [float64] nearest to it; the
    product and the sum are binary64 operations, each rounded to nearest. *)
Definition const_1_8 : float := 0x1.ccccccccccccdp+0%float.

Definition celsiusToFahrenheit (c : float) : float :=
  (c * const_1_8 + 32)%float.

Definition celsiusToKelvin (c : float) : float := (c + 273)%float.

(** What the Resolver finds around it. *)
Record World : Type := {
  json_lib : JSON.lib;
  environ : gmap string string;
  http_get : string -> HTTP.round_trip
}.

(** [fmt.Sprintf("https://viacep.com.br/ws/%s/json/", cep)]. *)
Definition viacep_url (cep : string) : string :=
  "https://viacep.com.br/ws/" +:+ cep +:+ "/json/".

(** [fmt.Sprintf("http://api.weatherapi.com/v1/current.json?key=%s&q=%s&aqi=no",
    weatherAPIKey, encodedCity)]. *)
Definition weather_url (weatherAPIKey encodedCity : string) : string :=
  "http://api.weatherapi.com/v1/current.json?key=" +:+ weatherAPIKey
  +:+ "&q=" +:+ encodedCity +:+ "&aqi=no".

Section Handlers.

Variable W : World.

Definition http_Get (url : string) : Eff HTTP.round_trip :=
  (emit (HttpGet url);; ret (http_get W url))%eff.

Definition searchCEP_span : string := "servico-b.searchCEP".
Definition getTemperature_span : string := "servico-b.getTemperature".
Definition handleTemperature_span : string := "servico-b.handleTemperature".
Definition validateCEP_span : string := "servico-b.validateCEP".

Definition searchCEP (cep : string) : Eff (res ViaCEPResponse) :=
  in_span searchCEP_span
    (let url := viacep_url cep in
     let* resp := http_Get url in
     match resp with
     | HTTP.NoResponse cause =>
         let err := UrlError "Get" url cause in
         emit (RecordError searchCEP_span (Error err));;
         ret (Err err)
     | HTTP.Response StatusCode rd =>
         if StatusCode =? HTTP.StatusBadRequest then
           ret (Err (Errorf "invalid zipcode"))
         else
           match rd with
           | HTTP.ReadErr _ msg => ret (Err (IoError msg))
           | HTTP.ReadOk body =>
               match Unmarshal_ViaCEPResponse (json_lib W) body with
               | Err err => ret (Err err)
               | Ok viaCEPResp =>
                   if Erro viaCEPResp then
                     ret (Err (Errorf "can not find zipcode"))
                   else
                     emit (LogPrintf "CEP search took %v" [Measured]);;
                     ret (Ok viaCEPResp)
               end
           end
     end)%eff.

Definition getTemperature (city : string) : Eff (res float) :=
  in_span getTemperature_span
    (let* weatherAPIKey := os_Getenv (environ W) "WEATHER_API_KEY" in
     if String.eqb weatherAPIKey "" then
       ret (Err (Errorf "WEATHER_API_KEY not set"))
     else
       let encodedCity := URL.QueryEscape city in
       let url := weather_url weatherAPIKey encodedCity in
       let* resp := http_Get url in
       match resp with
       | HTTP.NoResponse cause =>
           let err := UrlError "Get" url cause in
           emit (RecordError getTemperature_span (Error err));;
           ret (Err err)
       | HTTP.Response StatusCode rd =>
           if negb (StatusCode =? HTTP.StatusOK) then
             let body := match rd with
                         | HTTP.ReadOk data => data
                         | HTTP.ReadErr partial _ => partial
                         end in
             emit (LogPrintf "Weather API error response: %s" [AStr body]);;
             ret (Err (Errorf ("weather API returned status "
                               +:+ itoa StatusCode +:+ ": " +:+ body)))
           else
             match rd with
             | HTTP.ReadErr _ msg => ret (Err (IoError msg))
             | HTTP.ReadOk body =>
                 match Unmarshal_WeatherAPIResponse (json_lib W)
                         body with
                 | Err err => ret (Err err)
                 | Ok weatherResp =>
                     emit (LogPrintf "Temperature search took %v"
                             [Measured]);;
                     ret (Ok (Current_TempC (Current weatherResp)))
                 end
             end
       end)%eff.

(** [w.WriteHeader(code)] followed by the encoding of
    [map[string]string{"error": msg}]. *)
Definition error_json (code : Z) (msg : string) (w : HTTP.ResponseWriter)
    : HTTP.ResponseWriter :=
  Encode (json_lib W) (Some (JSON.marshal_map1 "error" msg))
    (HTTP.WriteHeader code w).

Definition handleTemperature (r : HTTP.Request) (w : HTTP.ResponseWriter)
    : Eff HTTP.ResponseWriter :=
  in_span handleTemperature_span
    (let cep := HTTP.Get (HTTP.req_header r) "X-CEP" in
     if String.eqb cep "" then
       emit (RecordError handleTemperature_span "CEP not provided");;
       ret (error_json HTTP.StatusBadRequest "CEP header is required" w)
     else
       emit (SpanStart validateCEP_span);;
       let isValid := validateCEP cep in
       emit (SpanEnd validateCEP_span);;
       if negb isValid then
         emit (RecordError handleTemperature_span "invalid zipcode");;
         ret (error_json HTTP.StatusUnprocessableEntity "invalid zipcode" w)
       else
         let* found := searchCEP cep in
         match found with
         | Err err =>
             if String.eqb (Error err) "invalid zipcode" then
               emit (RecordError handleTemperature_span (Error err));;
               ret (error_json HTTP.StatusUnprocessableEntity
                      "invalid zipcode" w)
             else if String.eqb (Error err) "can not find zipcode" then
               emit (RecordError handleTemperature_span (Error err));;
               ret (error_json HTTP.StatusNotFound
                      "can not find zipcode" w)
             else
               emit (RecordError handleTemperature_span (Error err));;
               ret (HTTP.Error_ (Error err)
                      HTTP.StatusInternalServerError w)
         | Ok viaCEPResp =>
             let* got := getTemperature (Localidade viaCEPResp) in
             match got with
             | Err err =>
                 emit (RecordError handleTemperature_span (Error err));;
                 ret (HTTP.Error_ (Error err)
                        HTTP.StatusInternalServerError w)
             | Ok tempC =>
                 let tempF := celsiusToFahrenheit tempC in
                 let tempK := celsiusToKelvin tempC in
                 let response := {| City := Localidade viaCEPResp;
                                    TempC := tempC; TempF := tempF;
                                    TempK := tempK |} in
                 let w1 := HTTP.with_header
                             (fun h => HTTP.Set_ h "Content-Type"
                                         "application/json") w in
                 ret (Encode (json_lib W)
                        (Marshal_TemperatureResponse response)
                        (HTTP.WriteHeader HTTP.StatusOK w1))
             end
         end)%eff.

End Handlers.

End ServicoB.

(** ** servico-a, the Gateway *)

Module ServicoA.

Record CEPRequest : Type := { CEP : string }.

Record CEPResponse : Type := {
  City : string;
  TempC : float;
  TempF : float;
  TempK : float
}.

Definition CEPRequest_tags : list string := ["cep"].
Definition CEPResponse_tags : list string :=
  ["city"; "temp_C"; "temp_F"; "temp_K"].

Definition CEPRequest_zero : CEPRequest := {| CEP := "" |}.
Definition CEPResponse_zero : CEPResponse :=
  {| City := ""; TempC := 0%float; TempF := 0%float; TempK := 0%float |}.

Definition store_CEPRequest (i : nat) (v : json) (r : CEPRequest)
    : CEPRequest * option error :=
  JSON.field_set (JSON.store_string v) (fun s => {| CEP := s |}) r
    "CEPRequest" "cep" "string".

Definition store_CEPResponse (i : nat) (v : json) (r : CEPResponse)
    : CEPResponse * option error :=
  let num (set : float -> CEPResponse) (field : string) :=
    JSON.field_set (JSON.store_float64 v) set r "CEPResponse" field
      "float64" in
  match i with
  | 0%nat => JSON.field_set (JSON.store_string v)
               (fun s => {| City := s; TempC := TempC r; TempF := TempF r;
                            TempK := TempK r |})
               r "CEPResponse" "city" "string"
  | 1%nat => num (fun f => {| City := City r; TempC := f; TempF := TempF r;
                              TempK := TempK r |}) "temp_C"
  | 2%nat => num (fun f => {| City := City r; TempC := TempC r; TempF := f;
                              TempK := TempK r |}) "temp_F"
  | _ => num (fun f => {| City := City r; TempC := TempC r;
                          TempF := TempF r; TempK := f |}) "temp_K"
  end.

(** [json.NewDecoder(r.Body).Decode(&req)] for a [req] that is zero. *)
Definition Decode_CEPRequest (L : JSON.lib) (stream : string)
    : res CEPRequest :=
  match JSON.scan_stream L stream with
  | inl msg => Err (JsonError msg)
  | inr doc =>
      match JSON.into_struct "main.CEPRequest" CEPRequest_zero
              store_CEPRequest CEPRequest_tags doc with
      | (v, None) => Ok v
      | (_, Some e) => Err e
      end
  end.

Definition Unmarshal_CEPResponse (L : JSON.lib) (data : string)
    : res CEPResponse :=
  JSON.Unmarshal L "main.CEPResponse" CEPResponse_zero store_CEPResponse
    CEPResponse_tags data.

Definition Marshal_CEPResponse (r : CEPResponse) : option json :=
  c ← JSON.marshal_float64 (TempC r);
  f ← JSON.marshal_float64 (TempF r);
  k ← JSON.marshal_float64 (TempK r);
  Some (JObj [("city", JStr (City r)); ("temp_C", c); ("temp_F", f);
              ("temp_K", k)]).

Fixpoint range_loop (rs : list Z) : bool :=
  match rs with
  | [] => true
  | char :: rest =>
      if (char <? rune_0) || (char >? rune_9) then false
      else range_loop rest
  end.

Definition validateCEP (cep : string) : bool :=
  if negb (GoString.len cep =? 8) then false
  else range_loop (GoString.runes cep).

(** The propagator that is installed when a request is handled: none (the
    bootstrap failed, or the span is not sampled), or the W3C trace
    context, which writes the header [traceparent] and, when it is not
    empty, [tracestate]. *)
Inductive propagator : Type :=
| NoPropagation
| TraceContext (traceparent tracestate : string).

Definition Inject (p : propagator) (h : HTTP.Header) : HTTP.Header :=
  match p with
  | NoPropagation => h
  | TraceContext traceparent tracestate =>
      let h1 := if String.eqb tracestate "" then h
                else HTTP.Set_ h "tracestate" tracestate in
      HTTP.Set_ h1 "traceparent" traceparent
  end.

(** What the Gateway finds around it: [url_error] is the complaint of
    [http.NewRequestWithContext] about a URL it cannot parse, and
    [client_do] the answer to a request that was sent. *)
Record World : Type := {
  json_lib : JSON.lib;
  environ : gmap string string;
  url_error : string -> option string;
  propagation : propagator;
  client_do : HTTP.Outgoing -> HTTP.round_trip
}.

Section Handlers.

Variable W : World.

Definition handleCEP_span : string := "servico-a.handleCEP".
Definition validateCEP_span : string := "servico-a.validateCEP".
Definition callServicoB_span : string := "servico-a.callServicoB".

Definition client_Do (req : HTTP.Outgoing) : Eff HTTP.round_trip :=
  (emit (ClientDo req);; ret (client_do W req))%eff.

(** The request [handleCEP] sends: [http.NewRequestWithContext] with
    no body, the two [Header.Set] calls and the injection of the trace
    context. *)
Definition outgoing (url cep : string) : HTTP.Outgoing :=
  let h := HTTP.Set_ ∅ "Content-Type" "application/json" in
  let h := HTTP.Set_ h "X-CEP" cep in
  let h := Inject (propagation W) h in
  {| HTTP.out_method := "POST"; HTTP.out_url := url;
     HTTP.out_header := h |}.

Definition handleCEP (r : HTTP.Request) (w : HTTP.ResponseWriter)
    : Eff HTTP.ResponseWriter :=
  in_span handleCEP_span
    (match Decode_CEPRequest (json_lib W) (HTTP.req_body r) with
     | Err err =>
         emit (RecordError handleCEP_span (Error err));;
         ret (HTTP.Error_ "invalid request body" HTTP.StatusBadRequest w)
     | Ok req =>
         emit (SpanStart validateCEP_span);;
         let isValid := validateCEP (CEP req) in
         emit (SpanEnd validateCEP_span);;
         if negb isValid then
           emit (RecordError handleCEP_span "invalid zipcode");;
           ret (Encode (json_lib W)
                  (Some (JSON.marshal_map1 "error" "invalid zipcode"))
                  (HTTP.WriteHeader HTTP.StatusUnprocessableEntity w))
         else
           let* env := os_Getenv (environ W) "SERVICO_B_URL" in
           let servicoBURL :=
             if String.eqb env "" then "http://servico-b:8081" else env in
           in_span callServicoB_span
             (let url := servicoBURL +:+ "/temperature" in
              emit (NewRequest "POST" url);;
              match url_error W url with
              | Some reason =>
                  let err := UrlError "parse" url reason in
                  emit (RecordError callServicoB_span (Error err));;
                  ret (HTTP.Error_ (Error err)
                         HTTP.StatusInternalServerError w)
              | None =>
                  let httpReq := outgoing url (CEP req) in
                  let* resp := client_Do httpReq in
                  match resp with
                  | HTTP.NoResponse cause =>
                      let err := UrlError "Post" url cause in
                      emit (RecordError callServicoB_span (Error err));;
                      ret (HTTP.Error_ (Error err)
                             HTTP.StatusInternalServerError w)
                  | HTTP.Response StatusCode (HTTP.ReadErr _ msg) =>
                      emit (RecordError callServicoB_span msg);;
                      ret (HTTP.Error_ msg
                             HTTP.StatusInternalServerError w)
                  | HTTP.Response StatusCode (HTTP.ReadOk bodyBytes) =>
                      if negb (StatusCode =? HTTP.StatusOK) then
                        let w1 := HTTP.with_header
                                    (fun h => HTTP.Set_ h "Content-Type"
                                                "application/json") w in
                        ret (HTTP.Write bodyBytes
                               (HTTP.WriteHeader StatusCode w1))
                      else
                        match Unmarshal_CEPResponse (json_lib W)
                                bodyBytes with
                        | Err err =>
                            emit (RecordError callServicoB_span
                                    (Error err));;
                            ret (HTTP.Error_
                                   ("failed to decode response: "
                                    +:+ Error err)
                                   HTTP.StatusInternalServerError w)
                        | Ok cepResp =>
                            let w1 := HTTP.with_header
                                        (fun h => HTTP.Set_ h
                                                    "Content-Type"
                                                    "application/json") w in
                            ret (Encode (json_lib W)
                                   (Marshal_CEPResponse cepResp)
                                   (HTTP.WriteHeader HTTP.StatusOK w1))
                        end
                  end
              end)
     end)%eff.

End Handlers.

End ServicoA.

(** ** The tracing bootstrap

    [initProvider] is the same, line for line, in the two services; it is
    modelled once.  Durations are [time.Duration] values, in nanoseconds. *)

Module Otel.

Definition Second : Z := 1000000000.

(** How the collector takes one attempt to connect: it accepts the
    connection after some time, the attempt fails for good after some time
    (a target that cannot be used), or nothing ever answers. *)
Inductive collector_answer : Type :=
| Accepts (after : Z)
| Rejects (after : Z) (msg : string)
| Silent.

Record World : Type := {
  resource_error : option string;
  collector : Z -> collector_answer;
  exporter_error : option string
}.

(** [grpc.DialContext(ctx, target, ..., grpc.WithBlock())] under a context
    that expires after [timeout]: the call blocks until the connection is
    up, the attempt fails, or the context expires, whichever is first.  It
    gives the error, if any, and the time the call took. *)
Definition DialContext (timeout : Z) (a : collector_answer)
    : option error * Z :=
  match a with
  | Accepts after =>
      if after <? timeout then (None, after)
      else (Some (LibError "context deadline exceeded"), timeout)
  | Rejects after msg =>
      if after <? timeout then (Some (LibError msg), after)
      else (Some (LibError "context deadline exceeded"), timeout)
  | Silent => (Some (LibError "context deadline exceeded"), timeout)
  end.

(** What [shutdown] is bound to in [main]. *)
Inductive shutdown : Type :=
| TracerProviderShutdown
| NoShutdown.

(** How the retry loop is left: by [break] with a connection, by [return]
    with an error, or because its condition became false. *)
Inductive loop_exit : Type :=
| Break
| Return (err : error)
| Exhausted.

Definition maxRetries : Z := 20.
Definition retryDelay : Z := 2 * Second.
Definition dialTimeout : Z := 5 * Second.

Section Bootstrap.

Variable W : World.

(** [for i := 0; i < maxRetries; i++ { ... }], from the value [i] on;
    [rounds] bounds the number of iterations and [retry_loop] is started
    with as many as the condition allows. *)
Fixpoint retry_loop (collectorURL : string) (rounds : nat) (i : Z)
    : Eff loop_exit :=
  match rounds with
  | O => ret Exhausted
  | S k =>
      if negb (i <? maxRetries) then ret Exhausted
      else
        (let '(err, took) := DialContext dialTimeout (collector W i) in
         emit (Dial i collectorURL took (bool_decide (err = None)));;
         match err with
         | None =>
             emit (LogPrintf
                     "Successfully connected to OTEL collector after %d attempts"
                     [AInt (i + 1)]);;
             ret Break
         | Some e =>
             if i <? maxRetries - 1 then
               emit (LogPrintf
                       "Failed to connect to collector (attempt %d/%d): %v. Retrying in %v..."
                       [AInt (i + 1); AInt maxRetries; AErr e;
                        ADuration retryDelay]);;
               emit (Sleep retryDelay);;
               retry_loop collectorURL k (i + 1)
             else
               ret (Return
                      (Wrapped ("failed to create gRPC connection to collector after "
                                +:+ itoa maxRetries +:+ " attempts: ") e))
         end)%eff
  end.

Definition initProvider (serviceName collectorURL : string)
    : Eff (res shutdown) :=
  match resource_error W with
  | Some msg =>
      ret (Err (Wrapped "failed to create resource: " (LibError msg)))
  | None =>
      (let* exit := retry_loop collectorURL (Z.to_nat maxRetries) 0 in
       match exit with
       | Return err => ret (Err err)
       | Break | Exhausted =>
           match exporter_error W with
           | Some msg =>
               ret (Err (Wrapped "failed to create trace exporter: "
                           (LibError msg)))
           | None =>
               emit SetTracerProvider;;
               emit SetTextMapPropagator;;
               ret (Ok TracerProviderShutdown)
           end
       end)%eff
  end.

(** [main] up to the point where the server is started: the defaults of
    the service are its name and its port. *)
Definition main (environ : gmap string string)
    (default_name default_port started : string) : Eff shutdown :=
  (let* env := os_Getenv environ "OTEL_EXPORTER_OTLP_ENDPOINT" in
   let collectorURL :=
     if String.eqb env "" then "otel-collector:4317" else env in
   let* env := os_Getenv environ "OTEL_SERVICE_NAME" in
   let serviceName := if String.eqb env "" then default_name else env in
   let* r := initProvider serviceName collectorURL in
   let* shutdown :=
     match r with
     | Err err =>
         emit (LogPrintf
                 "Warning: Failed to initialize OTEL provider: %v. Continuing without tracing."
                 [AErr err]);;
         ret NoShutdown
     | Ok s => ret s
     end in
   let* env := os_Getenv environ "HTTP_PORT" in
   let port := if String.eqb env "" then default_port else env in
   emit (LogPrintf started [AStr port]);;
   emit (ListenAndServe port);;
   ret shutdown)%eff.

Definition main_servico_a (environ : gmap string string) : Eff shutdown :=
  main environ "servico-a" ":8080" "Serviço A iniciado na porta %s".

Definition main_servico_b (environ : gmap string string) : Eff shutdown :=
  main environ "servico-b" ":8081" "Serviço B iniciado na porta %s".

End Bootstrap.

(** The time a run spent in connection attempts and in sleeps. *)
Fixpoint elapsed (l : list event) : Z :=
  match l with
  | [] => 0
  | Dial _ _ took _ :: t => took + elapsed t
  | Sleep d :: t => d + elapsed t
  | _ :: t => elapsed t
  end.

Fixpoint slept (l : list event) : Z :=
  match l with
  | [] => 0
  | Sleep d :: t => d + slept t
  | _ :: t => slept t
  end.

Fixpoint attempts (l : list event) : Z :=
  match l with
  | [] => 0
  | Dial _ _ _ _ :: t => 1 + attempts t
  | _ :: t => attempts t
  end.

Fixpoint failed_attempts (l : list event) : Z :=
  match l with
  | [] => 0
  | Dial _ _ _ false :: t => 1 + failed_attempts t
  | _ :: t => failed_attempts t
  end.

End Otel.

(** ** The two services together *)

Module Pipeline.

(** The request the Resolver's handler sees for a request the Gateway
    sent: the same header fields, and no body. *)
Definition deliver (out : HTTP.Outgoing) : HTTP.Request :=
  {| HTTP.req_header := HTTP.out_header out; HTTP.req_body := "" |}.

(** The Resolver as the Gateway's peer. *)
Definition resolver (WB : ServicoB.World) (out : HTTP.Outgoing)
    : HTTP.round_trip :=
  let w := result (ServicoB.handleTemperature WB (deliver out) HTTP.fresh) in
  HTTP.Response (default HTTP.StatusOK (HTTP.status w))
    (HTTP.ReadOk (HTTP.body w)).

Definition gateway_world (L : JSON.lib) (environ : gmap string string)
    (p : ServicoA.propagator) (WB : ServicoB.World) : ServicoA.World :=
  {| ServicoA.json_lib := L; ServicoA.environ := environ;
     ServicoA.url_error := fun _ => None; ServicoA.propagation := p;
     ServicoA.client_do := resolver WB |}.

End Pipeline.

(** ** What the statements below speak of *)

(** The handler answered with this status and this body. *)
Definition answered (w : HTTP.ResponseWriter) (code : Z) (text : string)
    : Prop :=
  HTTP.status w = Some code ∧ HTTP.body w = text.

(** The body [json.NewEncoder(w).Encode(map[string]string{"error": msg})]
    writes. *)
Definition error_body (L : JSON.lib) (msg : string) : string :=
  JSON.render L (JObj [("error", JStr msg)]) +:+ HTTP.newline.

(** The two texts by which [handleTemperature] tells the failures of
    [searchCEP] apart. *)
Definition not_a_sentinel (msg : string) : Prop :=
  msg ≠ "invalid zipcode" ∧ msg ≠ "can not find zipcode".

(** No part of the weather lookup took place: its span was not opened, the
    key was not read and the only GET, if any, went to the directory. *)
Definition no_weather_lookup (cep : string) (l : list event) : Prop :=
  (SpanStart ServicoB.getTemperature_span ∉ l)
  ∧ (Getenv "WEATHER_API_KEY" ∉ l)
  ∧ (∀ u, HttpGet u ∈ l → u = ServicoB.viacep_url cep).

(** The URL the Gateway calls: the value of [SERVICO_B_URL], or its default,
    followed by the path of the Resolver's endpoint. *)
Definition resolver_url (W : ServicoA.World) : string :=
  let env := default "" (ServicoA.environ W !! "SERVICO_B_URL") in
  (if String.eqb env "" then "http://servico-b:8081" else env)
  +:+ "/temperature".

(** The last part of [handleCEP], from the answer to its request on. *)
Definition after (W : ServicoA.World) (answer : HTTP.round_trip)
    : Eff HTTP.ResponseWriter :=
  let L := ServicoA.json_lib W in
  let cspan := ServicoA.callServicoB_span in
  match answer with
  | HTTP.NoResponse cause =>
      let err := UrlError "Post" (resolver_url W) cause in
      (emit (RecordError cspan (Error err));;
       ret (HTTP.Error_ (Error err) 500 HTTP.fresh))%eff
  | HTTP.Response StatusCode (HTTP.ReadErr _ msg) =>
      (emit (RecordError cspan msg);;
       ret (HTTP.Error_ msg 500 HTTP.fresh))%eff
  | HTTP.Response StatusCode (HTTP.ReadOk bodyBytes) =>
      let w1 := HTTP.with_header
                  (fun h => HTTP.Set_ h "Content-Type" "application/json")
                  HTTP.fresh in
      if negb (StatusCode =? 200) then
        ret (HTTP.Write bodyBytes (HTTP.WriteHeader StatusCode w1))
      else
        match ServicoA.Unmarshal_CEPResponse L bodyBytes with
        | Err err =>
            (emit (RecordError cspan (Error err));;
             ret (HTTP.Error_ ("failed to decode response: " +:+ Error err)
                    500 HTTP.fresh))%eff
        | Ok cepResp =>
            ret (Encode L (ServicoA.Marshal_CEPResponse cepResp)
                   (HTTP.WriteHeader 200 w1))
        end
  end.

(** The error [initProvider] returns when the retry loop gave up. *)
Definition connection_error (e : error) : Prop :=
  ∃ cause,
    e = Wrapped ("failed to create gRPC connection to collector after "
                 +:+ itoa Otel.maxRetries +:+ " attempts: ") cause.

(** Start-up is held up by the bootstrap for at most [bound], whatever the
    collector does. *)
Definition blocks_at_most (bound : Z) : Prop :=
  ∀ W serviceName collectorURL,
    Otel.elapsed (events (Otel.initProvider W serviceName collectorURL))
    <= bound.

(** The value of a variable of the environment, or a default. *)
Definition env_or (environ : gmap string string) (key fallback : string)
    : string :=
  if String.eqb (default "" (environ !! key)) "" then fallback
  else default "" (environ !! key).

(** Nothing was sent, and no request was even built. *)
Definition no_outbound_request (l : list event) : Prop :=
  (∀ m u, NewRequest m u ∉ l) ∧ (∀ req, ClientDo req ∉ l)
  ∧ (∀ u, HttpGet u ∉ l).

(** A byte string of decimal digits only. *)
Definition all_digits (s : string) : Prop :=
  Forall (fun c => is_digit c = true) (bytes s).

(** A rune that is one of ['0'] .. ['9'], as the loops of the validators
    test it. *)
Definition digit_rune (r : Z) : bool := negb ((r <? rune_0) || (r >? rune_9)).

(** A type error of the decoder; its text starts in a way of its own. *)
Definition is_type_error (e : error) : Prop :=
  ∃ rest, e = JsonError ("json: cannot unmarshal " +:+ rest).

(** ** Sample surroundings, for the examples *)

Module Samples.

(** The text of a number, for the few numbers the examples use. *)
Definition number_text (f : float) : string :=
  if PrimFloat.eqb f 28.5 then "28.5"
  else if PrimFloat.eqb f 0x1.4d33333333334p+6 then "83.30000000000001"
  else if PrimFloat.eqb f 301.5 then "301.5"
  else "0".

Fixpoint text (j : json) : string :=
  match j with
  | JNull => "null"
  | JBool true => "true"
  | JBool false => "false"
  | JNum f => number_text f
  | JStr s => quote s
  | JArr _ => "[]"
  | JObj members =>
      "{" +:+ (fix go (ms : list (string * json)) : string :=
                 match ms with
                 | [] => ""
                 | (k, v) :: rest =>
                     quote k +:+ ":" +:+ text v
                     +:+ match rest with
                         | [] => ""
                         | _ :: _ => "," +:+ go rest
                         end
                 end) members +:+ "}"
  end.

Definition cep_request (cep : string) : json := JObj [("cep", JStr cep)].

Definition sao_paulo : json :=
  JObj [("cep", JStr "01310-100"); ("logradouro", JStr "Avenida Paulista");
        ("localidade", JStr "São Paulo"); ("uf", JStr "SP")].

Definition not_found : json := JObj [("erro", JBool true)].

Definition weather : json :=
  JObj [("location", JObj [("name", JStr "Sao Paulo")]);
        ("current", JObj [("temp_c", JNum 28.5)])].

Definition temperature : json :=
  JObj [("city", JStr "São Paulo"); ("temp_C", JNum 28.5);
        ("temp_F", JNum 0x1.4d33333333334p+6); ("temp_K", JNum 301.5)].

(** The documents the sample library can read back. *)
Definition known : list json :=
  [cep_request "123"; cep_request "01310100"; cep_request "99999999";
   sao_paulo; not_found; weather; temperature;
   JObj [("error", JStr "invalid zipcode")];
   JObj [("error", JStr "can not find zipcode")]].

Definition scan (input : string) : string + json :=
  match List.find (fun j => String.eqb (text j) input
                            || String.eqb (text j +:+ HTTP.newline) input)
          known with
  | Some j => inr j
  | None => inl "invalid character looking for beginning of value"
  end.

Definition lib : JSON.lib :=
  {| JSON.scan_document := scan; JSON.scan_stream := scan;
     JSON.render := text |}.

Definition weather_key : string := "secret".

(** A directory that knows one postal code, answers 400 to another and
    does not answer at all for a third; a weather service that knows one
    city. *)
Definition http_get (url : string) : HTTP.round_trip :=
  if String.eqb url (ServicoB.viacep_url "01310100") then
    HTTP.Response 200 (HTTP.ReadOk (text sao_paulo))
  else if String.eqb url (ServicoB.viacep_url "99999999") then
    HTTP.Response 200 (HTTP.ReadOk (text not_found))
  else if String.eqb url (ServicoB.viacep_url "00000000") then
    HTTP.Response 400 (HTTP.ReadOk "Bad Request")
  else if String.eqb url (ServicoB.viacep_url "11111111") then
    HTTP.Response 200 (HTTP.ReadErr "" "unexpected EOF")
  else if String.eqb url (ServicoB.viacep_url "22222222") then
    HTTP.Response 200 (HTTP.ReadOk "<html>")
  else if String.eqb url
            (ServicoB.weather_url weather_key (URL.QueryEscape "São Paulo"))
  then HTTP.Response 200 (HTTP.ReadOk (text weather))
  else HTTP.NoResponse "dial tcp: connection refused".

Definition resolver_world : ServicoB.World :=
  {| ServicoB.json_lib := lib;
     ServicoB.environ := {[ "WEATHER_API_KEY" := weather_key ]};
     ServicoB.http_get := http_get |}.

(** The same, with no weather key in the environment. *)
Definition resolver_world_no_key : ServicoB.World :=
  {| ServicoB.json_lib := lib; ServicoB.environ := ∅;
     ServicoB.http_get := http_get |}.

Definition resolver_request (cep : string) : HTTP.Request :=
  {| HTTP.req_header := HTTP.Set_ ∅ "X-CEP" cep; HTTP.req_body := "" |}.

Definition no_header : HTTP.Request :=
  {| HTTP.req_header := ∅; HTTP.req_body := "" |}.

Definition gateway_world : ServicoA.World :=
  Pipeline.gateway_world lib ∅
    (ServicoA.TraceContext
       "00-4bf92f3577b34da6a3ce929d0e0e4736-00f067aa0ba902b7-01" "")
    resolver_world.

Definition gateway_request (cep : string) : HTTP.Request :=
  {| HTTP.req_header := ∅; HTTP.req_body := text (cep_request cep) |}.

(** A collector that never answers, one that answers the third attempt,
    and the surroundings of the bootstrap with each. *)
Definition silent_collector : Otel.World :=
  {| Otel.resource_error := None; Otel.collector := fun _ => Otel.Silent;
     Otel.exporter_error := None |}.

Definition late_collector : Otel.World :=
  {| Otel.resource_error := None;
     Otel.collector := fun i => if i <? 2 then Otel.Silent
                                else Otel.Accepts 1000000;
     Otel.exporter_error := None |}.

End Samples.

(** ** More of what the statements speak of *)

(** The URLs of the GET requests of a log, in the order they were sent. *)
Fixpoint gets (l : list event) : list string :=
  match l with
  | [] => []
  | HttpGet u :: t => u :: gets t
  | _ :: t => gets t
  end.


(** The texts of the errors recorded on a span. *)
Fixpoint recorded (span : string) (l : list event) : list string :=
  match l with
  | [] => []
  | RecordError s msg :: t =>
      if String.eqb s span then msg :: recorded span t else recorded span t
  | _ :: t => recorded span t
  end.

(** Spans are opened and ended like brackets, an error is recorded only on
    a span that is open, and requests go out only while a span is open;
    [open] holds the spans that are open, innermost first. *)
Fixpoint nested (open : list string) (l : list event) : bool :=
  match l with
  | [] => match open with [] => true | _ :: _ => false end
  | SpanStart n :: t => nested (n :: open) t
  | SpanEnd n :: t =>
      match open with
      | m :: rest => String.eqb n m && nested rest t
      | [] => false
      end
  | RecordError n _ :: t => existsb (String.eqb n) open && nested open t
  | HttpGet _ :: t | ClientDo _ :: t =>
      match open with
      | [] => false
      | _ :: _ => nested open t
      end
  | _ :: t => nested open t
  end.

(** How [handleTemperature] answers a failed directory lookup. *)
Definition answer_for (W : ServicoB.World) (err : error)
    : HTTP.ResponseWriter :=
  if String.eqb (Error err) "invalid zipcode" then
    ServicoB.error_json W 422 "invalid zipcode" HTTP.fresh
  else if String.eqb (Error err) "can not find zipcode" then
    ServicoB.error_json W 404 "can not find zipcode" HTTP.fresh
  else HTTP.Error_ (Error err) 500 HTTP.fresh.

(** The result [handleTemperature] builds from a place and a reading. *)
Definition reading (city : string) (tempC : float)
    : ServicoB.TemperatureResponse :=
  {| ServicoB.City := city; ServicoB.TempC := tempC;
     ServicoB.TempF := ServicoB.celsiusToFahrenheit tempC;
     ServicoB.TempK := ServicoB.celsiusToKelvin tempC |}.

(** The header of a response written with [http.Error], and of one written
    after [Content-Type] was set to JSON. *)
Definition plain_text_header : HTTP.Header :=
  {[ "Content-Type" := ["text/plain; charset=utf-8"];
     "X-Content-Type-Options" := ["nosniff"] ]}.

Definition json_header : HTTP.Header :=
  {[ "Content-Type" := ["application/json"] ]}.

(** One string occurs inside another. *)
Fixpoint has_prefix (p s : string) : bool :=
  match p, s with
  | EmptyString, _ => true
  | String a p', String b s' => Ascii.eqb a b && has_prefix p' s'
  | String _ _, EmptyString => false
  end.

Fixpoint contains (p s : string) : bool :=
  has_prefix p s
  || match s with
     | EmptyString => false
     | String _ s' => contains p s'
     end.

(** The bytes [url.QueryEscape] can produce. *)
Definition query_safe (a : ascii) : bool :=
  URL.unreserved a || bool_decide (a = "+"%char) || bool_decide (a = "%"%char).

(** The value of a hexadecimal digit, as [unhex] of [net/url] gives it;
    0 stands for its panic on another byte. *)
Definition unhex (c : ascii) : Z :=
  let b := GoString.byteZ c in
  if (48 <=? b) && (b <=? 57) then b - 48
  else if (97 <=? b) && (b <=? 102) then b - 97 + 10
  else if (65 <=? b) && (b <=? 70) then b - 65 + 10
  else 0.

(** The key [getTemperature] reads, and the URL it asks for a city. *)
Definition weather_key_of (W : ServicoB.World) : string :=
  default "" (ServicoB.environ W !! "WEATHER_API_KEY").

Definition weather_url_of (W : ServicoB.World) (city : string) : string :=
  ServicoB.weather_url (weather_key_of W) (URL.QueryEscape city).

(** What was read of a body, whether or not reading failed. *)
Definition read_so_far (rd : HTTP.read_result) : string :=
  match rd with
  | HTTP.ReadOk data => data
  | HTTP.ReadErr partial _ => partial
  end.

(** Storing [v] into field [i] of a [ViaCEPResponse] is a type error. *)
Definition ill_typed (i : nat) (v : json) : bool :=
  match (ServicoB.store_ViaCEPResponse i v ServicoB.ViaCEPResponse_zero).2 with
  | Some _ => true
  | None => false
  end.

(** What the Gateway's log starts with once a code passed validation and
    the request to the Resolver is being built. *)
Definition gateway_prelude (W : ServicoA.World) : list event :=
  [SpanStart ServicoA.handleCEP_span; SpanStart ServicoA.validateCEP_span;
   SpanEnd ServicoA.validateCEP_span; Getenv "SERVICO_B_URL";
   SpanStart ServicoA.callServicoB_span;
   NewRequest "POST" (resolver_url W)].


(** A document that cannot be stored into a [CEPRequest]: it is neither
    an object nor [null], or one of its members goes to the field and is
    neither a string nor [null]. *)
Definition unfit_for_CEPRequest (doc : json) : Prop :=
  match doc with
  | JNull => False
  | JObj members =>
      ∃ key val i, (key, val) ∈ members
                   ∧ JSON.field_of ServicoA.CEPRequest_tags key = Some i
                   ∧ JSON.store_string val = JSON.Mismatch (JSON.describe val)
  | _ => True
  end.

(** A request body the Gateway cannot decode: the text is not JSON, or
    the document does not fit. *)
Definition malformed_request (L : JSON.lib) (data : string) : Prop :=
  match JSON.scan_stream L data with
  | inl _ => True
  | inr doc => unfit_for_CEPRequest doc
  end.

(** A document that leaves a [CEPRequest] as it was, with an empty code:
    [null], or an object whose members all go to no field or are
    [null]. *)
Definition without_cep (doc : json) : Prop :=
  match doc with
  | JNull => True
  | JObj members =>
      Forall (fun m => JSON.field_of ServicoA.CEPRequest_tags m.1 = None
                       ∨ m.2 = JNull) members
  | _ => False
  end.

(** The three numbers of a record of the Gateway are finite. *)
Definition finite_CEPResponse (c : ServicoA.CEPResponse) : Prop :=
  JSON.is_finite (ServicoA.TempC c) = true
  ∧ JSON.is_finite (ServicoA.TempF c) = true
  ∧ JSON.is_finite (ServicoA.TempK c) = true.

(** The variables of the environment a log shows as read, and the ports
    it shows a server started on, in order. *)
Fixpoint env_reads (l : list event) : list string :=
  match l with
  | [] => []
  | Getenv key :: t => key :: env_reads t
  | _ :: t => env_reads t
  end.

Fixpoint served (l : list event) : list string :=
  match l with
  | [] => []
  | ListenAndServe port :: t => port :: served t
  | _ :: t => served t
  end.

(** What the retry loop can leave in a log: attempts to connect to the
    address it was given, numbered within the bound, log lines and
    sleeps. *)
Definition of_retry_loop (target : string) (e : event) : Prop :=
  match e with
  | Dial i u _ _ => u = target ∧ 0 <= i < Otel.maxRetries
  | LogPrintf _ _ | Sleep _ => True
  | _ => False
  end.

(** The collector accepts attempt [i] in time. *)
Definition connects (W : Otel.World) (i : Z) : Prop :=
  (Otel.DialContext Otel.dialTimeout (Otel.collector W i)).1 = None.

(** ** More sample surroundings *)

Module MoreSamples.

(** A reading so hot that its Fahrenheit value is beyond [float64]. *)
Definition hot_weather : json :=
  JObj [("location", JObj [("name", JStr "Sao Paulo")]);
        ("current", JObj [("temp_c", JNum 0x1.2p+1023)])].

(** The directory's error flag, sent as a string. *)
Definition erro_as_string : json := JObj [("erro", JStr "true")].

Definition empty_object : json := JObj [].

Definition cep_as_number : json := JObj [("cep", JNum 28.5)].

Definition known : list json :=
  Samples.known ++ [hot_weather; erro_as_string; empty_object; cep_as_number].

Definition scan (input : string) : string + json :=
  match List.find (fun j => String.eqb (Samples.text j) input
                            || String.eqb (Samples.text j +:+ HTTP.newline)
                                 input)
          known with
  | Some j => inr j
  | None => inl "invalid character looking for beginning of value"
  end.

Definition lib : JSON.lib :=
  {| JSON.scan_document := scan; JSON.scan_stream := scan;
     JSON.render := Samples.text |}.

Definition sao_paulo_weather_url : string :=
  ServicoB.weather_url Samples.weather_key (URL.QueryEscape "São Paulo").

(** A directory as in [Samples], and a weather service that answers as
    [weather] says. *)
Definition resolver_world (directory : string) (weather : HTTP.round_trip)
    : ServicoB.World :=
  {| ServicoB.json_lib := lib;
     ServicoB.environ := {[ "WEATHER_API_KEY" := Samples.weather_key ]};
     ServicoB.http_get := fun url =>
       if String.eqb url sao_paulo_weather_url then weather
       else if String.eqb url (ServicoB.viacep_url "01310100") then
         HTTP.Response 200 (HTTP.ReadOk directory)
       else HTTP.NoResponse "dial tcp: connection refused" |}.

Definition weather_unavailable : ServicoB.World :=
  resolver_world (Samples.text Samples.sao_paulo)
    (HTTP.Response 503 (HTTP.ReadOk "Service Unavailable")).

Definition weather_unreachable : ServicoB.World :=
  resolver_world (Samples.text Samples.sao_paulo)
    (HTTP.NoResponse "dial tcp: i/o timeout").

Definition weather_too_hot : ServicoB.World :=
  resolver_world (Samples.text Samples.sao_paulo)
    (HTTP.Response 200 (HTTP.ReadOk (Samples.text hot_weather))).

Definition directory_flag_as_string : ServicoB.World :=
  resolver_world (Samples.text erro_as_string)
    (HTTP.Response 200 (HTTP.ReadOk (Samples.text Samples.weather))).

(** A Gateway whose peer answers every request in the same way. *)
Definition gateway_world (environ : gmap string string)
    (answer : HTTP.round_trip) : ServicoA.World :=
  {| ServicoA.json_lib := lib; ServicoA.environ := environ;
     ServicoA.url_error := fun _ => None;
     ServicoA.propagation := ServicoA.NoPropagation;
     ServicoA.client_do := fun _ => answer |}.

Definition request_with_body (data : string) : HTTP.Request :=
  {| HTTP.req_header := ∅; HTTP.req_body := data |}.


End MoreSamples.

(** * Properties *)

(** ** The validator *)

Section Validator.

Lemma byteZ_range (a : ascii) : 0 <= GoString.byteZ a < 256.
Proof.
  unfold GoString.byteZ.
  pose proof (N_ascii_bounded a) as H. lia.
Qed.

(** Whatever the decoder returns for a byte that is not ASCII lies above
    every ASCII character. *)
Lemma decoderune_above_ascii (s : string) :
  GoString.rune1Max < (GoString.decoderune s).1.
Proof.
  unfold GoString.decoderune.
  repeat match goal with
         | |- context [if ?b then _ else _] => destruct b eqn:?
         end; cbn [fst];
    repeat match goal with
           | H : _ && _ = true |- _ => apply andb_true_iff in H as [? ?]
           end;
    repeat match goal with
           | H : Z.ltb _ _ = true |- _ => apply Z.ltb_lt in H
           end;
    unfold GoString.rune1Max, GoString.rune2Max, GoString.rune3Max,
      GoString.runeError in *; lia.
Qed.

Lemma next_rune_ascii (c : ascii) (t : string) :
  GoString.byteZ c < GoString.runeSelf →
  GoString.next_rune (String c t) = (GoString.byteZ c, 1%nat).
Proof.
  intros H. unfold GoString.next_rune. cbn [GoString.index].
  apply Z.ltb_lt in H. rewrite H. reflexivity.
Qed.

Lemma next_rune_other (c : ascii) (t : string) :
  GoString.runeSelf <= GoString.byteZ c →
  GoString.rune1Max < (GoString.next_rune (String c t)).1.
Proof.
  intros H. unfold GoString.next_rune. cbn [GoString.index].
  apply Z.ltb_ge in H. rewrite H. apply decoderune_above_ascii.
Qed.

Lemma is_digit_ascii (c : ascii) :
  is_digit c = true → GoString.byteZ c < GoString.runeSelf.
Proof.
  unfold is_digit, rune_9, GoString.rune_lit, GoString.runeSelf.
  intros [_ H]%andb_true_iff. apply Z.leb_le in H.
  change (GoString.byteZ "9") with 57 in H. lia.
Qed.

(** [is_digit] holds of the ten digits and of no other byte. *)
Lemma is_digit_iff (c : ascii) :
  is_digit c = true ↔ c ∈ bytes "0123456789".
Proof.
  split.
  - intros H.
    destruct c as [[] [] [] [] [] [] [] []]; try discriminate H;
      cbn [bytes]; set_solver.
  - intros H. cbn [bytes] in H.
    repeat (apply elem_of_cons in H as [->|H]; [reflexivity|]).
    by apply elem_of_nil in H.
Qed.

Lemma range_loop_forallb (rs : list Z) :
  ServicoA.range_loop rs = forallb digit_rune rs.
Proof.
  induction rs as [|r rs IH]; [reflexivity|].
  cbn [ServicoA.range_loop forallb]. unfold digit_rune at 1.
  destruct ((r <? rune_0) || (r >? rune_9)); [reflexivity|exact IH].
Qed.

Lemma range_loops_agree (rs : list Z) :
  ServicoB.range_loop rs = ServicoA.range_loop rs.
Proof.
  induction rs as [|r rs IH]; [reflexivity|].
  cbn [ServicoA.range_loop ServicoB.range_loop]. rewrite IH. reflexivity.
Qed.

Lemma digit_rune_byte (c : ascii) :
  digit_rune (GoString.byteZ c) = is_digit c.
Proof.
  unfold digit_rune, is_digit.
  rewrite negb_orb, Z.gtb_ltb, <- Z.leb_antisym, <- Z.leb_antisym.
  reflexivity.
Qed.

(** Over the runes of the whole string, the loop comes to the same as a
    test of every byte. *)
Lemma runes_all_digits (n : nat) (s : string) :
  (String.length s <= n)%nat →
  forallb digit_rune (GoString.runes_from n s) = forallb is_digit (bytes s).
Proof.
  revert s. induction n as [|n IH]; intros s Hn.
  - destruct s; [reflexivity|cbn in Hn; lia].
  - destruct s as [|c t]; [reflexivity|].
    cbn [GoString.runes_from bytes forallb].
    destruct (Z.lt_ge_cases (GoString.byteZ c) GoString.runeSelf) as [Hc|Hc].
    + rewrite next_rune_ascii by assumption.
      cbn [forallb GoString.drop]. rewrite digit_rune_byte.
      rewrite IH by (cbn in Hn; lia). reflexivity.
    + pose proof (next_rune_other c t Hc) as Hr.
      destruct (GoString.next_rune (String c t)) as [r w]. cbn [fst] in Hr.
      cbn [forallb].
      assert (digit_rune r = false) as ->.
      { unfold digit_rune. apply negb_false_iff, orb_true_iff. right.
        apply Z.gtb_lt. unfold GoString.rune1Max in Hr.
        change rune_9 with 57. lia. }
      assert (is_digit c = false) as ->; [|reflexivity].
      destruct (is_digit c) eqn:E; [|reflexivity].
      apply is_digit_ascii in E. lia.
Qed.

Lemma validateCEP_A_bytes (cep : string) :
  ServicoA.validateCEP cep
  = (String.length cep =? 8)%nat && forallb is_digit (bytes cep).
Proof.
  unfold ServicoA.validateCEP, GoString.len, GoString.runes.
  rewrite range_loop_forallb, runes_all_digits by lia.
  destruct (Nat.eqb_spec (String.length cep) 8) as [->|Hne].
  - reflexivity.
  - destruct (Z.eqb_spec (Z.of_nat (String.length cep)) 8); [lia|reflexivity].
Qed.

Lemma validators_agree (cep : string) :
  ServicoB.validateCEP cep = ServicoA.validateCEP cep.
Proof.
  unfold ServicoB.validateCEP, ServicoA.validateCEP.
  rewrite range_loops_agree. reflexivity.
Qed.

Lemma validateCEP_A_spec (cep : string) :
  ServicoA.validateCEP cep = true
  ↔ String.length cep = 8%nat ∧ all_digits cep.
Proof.
  rewrite validateCEP_A_bytes, andb_true_iff, Nat.eqb_eq.
  unfold all_digits. rewrite forallb_forall, Forall_forall.
  split; intros [H1 H2]; (split; [exact H1|]); intros x Hx; apply H2.
  - by apply list_elem_of_In.
  - by apply list_elem_of_In.
Qed.

End Validator.

(** C1.  In both services [validateCEP] returns true exactly for the
    strings of eight bytes that are all decimal digits: any other length, or
    any byte that is not a digit, gives false, and nothing is trimmed or
    rewritten before the test. *)
Theorem validateCEP_eight_digits (cep : string) :
  (ServicoA.validateCEP cep = true
   ↔ String.length cep = 8%nat ∧ all_digits cep)
  ∧ (ServicoB.validateCEP cep = true
     ↔ String.length cep = 8%nat ∧ all_digits cep)
  ∧ (String.length cep ≠ 8%nat →
     ServicoA.validateCEP cep = false ∧ ServicoB.validateCEP cep = false)
  ∧ (∀ c, c ∈ bytes cep → is_digit c = false →
     ServicoA.validateCEP cep = false ∧ ServicoB.validateCEP cep = false).
Proof.
  assert (HB : ServicoB.validateCEP cep = true
               ↔ String.length cep = 8%nat ∧ all_digits cep).
  { rewrite validators_agree. apply validateCEP_A_spec. }
  split; [apply validateCEP_A_spec|]. split; [exact HB|]. split.
  - intros Hlen. split; apply not_true_is_false.
    + intros [H _]%validateCEP_A_spec. contradiction.
    + intros [H _]%HB. contradiction.
  - intros c Hc Hd.
    assert (¬ all_digits cep) as Hn.
    { unfold all_digits. rewrite Forall_forall. intros H.
      specialize (H c Hc). congruence. }
    split; apply not_true_is_false.
    + intros [_ H]%validateCEP_A_spec. contradiction.
    + intros [_ H]%HB. contradiction.
Qed.

Example validateCEP_samples :
  ServicoA.validateCEP "01310100" = true
  ∧ ServicoA.validateCEP "123" = false
  ∧ ServicoA.validateCEP " 1310100" = false
  ∧ ServicoA.validateCEP "01310-100" = false
  ∧ ServicoB.validateCEP "0131010é" = false
  ∧ ServicoB.validateCEP "013101é" = false.
Proof. vm_compute. repeat split. Qed.

(** ** The conversions *)

#[local] Set Warnings "-inexact-float".


Example conversions_sample :
  ServicoB.celsiusToFahrenheit 28.5 = 0x1.4d33333333334p+6%float
  ∧ ServicoB.celsiusToKelvin 28.5 = 301.5%float
  ∧ ServicoB.celsiusToFahrenheit (-40) = (-40)%float.
Proof. vm_compute. repeat split. Qed.

(** ** The effect log *)

Section Effects.

Context {A B : Type}.

Lemma result_bind (m : Eff A) (k : A → Eff B) :
  result (bind m k) = result (k (result m)).
Proof.
  unfold bind, result. destruct m as [a l1]. cbn [fst].
  destruct (k a). reflexivity.
Qed.

Lemma events_bind (m : Eff A) (k : A → Eff B) :
  events (bind m k) = events m ++ events (k (result m)).
Proof.
  unfold bind, result, events. destruct m as [a l1]. cbn [fst snd].
  destruct (k a). reflexivity.
Qed.

Lemma result_in_span (name : string) (body : Eff A) :
  result (in_span name body) = result body.
Proof.
  unfold in_span, bind, emit, ret, result. destruct body. reflexivity.
Qed.

Lemma events_in_span (name : string) (body : Eff A) :
  events (in_span name body)
  = SpanStart name :: events body ++ [SpanEnd name].
Proof.
  unfold in_span, bind, emit, ret, events. destruct body as [a l].
  reflexivity.
Qed.

End Effects.

(** Membership in a log that is written out: every case is settled by the
    constructors. *)
Ltac in_log H :=
  repeat (apply elem_of_cons in H as [H|H];
          [try discriminate H; try (injection H as H; subst) |]);
  try (apply elem_of_nil in H; contradiction).

(** The same for a log that is put together from pieces: what is left is
    an equation between two events of the same kind, or membership in a
    piece that is not written out. *)
Ltac split_log H :=
  repeat first
    [ apply elem_of_cons in H as [H|H]; [try discriminate H|]
    | apply elem_of_app in H as [H|H]
    | apply elem_of_nil in H; contradiction ].

Ltac absent_from_log :=
  repeat intros ?;
  match goal with H : _ ∈ _ |- _ => in_log H end.

(** ** The Resolver *)

Section Resolver.

Variable W : ServicoB.World.

Local Abbreviation L := (ServicoB.json_lib W).

Lemma type_error_not_a_sentinel (e : error) :
  is_type_error e → not_a_sentinel (Error e).
Proof. intros [rest ->]. split; discriminate. Qed.

Lemma field_set_type_error {A S : Type} (st : JSON.stored A) (set : A → S)
    (cur : S) (struct field type : string) (v : S) (e : error) :
  JSON.field_set st set cur struct field type = (v, Some e) →
  is_type_error e.
Proof.
  destruct st; cbn; intros [= _ <-].
  eexists. unfold JSON.type_error. reflexivity.
Qed.

Lemma store_members_type_error {S : Type}
    (store : nat → json → S → S * option error) (tags : list string) :
  (∀ i v r r' e, store i v r = (r', Some e) → is_type_error e) →
  ∀ members cur saved r e,
    (∀ e0, saved = Some e0 → is_type_error e0) →
    JSON.store_members store tags members cur saved = (r, Some e) →
    is_type_error e.
Proof.
  intros Hstore members.
  induction members as [|[key v] rest IH]; intros cur saved r e Hsaved.
  - cbn. intros [= _ ->]. by apply Hsaved.
  - cbn [JSON.store_members]. destruct (JSON.field_of tags key) as [i|].
    + destruct (store i v cur) as [cur' e1] eqn:E1.
      apply IH. intros e0. destruct saved as [e2|].
      * intros [= <-]. by apply Hsaved.
      * intros ->. by eapply Hstore.
    + by apply IH.
Qed.

Lemma store_ViaCEPResponse_type_error i v r r' e :
  ServicoB.store_ViaCEPResponse i v r = (r', Some e) → is_type_error e.
Proof.
  unfold ServicoB.store_ViaCEPResponse.
  do 7 (destruct i as [|i]; [apply field_set_type_error|]).
  apply field_set_type_error.
Qed.

(** What [json.Unmarshal] into a [ViaCEPResponse] can fail with: the
    scanner's complaint about the text, or a type error. *)
Lemma Unmarshal_ViaCEPResponse_error (data : string) (e : error) :
  ServicoB.Unmarshal_ViaCEPResponse L data = Err e →
  (∃ msg, JSON.scan_document L data = inl msg ∧ e = JsonError msg)
  ∨ is_type_error e.
Proof.
  unfold ServicoB.Unmarshal_ViaCEPResponse, JSON.Unmarshal.
  destruct (JSON.scan_document L data) as [msg|doc].
  - intros [= <-]. left. by exists msg.
  - right.
    destruct (JSON.into_struct _ _ _ _ doc) as [v [e'|]] eqn:E;
      [|discriminate].
    injection H as <-.
    destruct doc; cbn in E; try discriminate E;
      try (injection E as _ <-; eexists; unfold JSON.value_error;
           reflexivity).
    eapply store_members_type_error; [| |exact E].
    + apply store_ViaCEPResponse_type_error.
    + discriminate.
Qed.

(** *** The directory lookup, case by case *)

Local Abbreviation url := ServicoB.viacep_url.
Local Abbreviation span := ServicoB.searchCEP_span.

Ltac run_searchCEP H :=
  unfold ServicoB.searchCEP, ServicoB.http_Get, in_span, bind, emit, ret;
  cbv zeta; rewrite H.

Lemma searchCEP_no_response cep cause :
  ServicoB.http_get W (url cep) = HTTP.NoResponse cause →
  ServicoB.searchCEP W cep
  = (Err (UrlError "Get" (url cep) cause),
     [SpanStart span; HttpGet (url cep);
      RecordError span (Error (UrlError "Get" (url cep) cause));
      SpanEnd span]).
Proof. intros H. run_searchCEP H. reflexivity. Qed.

Lemma searchCEP_bad_request cep rd :
  ServicoB.http_get W (url cep) = HTTP.Response 400 rd →
  ServicoB.searchCEP W cep
  = (Err (Errorf "invalid zipcode"),
     [SpanStart span; HttpGet (url cep); SpanEnd span]).
Proof. intros H. run_searchCEP H. reflexivity. Qed.

Lemma searchCEP_read_error cep code partial msg :
  code ≠ 400 →
  ServicoB.http_get W (url cep)
  = HTTP.Response code (HTTP.ReadErr partial msg) →
  ServicoB.searchCEP W cep
  = (Err (IoError msg), [SpanStart span; HttpGet (url cep); SpanEnd span]).
Proof.
  intros Hc H. run_searchCEP H.
  apply Z.eqb_neq in Hc. unfold HTTP.StatusBadRequest. rewrite Hc.
  reflexivity.
Qed.

Lemma searchCEP_decode_error cep code data e :
  code ≠ 400 →
  ServicoB.http_get W (url cep) = HTTP.Response code (HTTP.ReadOk data) →
  ServicoB.Unmarshal_ViaCEPResponse L data = Err e →
  ServicoB.searchCEP W cep
  = (Err e, [SpanStart span; HttpGet (url cep); SpanEnd span]).
Proof.
  intros Hc H Hd. run_searchCEP H.
  apply Z.eqb_neq in Hc. unfold HTTP.StatusBadRequest. rewrite Hc.
  rewrite Hd. reflexivity.
Qed.

Lemma searchCEP_not_found cep code data v :
  code ≠ 400 →
  ServicoB.http_get W (url cep) = HTTP.Response code (HTTP.ReadOk data) →
  ServicoB.Unmarshal_ViaCEPResponse L data = Ok v →
  ServicoB.Erro v = true →
  ServicoB.searchCEP W cep
  = (Err (Errorf "can not find zipcode"),
     [SpanStart span; HttpGet (url cep); SpanEnd span]).
Proof.
  intros Hc H Hd He. run_searchCEP H.
  apply Z.eqb_neq in Hc. unfold HTTP.StatusBadRequest. rewrite Hc.
  rewrite Hd, He. reflexivity.
Qed.

Lemma searchCEP_found cep code data v :
  code ≠ 400 →
  ServicoB.http_get W (url cep) = HTTP.Response code (HTTP.ReadOk data) →
  ServicoB.Unmarshal_ViaCEPResponse L data = Ok v →
  ServicoB.Erro v = false →
  ServicoB.searchCEP W cep
  = (Ok v, [SpanStart span; HttpGet (url cep);
            LogPrintf "CEP search took %v" [Measured]; SpanEnd span]).
Proof.
  intros Hc H Hd He. run_searchCEP H.
  apply Z.eqb_neq in Hc. unfold HTTP.StatusBadRequest. rewrite Hc.
  rewrite Hd, He. reflexivity.
Qed.

(** Whatever the directory does, the lookup opens its span and sends one
    GET, to the directory. *)
Lemma searchCEP_events cep :
  ∃ mid, events (ServicoB.searchCEP W cep)
         = SpanStart span :: HttpGet (url cep) :: mid
    ∧ ∀ e, e ∈ mid →
           (∃ m, e = RecordError span m) ∨ e = SpanEnd span
           ∨ e = LogPrintf "CEP search took %v" [Measured].
Proof.
  destruct (ServicoB.http_get W (url cep)) as [cause|code rd] eqn:H.
  - rewrite (searchCEP_no_response _ _ H). eexists. split; [reflexivity|].
    intros e He. in_log He; eauto.
  - destruct (Z.eq_dec code 400) as [->|Hc].
    { rewrite (searchCEP_bad_request _ _ H). eexists. split; [reflexivity|].
      intros e He. in_log He; eauto. }
    destruct rd as [data|partial msg].
    + destruct (ServicoB.Unmarshal_ViaCEPResponse L data) as [v|e0] eqn:Hd.
      * destruct (ServicoB.Erro v) eqn:He.
        -- rewrite (searchCEP_not_found _ _ _ _ Hc H Hd He).
           eexists. split; [reflexivity|]. intros e Hin. in_log Hin; eauto.
        -- rewrite (searchCEP_found _ _ _ _ Hc H Hd He).
           eexists. split; [reflexivity|]. intros e Hin. in_log Hin; eauto.
      * rewrite (searchCEP_decode_error _ _ _ _ Hc H Hd).
        eexists. split; [reflexivity|]. intros e Hin. in_log Hin; eauto.
    + rewrite (searchCEP_read_error _ _ _ _ Hc H).
      eexists. split; [reflexivity|]. intros e Hin. in_log Hin; eauto.
Qed.

(** *** The handler *)

Local Abbreviation hspan := ServicoB.handleTemperature_span.
Local Abbreviation vspan := ServicoB.validateCEP_span.

Lemma valid_not_empty cep :
  ServicoB.validateCEP cep = true → String.eqb cep "" = false.
Proof.
  rewrite validators_agree. intros [Hlen _]%validateCEP_A_spec.
  destruct cep; [discriminate Hlen|reflexivity].
Qed.

(** Past the two guards, the handler is the directory lookup followed by
    what it makes of its outcome. *)
Lemma handleTemperature_valid r w :
  let cep := HTTP.Get (HTTP.req_header r) "X-CEP" in
  ServicoB.validateCEP cep = true →
  ServicoB.handleTemperature W r w
  = in_span hspan
      (emit (SpanStart vspan);; emit (SpanEnd vspan);;
       let* found := ServicoB.searchCEP W cep in
       match found with
       | Err err =>
           if String.eqb (Error err) "invalid zipcode" then
             emit (RecordError hspan (Error err));;
             ret (ServicoB.error_json W 422 "invalid zipcode" w)
           else if String.eqb (Error err) "can not find zipcode" then
             emit (RecordError hspan (Error err));;
             ret (ServicoB.error_json W 404 "can not find zipcode" w)
           else
             emit (RecordError hspan (Error err));;
             ret (HTTP.Error_ (Error err) 500 w)
       | Ok viaCEPResp =>
           let* got := ServicoB.getTemperature W
                         (ServicoB.Localidade viaCEPResp) in
           match got with
           | Err err =>
               emit (RecordError hspan (Error err));;
               ret (HTTP.Error_ (Error err) 500 w)
           | Ok tempC =>
               ret (Encode L
                      (ServicoB.Marshal_TemperatureResponse
                         {| ServicoB.City := ServicoB.Localidade viaCEPResp;
                            ServicoB.TempC := tempC;
                            ServicoB.TempF :=
                              ServicoB.celsiusToFahrenheit tempC;
                            ServicoB.TempK := ServicoB.celsiusToKelvin tempC |})
                      (HTTP.WriteHeader 200
                         (HTTP.with_header
                            (fun h => HTTP.Set_ h "Content-Type"
                                        "application/json") w)))
           end
       end)%eff.
Proof.
  intros cep Hv. unfold ServicoB.handleTemperature. fold cep.
  rewrite (valid_not_empty _ Hv), Hv. reflexivity.
Qed.

Lemma answered_error_json code msg :
  answered (ServicoB.error_json W code msg HTTP.fresh) code
    (error_body L msg).
Proof. split; reflexivity. Qed.

Lemma answered_Error msg code :
  answered (HTTP.Error_ msg code HTTP.fresh) code (msg +:+ HTTP.newline).
Proof. split; reflexivity. Qed.

End Resolver.

Section ResolverClaims.

Variable W : ServicoB.World.
Variable r : HTTP.Request.

Local Abbreviation L := (ServicoB.json_lib W).
Local Abbreviation cep := (HTTP.Get (HTTP.req_header r) "X-CEP").
Local Abbreviation run := (ServicoB.handleTemperature W r HTTP.fresh).
Local Abbreviation hspan := ServicoB.handleTemperature_span.
Local Abbreviation vspan := ServicoB.validateCEP_span.
Local Abbreviation sspan := ServicoB.searchCEP_span.
Local Abbreviation gspan := ServicoB.getTemperature_span.

Lemma eqb_sentinels (msg : string) :
  not_a_sentinel msg →
  String.eqb msg "invalid zipcode" = false
  ∧ String.eqb msg "can not find zipcode" = false.
Proof. intros [H1 H2]. split; by apply String.eqb_neq. Qed.

(** A failure of the lookup whose text is neither of the two sentinels
    is answered with 500 and that text. *)
Lemma other_failure_500 (err : error) (l : list event) :
  ServicoB.validateCEP cep = true →
  ServicoB.searchCEP W cep = (Err err, l) →
  not_a_sentinel (Error err) →
  answered (result run) 500 (Error err +:+ HTTP.newline)
  ∧ events run
    = [SpanStart hspan; SpanStart vspan; SpanEnd vspan] ++ l
      ++ [RecordError hspan (Error err); SpanEnd hspan].
Proof.
  intros Hv Hs [E1 E2]%eqb_sentinels.
  rewrite (handleTemperature_valid W r HTTP.fresh Hv).
  unfold in_span, bind, emit, ret. rewrite Hs, E1, E2.
  split; [split; reflexivity|].
  cbn [events snd app]. rewrite <- app_assoc. reflexivity.
Qed.

Lemma guard_missing_header :
  cep = "" →
  answered (result run) 400 (error_body L "CEP header is required")
  ∧ events run = [SpanStart hspan; RecordError hspan "CEP not provided";
                  SpanEnd hspan].
Proof.
  intros H. unfold ServicoB.handleTemperature. rewrite H.
  split; [split|]; reflexivity.
Qed.

Lemma guard_invalid :
  cep ≠ "" → ServicoB.validateCEP cep = false →
  answered (result run) 422 (error_body L "invalid zipcode")
  ∧ events run = [SpanStart hspan; SpanStart vspan; SpanEnd vspan;
                  RecordError hspan "invalid zipcode"; SpanEnd hspan].
Proof.
  intros H Hv. unfold ServicoB.handleTemperature.
  apply String.eqb_neq in H. rewrite H, Hv.
  split; [split|]; reflexivity.
Qed.

End ResolverClaims.

(** C7.  The Resolver answers a request without [X-CEP] with 400 and
    [{"error":"CEP header is required"}] before it validates or looks up
    anything; a value that its own validator rejects is answered with 422
    and [{"error":"invalid zipcode"}] before any lookup. *)
Theorem resolver_guards (W : ServicoB.World) (r : HTTP.Request) :
  let cep := HTTP.Get (HTTP.req_header r) "X-CEP" in
  let run := ServicoB.handleTemperature W r HTTP.fresh in
  (cep = "" →
   answered (result run) 400
     (error_body (ServicoB.json_lib W) "CEP header is required")
   ∧ (SpanStart ServicoB.validateCEP_span ∉ events run)
   ∧ no_outbound_request (events run)
   ∧ (∀ k, Getenv k ∉ events run))
  ∧ (cep ≠ "" → ServicoB.validateCEP cep = false →
     answered (result run) 422
       (error_body (ServicoB.json_lib W) "invalid zipcode")
     ∧ (SpanStart ServicoB.validateCEP_span ∈ events run)
     ∧ no_outbound_request (events run)
     ∧ (∀ k, Getenv k ∉ events run)).
Proof.
  intros cep run. split.
  - intros H. destruct (guard_missing_header W r H) as [Ha He].
    split; [exact Ha|]. subst run. rewrite He.
    repeat split; absent_from_log.
  - intros H Hv. destruct (guard_invalid W r H Hv) as [Ha He].
    split; [exact Ha|]. subst run. rewrite He.
    split; [set_solver|].
    repeat split; absent_from_log.
Qed.

Lemma resolver_guards_witness :
  answered
    (result (ServicoB.handleTemperature Samples.resolver_world
               Samples.no_header HTTP.fresh))
    400 (error_body Samples.lib "CEP header is required")
  ∧ answered
      (result (ServicoB.handleTemperature Samples.resolver_world
                 (Samples.resolver_request "01310-100") HTTP.fresh))
      422 (error_body Samples.lib "invalid zipcode").
Proof.
  split.
  - apply (resolver_guards Samples.resolver_world Samples.no_header).
    reflexivity.
  - apply (resolver_guards Samples.resolver_world
             (Samples.resolver_request "01310-100")).
    + vm_compute. discriminate.
    + vm_compute. reflexivity.
Defined.

(** C3.  In the Resolver, a 400 from the directory is answered with 422
    and [{"error":"invalid zipcode"}]; a payload with its error flag set is
    answered with 404 and [{"error":"can not find zipcode"}], and the
    weather lookup is not begun; a request that got no response, a body
    that could not be read and a body that could not be decoded are each
    answered with 500 and the text of the failure. *)
Theorem directory_failures (W : ServicoB.World) (r : HTTP.Request) :
  let L := ServicoB.json_lib W in
  let cep := HTTP.Get (HTTP.req_header r) "X-CEP" in
  let run := ServicoB.handleTemperature W r HTTP.fresh in
  let directory := ServicoB.http_get W (ServicoB.viacep_url cep) in
  ServicoB.validateCEP cep = true →
  (∀ rd, directory = HTTP.Response 400 rd →
     answered (result run) 422 (error_body L "invalid zipcode"))
  ∧ (∀ code data v,
       code ≠ 400 → directory = HTTP.Response code (HTTP.ReadOk data) →
       ServicoB.Unmarshal_ViaCEPResponse L data = Ok v →
       ServicoB.Erro v = true →
       answered (result run) 404 (error_body L "can not find zipcode")
       ∧ no_weather_lookup cep (events run))
  ∧ (∀ cause, directory = HTTP.NoResponse cause →
       answered (result run) 500
         (Error (UrlError "Get" (ServicoB.viacep_url cep) cause)
          +:+ HTTP.newline))
  ∧ (∀ code partial msg,
       code ≠ 400 →
       directory = HTTP.Response code (HTTP.ReadErr partial msg) →
       not_a_sentinel msg →
       answered (result run) 500 (msg +:+ HTTP.newline))
  ∧ (∀ code data e,
       code ≠ 400 → directory = HTTP.Response code (HTTP.ReadOk data) →
       ServicoB.Unmarshal_ViaCEPResponse L data = Err e →
       (∀ msg, JSON.scan_document L data = inl msg → not_a_sentinel msg) →
       answered (result run) 500 (Error e +:+ HTTP.newline)).
Proof.
  intros L cep run directory Hv. subst directory run cep L.
  split; [|split; [|split; [|split]]].
  - intros rd H.
    rewrite (handleTemperature_valid W r HTTP.fresh Hv).
    unfold in_span, bind, emit, ret.
    rewrite (searchCEP_bad_request W _ _ H). split; reflexivity.
  - intros code data v Hc H Hd He.
    rewrite (handleTemperature_valid W r HTTP.fresh Hv).
    unfold in_span, bind, emit, ret.
    rewrite (searchCEP_not_found W _ _ _ _ Hc H Hd He).
    split; [split; reflexivity|].
    cbn [events snd app String.eqb Ascii.eqb Bool.eqb].
    repeat split; absent_from_log. reflexivity.
  - intros cause H.
    apply (other_failure_500 W r _ _ Hv (searchCEP_no_response W _ _ H)).
    split; discriminate.
  - intros code partial msg Hc H Hm.
    apply (other_failure_500 W r _ _ Hv (searchCEP_read_error W _ _ _ _ Hc H)).
    exact Hm.
  - intros code data e Hc H Hd Hscan.
    apply (other_failure_500 W r _ _ Hv
             (searchCEP_decode_error W _ _ _ _ Hc H Hd)).
    destruct (Unmarshal_ViaCEPResponse_error W data e Hd)
      as [(msg & Hmsg & ->)|Hty].
    + exact (Hscan msg Hmsg).
    + by apply type_error_not_a_sentinel.
Qed.

Lemma directory_failures_witness :
  answered
    (result (ServicoB.handleTemperature Samples.resolver_world
               (Samples.resolver_request "00000000") HTTP.fresh))
    422 (error_body Samples.lib "invalid zipcode")
  ∧ answered
      (result (ServicoB.handleTemperature Samples.resolver_world
                 (Samples.resolver_request "99999999") HTTP.fresh))
      404 (error_body Samples.lib "can not find zipcode")
  ∧ answered
      (result (ServicoB.handleTemperature Samples.resolver_world
                 (Samples.resolver_request "33333333") HTTP.fresh))
      500 (Error (UrlError "Get" (ServicoB.viacep_url "33333333")
                    "dial tcp: connection refused") +:+ HTTP.newline)
  ∧ answered
      (result (ServicoB.handleTemperature Samples.resolver_world
                 (Samples.resolver_request "11111111") HTTP.fresh))
      500 ("unexpected EOF" +:+ HTTP.newline)
  ∧ answered
      (result (ServicoB.handleTemperature Samples.resolver_world
                 (Samples.resolver_request "22222222") HTTP.fresh))
      500 ("invalid character looking for beginning of value"
           +:+ HTTP.newline).
Proof.
  pose (at_ cep := directory_failures Samples.resolver_world
                     (Samples.resolver_request cep)).
  split; [|split; [|split; [|split]]].
  - refine (proj1 (at_ "00000000" _) (HTTP.ReadOk "Bad Request") _);
      reflexivity.
  - refine (proj1 (proj1 (proj2 (at_ "99999999" _)) 200 _ _ _ _ _ _));
      [reflexivity|discriminate|reflexivity|reflexivity|reflexivity].
  - refine (proj1 (proj2 (proj2 (at_ "33333333" _))) _ _); reflexivity.
  - refine (proj1 (proj2 (proj2 (proj2 (at_ "11111111" _)))) 200 "" _ _ _ _);
      [reflexivity|discriminate|reflexivity|split; discriminate].
  - refine (proj2 (proj2 (proj2 (proj2 (at_ "22222222" _))))
              200 "<html>" (JsonError _) _ _ _ _);
      [reflexivity|discriminate|reflexivity|reflexivity|].
    intros msg [= <-]. split; discriminate.
Defined.

(** C6.  With no [WEATHER_API_KEY] in the environment, [getTemperature]
    fails after reading the environment and sends nothing; a request that
    came as far as the weather lookup is answered with 500, and the only
    request that went out is the one to the directory. *)
Theorem missing_weather_key (W : ServicoB.World) (r : HTTP.Request)
    (v : ServicoB.ViaCEPResponse) :
  let cep := HTTP.Get (HTTP.req_header r) "X-CEP" in
  let run := ServicoB.handleTemperature W r HTTP.fresh in
  ServicoB.validateCEP cep = true →
  result (ServicoB.searchCEP W cep) = Ok v →
  ServicoB.environ W !! "WEATHER_API_KEY" = None →
  (∀ city,
     ServicoB.getTemperature W city
     = (Err (Errorf "WEATHER_API_KEY not set"),
        [SpanStart ServicoB.getTemperature_span; Getenv "WEATHER_API_KEY";
         SpanEnd ServicoB.getTemperature_span]))
  ∧ answered (result run) 500 ("WEATHER_API_KEY not set" +:+ HTTP.newline)
  ∧ (∀ u, HttpGet u ∈ events run → u = ServicoB.viacep_url cep).
Proof.
  intros cep run Hv Hs Hkey.
  assert (Hg : ∀ city,
     ServicoB.getTemperature W city
     = (Err (Errorf "WEATHER_API_KEY not set"),
        [SpanStart ServicoB.getTemperature_span; Getenv "WEATHER_API_KEY";
         SpanEnd ServicoB.getTemperature_span])).
  { intros city.
    unfold ServicoB.getTemperature, os_Getenv, in_span, bind, emit, ret.
    rewrite Hkey. reflexivity. }
  split; [exact Hg|]. subst run cep.
  rewrite (handleTemperature_valid W r HTTP.fresh Hv).
  set (cep := HTTP.Get (HTTP.req_header r) "X-CEP") in *.
  destruct (searchCEP_events W cep) as (mid & Hev & Hmid).
  destruct (ServicoB.searchCEP W cep) as [found l] eqn:E.
  cbn [result fst] in Hs. cbn [events snd] in Hev. subst found l.
  unfold in_span, bind, emit, ret. rewrite Hg.
  split; [split; reflexivity|].
  cbn [events snd app]. intros u Hin.
  apply elem_of_cons in Hin as [Hin|Hin]; [discriminate|].
  apply elem_of_cons in Hin as [Hin|Hin]; [discriminate|].
  apply elem_of_cons in Hin as [Hin|Hin]; [discriminate|].
  apply elem_of_cons in Hin as [Hin|Hin]; [discriminate|].
  apply elem_of_cons in Hin as [Hin|Hin]; [by injection Hin|].
  rewrite !elem_of_app in Hin. destruct Hin as [[Hin|Hin]|Hin].
  - apply Hmid in Hin as [[m Hin]|[Hin|Hin]]; discriminate.
  - in_log Hin.
  - in_log Hin.
Qed.

Lemma missing_weather_key_witness :
  answered
    (result (ServicoB.handleTemperature Samples.resolver_world_no_key
               (Samples.resolver_request "01310100") HTTP.fresh))
    500 ("WEATHER_API_KEY not set" +:+ HTTP.newline).
Proof.
  refine (proj1 (proj2 (missing_weather_key Samples.resolver_world_no_key
                          (Samples.resolver_request "01310100")
                          {| ServicoB.Cep := "01310-100";
                             ServicoB.Logradouro := "Avenida Paulista";
                             ServicoB.Complemento := "";
                             ServicoB.Bairro := "";
                             ServicoB.Localidade := "São Paulo";
                             ServicoB.UF := "SP";
                             ServicoB.Erro := false |} _ _ _)));
    reflexivity.
Defined.

(** ** The Gateway *)

Section Gateway.

Variable W : ServicoA.World.
Variable r : HTTP.Request.

Local Abbreviation L := (ServicoA.json_lib W).
Local Abbreviation run := (ServicoA.handleCEP W r HTTP.fresh).
Local Abbreviation hspan := ServicoA.handleCEP_span.
Local Abbreviation vspan := ServicoA.validateCEP_span.
Local Abbreviation cspan := ServicoA.callServicoB_span.

Lemma handleCEP_malformed (err : error) :
  ServicoA.Decode_CEPRequest L (HTTP.req_body r) = Err err →
  ServicoA.handleCEP W r HTTP.fresh
  = (HTTP.Error_ "invalid request body" 400 HTTP.fresh,
     [SpanStart hspan; RecordError hspan (Error err); SpanEnd hspan]).
Proof. intros H. unfold ServicoA.handleCEP. rewrite H. reflexivity. Qed.

Lemma handleCEP_invalid (req : ServicoA.CEPRequest) :
  ServicoA.Decode_CEPRequest L (HTTP.req_body r) = Ok req →
  ServicoA.validateCEP (ServicoA.CEP req) = false →
  ServicoA.handleCEP W r HTTP.fresh
  = (Encode L (Some (JSON.marshal_map1 "error" "invalid zipcode"))
       (HTTP.WriteHeader 422 HTTP.fresh),
     [SpanStart hspan; SpanStart vspan; SpanEnd vspan;
      RecordError hspan "invalid zipcode"; SpanEnd hspan]).
Proof.
  intros H Hv. unfold ServicoA.handleCEP. rewrite H, Hv. reflexivity.
Qed.

(** A request that passed validation: the Gateway reads the address of
    the Resolver, builds the request and, if that went well, sends it. *)
Lemma handleCEP_valid (req : ServicoA.CEPRequest) :
  ServicoA.Decode_CEPRequest L (HTTP.req_body r) = Ok req →
  ServicoA.validateCEP (ServicoA.CEP req) = true →
  ServicoA.handleCEP W r HTTP.fresh
  = in_span hspan
      (emit (SpanStart vspan);; emit (SpanEnd vspan);;
       emit (Getenv "SERVICO_B_URL");;
       in_span cspan
         (emit (NewRequest "POST" (resolver_url W));;
          match ServicoA.url_error W (resolver_url W) with
          | Some reason =>
              let err := UrlError "parse" (resolver_url W) reason in
              emit (RecordError cspan (Error err));;
              ret (HTTP.Error_ (Error err) 500 HTTP.fresh)
          | None =>
              let out := ServicoA.outgoing W (resolver_url W)
                           (ServicoA.CEP req) in
              emit (ClientDo out);;
              after W (ServicoA.client_do W out)
          end))%eff.
Proof.
  intros H Hv. unfold ServicoA.handleCEP. rewrite H, Hv.
  unfold os_Getenv, ServicoA.client_Do, resolver_url, after.
  cbn [negb]. unfold in_span, bind, emit, ret. cbv zeta.
  destruct (ServicoA.url_error W _); [reflexivity|].
  destruct (ServicoA.client_do W _) as [cause|code [data|partial msg]];
    reflexivity.
Qed.

(** The header [X-CEP] of the request that is sent is the code that was
    validated: neither [Content-Type] nor the trace context is stored
    under its key. *)
Lemma outgoing_X_CEP (url cep : string) :
  HTTP.Get (HTTP.out_header (ServicoA.outgoing W url cep)) "X-CEP" = cep.
Proof.
  unfold ServicoA.outgoing, HTTP.Get, HTTP.Set_, ServicoA.Inject.
  cbn [HTTP.out_header].
  change (HTTP.CanonicalMIMEHeaderKey "X-CEP") with "X-Cep".
  change (HTTP.CanonicalMIMEHeaderKey "Content-Type") with "Content-Type".
  destruct (ServicoA.propagation W) as [|tp ts].
  - by rewrite lookup_insert_eq.
  - unfold HTTP.Set_.
    change (HTTP.CanonicalMIMEHeaderKey "traceparent") with "Traceparent".
    change (HTTP.CanonicalMIMEHeaderKey "tracestate") with "Tracestate".
    rewrite lookup_insert_ne by discriminate.
    destruct (String.eqb ts "").
    + by rewrite lookup_insert_eq.
    + rewrite lookup_insert_ne by discriminate. by rewrite lookup_insert_eq.
Qed.

(** Whatever was sent was sent for a code that passed validation, and is
    the request [outgoing] builds. *)
Lemma sent_request (out : HTTP.Outgoing) :
  ClientDo out ∈ events run →
  ∃ req, ServicoA.Decode_CEPRequest L (HTTP.req_body r) = Ok req
         ∧ ServicoA.validateCEP (ServicoA.CEP req) = true
         ∧ out = ServicoA.outgoing W (resolver_url W) (ServicoA.CEP req).
Proof.
  destruct (ServicoA.Decode_CEPRequest L (HTTP.req_body r)) as [req|err]
    eqn:Hd.
  - destruct (ServicoA.validateCEP (ServicoA.CEP req)) eqn:Hv.
    + rewrite (handleCEP_valid req Hd Hv).
      rewrite events_in_span, !events_bind, events_in_span, events_bind.
      cbn [events emit snd result fst app].
      intros Hin. exists req. split; [reflexivity|]. split; [exact Hv|].
      destruct (ServicoA.url_error W (resolver_url W)).
      * cbn in Hin. in_log Hin.
      * cbv zeta in Hin. rewrite events_bind in Hin.
        cbn [events emit snd result fst app] in Hin.
        unfold after in Hin.
        destruct (ServicoA.client_do W _)
          as [cause|code [data|partial msg]];
          [| destruct (negb (code =? 200));
             [|destruct (ServicoA.Unmarshal_CEPResponse L data)] |];
          cbn in Hin; split_log Hin; by injection Hin.
    + rewrite (handleCEP_invalid req Hd Hv). cbn. intros Hin. in_log Hin.
  - rewrite (handleCEP_malformed err Hd). cbn. intros Hin. in_log Hin.
Qed.

End Gateway.

(** C4.  A request whose body parses but whose [cep] fails validation is
    answered with 422 and [{"error":"invalid zipcode"}]; no request to the
    Resolver is built or sent, and its address is not even read. *)
Theorem gateway_rejects_invalid (W : ServicoA.World) (r : HTTP.Request)
    (req : ServicoA.CEPRequest) :
  let run := ServicoA.handleCEP W r HTTP.fresh in
  ServicoA.Decode_CEPRequest (ServicoA.json_lib W) (HTTP.req_body r) = Ok req →
  ServicoA.validateCEP (ServicoA.CEP req) = false →
  answered (result run) 422
    (error_body (ServicoA.json_lib W) "invalid zipcode")
  ∧ no_outbound_request (events run)
  ∧ (∀ k, Getenv k ∉ events run).
Proof.
  intros run Hd Hv. subst run. rewrite (handleCEP_invalid W r req Hd Hv).
  split; [split; reflexivity|]. cbn [events snd].
  repeat split; absent_from_log.
Qed.

Lemma gateway_rejects_invalid_witness :
  answered
    (result (ServicoA.handleCEP Samples.gateway_world
               (Samples.gateway_request "123") HTTP.fresh))
    422 (error_body Samples.lib "invalid zipcode")
  ∧ no_outbound_request
      (events (ServicoA.handleCEP Samples.gateway_world
                 (Samples.gateway_request "123") HTTP.fresh)).
Proof.
  pose proof (gateway_rejects_invalid Samples.gateway_world
                (Samples.gateway_request "123") {| ServicoA.CEP := "123" |})
    as H.
  cbv zeta in H. destruct H as (Ha & Hn & _); [reflexivity|reflexivity|].
  split; assumption.
Defined.

(** C5.  Whatever status other than 200 the Resolver answers with, the
    Gateway answers with that status and with the bytes of the Resolver's
    body as they are, under the content type [application/json]. *)
Theorem gateway_relays_errors (W : ServicoA.World) (r : HTTP.Request)
    (req : ServicoA.CEPRequest) (code : Z) (data : string) :
  let run := ServicoA.handleCEP W r HTTP.fresh in
  ServicoA.Decode_CEPRequest (ServicoA.json_lib W) (HTTP.req_body r) = Ok req →
  ServicoA.validateCEP (ServicoA.CEP req) = true →
  ServicoA.url_error W (resolver_url W) = None →
  ServicoA.client_do W (ServicoA.outgoing W (resolver_url W) (ServicoA.CEP req))
  = HTTP.Response code (HTTP.ReadOk data) →
  code ≠ 200 →
  answered (result run) code data
  ∧ HTTP.wrote (result run)
    = Some (code, {[ "Content-Type" := ["application/json"] ]}).
Proof.
  intros run Hd Hv Hu Hr Hc. subst run.
  rewrite (handleCEP_valid W r req Hd Hv), Hu. cbv zeta. rewrite Hr.
  unfold after. apply Z.eqb_neq in Hc. rewrite Hc.
  split; [split|]; reflexivity.
Qed.

Lemma gateway_relays_errors_witness :
  answered
    (result (ServicoA.handleCEP Samples.gateway_world
               (Samples.gateway_request "99999999") HTTP.fresh))
    404 (error_body Samples.lib "can not find zipcode").
Proof.
  refine (proj1 (gateway_relays_errors Samples.gateway_world
                   (Samples.gateway_request "99999999")
                   {| ServicoA.CEP := "99999999" |} 404 _ _ _ _ _ _));
    [reflexivity|reflexivity|reflexivity|vm_compute; reflexivity|discriminate].
Defined.

(** ** The result on its way through the Gateway *)

Section RoundTrip.

Variable L : JSON.lib.

(** What the Resolver's encoder makes of a result: the four members, in
    the order of the fields, provided the three numbers are finite. *)
Lemma Marshal_TemperatureResponse_Some (t : ServicoB.TemperatureResponse)
    (j : json) :
  ServicoB.Marshal_TemperatureResponse t = Some j →
  JSON.is_finite (ServicoB.TempC t) = true
  ∧ JSON.is_finite (ServicoB.TempF t) = true
  ∧ JSON.is_finite (ServicoB.TempK t) = true
  ∧ j = JObj [("city", JStr (ServicoB.City t));
              ("temp_C", JNum (ServicoB.TempC t));
              ("temp_F", JNum (ServicoB.TempF t));
              ("temp_K", JNum (ServicoB.TempK t))].
Proof.
  unfold ServicoB.Marshal_TemperatureResponse, JSON.marshal_float64.
  destruct (JSON.is_finite (ServicoB.TempC t)); [|discriminate].
  destruct (JSON.is_finite (ServicoB.TempF t)); [|discriminate].
  destruct (JSON.is_finite (ServicoB.TempK t)); [|discriminate].
  cbn. intros [= <-]. repeat split.
Qed.

(** The Gateway's record has the same four tags and types, so the
    document is stored into it member by member. *)
Lemma decode_encoded (t : ServicoB.TemperatureResponse) (j : json)
    (data : string) :
  ServicoB.Marshal_TemperatureResponse t = Some j →
  JSON.scan_document L data = inr j →
  ServicoA.Unmarshal_CEPResponse L data
  = Ok {| ServicoA.City := ServicoB.City t;
          ServicoA.TempC := ServicoB.TempC t;
          ServicoA.TempF := ServicoB.TempF t;
          ServicoA.TempK := ServicoB.TempK t |}.
Proof.
  intros (Hc & Hf & Hk & ->)%Marshal_TemperatureResponse_Some Hscan.
  unfold ServicoA.Unmarshal_CEPResponse, JSON.Unmarshal.
  rewrite Hscan.
  cbn -[JSON.is_finite]. rewrite Hc. cbn -[JSON.is_finite].
  rewrite Hf. cbn -[JSON.is_finite]. rewrite Hk. reflexivity.
Qed.

Lemma reencode (t : ServicoB.TemperatureResponse) (j : json) :
  ServicoB.Marshal_TemperatureResponse t = Some j →
  ServicoA.Marshal_CEPResponse
    {| ServicoA.City := ServicoB.City t;
       ServicoA.TempC := ServicoB.TempC t;
       ServicoA.TempF := ServicoB.TempF t;
       ServicoA.TempK := ServicoB.TempK t |} = Some j.
Proof. intros H. exact H. Qed.

End RoundTrip.

(** Every body the Resolver sends with the status 200 is the encoding of a
    result, or is empty (when a temperature is not finite and the encoder
    refuses the result). *)
Lemma resolver_ok_body (W : ServicoB.World) (r : HTTP.Request) :
  let answer := result (ServicoB.handleTemperature W r HTTP.fresh) in
  HTTP.status answer = Some 200 →
  ∃ t, HTTP.body answer
       = match ServicoB.Marshal_TemperatureResponse t with
         | Some j => JSON.render (ServicoB.json_lib W) j +:+ HTTP.newline
         | None => ""
         end.
Proof.
  cbv zeta. unfold ServicoB.handleTemperature.
  rewrite result_in_span.
  destruct (String.eqb (HTTP.Get (HTTP.req_header r) "X-CEP") "");
    [discriminate|].
  rewrite !result_bind.
  destruct (negb (ServicoB.validateCEP _)); [discriminate|].
  rewrite result_bind.
  destruct (result (ServicoB.searchCEP W _)) as [v|err].
  - rewrite result_bind.
    destruct (result (ServicoB.getTemperature W _)) as [tempC|err];
      [|discriminate].
    intros _.
    exists {| ServicoB.City := ServicoB.Localidade v; ServicoB.TempC := tempC;
              ServicoB.TempF := ServicoB.celsiusToFahrenheit tempC;
              ServicoB.TempK := ServicoB.celsiusToKelvin tempC |}.
    unfold Encode.
    destruct (ServicoB.Marshal_TemperatureResponse _); reflexivity.
  - destruct (String.eqb (Error err) "invalid zipcode"); [discriminate|].
    destruct (String.eqb (Error err) "can not find zipcode"); discriminate.
Qed.

(** The Resolver sends one of five status codes. *)
Lemma resolver_status_codes (W : ServicoB.World) (r : HTTP.Request) :
  HTTP.status (result (ServicoB.handleTemperature W r HTTP.fresh))
  ∈ [Some 200; Some 400; Some 404; Some 422; Some 500].
Proof.
  unfold ServicoB.handleTemperature. rewrite result_in_span.
  destruct (String.eqb (HTTP.Get (HTTP.req_header r) "X-CEP") "");
    [set_solver|].
  rewrite !result_bind.
  destruct (negb (ServicoB.validateCEP _)); [set_solver|].
  rewrite result_bind.
  destruct (result (ServicoB.searchCEP W _)) as [v|err].
  - rewrite result_bind.
    destruct (result (ServicoB.getTemperature W _)) as [tempC|err];
      [|set_solver].
    cbn [result ret fst]. unfold Encode.
    destruct (ServicoB.Marshal_TemperatureResponse _); set_solver.
  - destruct (String.eqb (Error err) "invalid zipcode"); [set_solver|].
    destruct (String.eqb (Error err) "can not find zipcode"); set_solver.
Qed.

(** The two services together: an answer of the Resolver with a status
    other than 200 comes out of the Gateway as it is. *)
Lemma pipeline_relays_errors (L : JSON.lib) (environ : gmap string string)
    (p : ServicoA.propagator) (WB : ServicoB.World) (r : HTTP.Request)
    (req : ServicoA.CEPRequest) (code : Z) :
  let WA := Pipeline.gateway_world L environ p WB in
  let answer :=
    result (ServicoB.handleTemperature WB
              (Pipeline.deliver
                 (ServicoA.outgoing WA (resolver_url WA) (ServicoA.CEP req)))
              HTTP.fresh) in
  ServicoA.Decode_CEPRequest L (HTTP.req_body r) = Ok req →
  ServicoA.validateCEP (ServicoA.CEP req) = true →
  HTTP.status answer = Some code → code ≠ 200 →
  answered (result (ServicoA.handleCEP WA r HTTP.fresh)) code
    (HTTP.body answer).
Proof.
  intros WA answer Hd Hv Hs Hc.
  rewrite (handleCEP_valid WA r req Hd Hv).
  cbn [ServicoA.url_error WA Pipeline.gateway_world].
  cbv zeta. cbn [ServicoA.client_do WA Pipeline.gateway_world].
  unfold Pipeline.resolver. fold WA. fold answer. rewrite Hs.
  cbn [default from_option id]. unfold after.
  apply Z.eqb_neq in Hc. rewrite Hc. split; reflexivity.
Qed.



(** The case the encoder refuses: a reading so large that its Fahrenheit
    value is not finite leaves the Resolver's 200 without a body. *)
Example overflow_leaves_no_body :
  ServicoB.Marshal_TemperatureResponse
    {| ServicoB.City := "X"; ServicoB.TempC := 0x1.2p+1023;
       ServicoB.TempF := ServicoB.celsiusToFahrenheit 0x1.2p+1023;
       ServicoB.TempK := ServicoB.celsiusToKelvin 0x1.2p+1023 |} = None.
Proof. vm_compute. reflexivity. Qed.

(** ** The two validators, one after the other *)

(** C10.  The two validators are equal on every string.  Hence a request
    the Gateway sends carries, in [X-CEP], a code that the Resolver's
    validator accepts: the Resolver passes both of its guards and reaches
    the directory lookup, so that its answer "422, invalid zipcode" for a
    code that fails validation is never given to an unmodified Gateway. *)
Theorem validators_coincide (WA : ServicoA.World) (rA : HTTP.Request)
    (out : HTTP.Outgoing) (WB : ServicoB.World) :
  let cep := HTTP.Get (HTTP.out_header out) "X-CEP" in
  let resolver :=
    ServicoB.handleTemperature WB (Pipeline.deliver out) HTTP.fresh in
  ClientDo out ∈ events (ServicoA.handleCEP WA rA HTTP.fresh) →
  (∀ s, ServicoA.validateCEP s = ServicoB.validateCEP s)
  ∧ ServicoA.validateCEP cep = true
  ∧ ServicoB.validateCEP cep = true
  ∧ cep ≠ ""
  ∧ SpanStart ServicoB.searchCEP_span ∈ events resolver
  ∧ HttpGet (ServicoB.viacep_url cep) ∈ events resolver
  ∧ events resolver
    ≠ [SpanStart ServicoB.handleTemperature_span;
       SpanStart ServicoB.validateCEP_span;
       SpanEnd ServicoB.validateCEP_span;
       RecordError ServicoB.handleTemperature_span "invalid zipcode";
       SpanEnd ServicoB.handleTemperature_span].
Proof.
  intros cep resolver Hsent.
  destruct (sent_request WA rA out Hsent) as (req & _ & Hv & Hout).
  assert (Hcep : cep = ServicoA.CEP req).
  { subst cep. rewrite Hout. apply outgoing_X_CEP. }
  assert (HvB : ServicoB.validateCEP cep = true).
  { rewrite validators_agree, Hcep. exact Hv. }
  assert (Hreach : SpanStart ServicoB.searchCEP_span ∈ events resolver
                   ∧ HttpGet (ServicoB.viacep_url cep) ∈ events resolver).
  { subst resolver.
    rewrite (handleTemperature_valid WB (Pipeline.deliver out) HTTP.fresh HvB).
    change (HTTP.Get (HTTP.req_header (Pipeline.deliver out)) "X-CEP")
      with cep.
    rewrite events_in_span, !events_bind.
    destruct (searchCEP_events WB cep) as (mid & -> & _).
    cbn [events emit snd app]. split; set_solver. }
  split; [intros s; symmetry; apply validators_agree|].
  split; [by rewrite Hcep|]. split; [exact HvB|]. split.
  { intros E. rewrite E in HvB. discriminate HvB. }
  split; [apply Hreach|]. split; [apply Hreach|].
  intros E. destruct Hreach as [H _]. rewrite E in H. in_log H.
Qed.

Lemma validators_coincide_witness :
  ServicoB.validateCEP "01310100" = true
  ∧ HttpGet (ServicoB.viacep_url "01310100")
    ∈ events (ServicoB.handleTemperature Samples.resolver_world
                (Pipeline.deliver
                   (ServicoA.outgoing Samples.gateway_world
                      (resolver_url Samples.gateway_world) "01310100"))
                HTTP.fresh).
Proof.
  pose proof (validators_coincide Samples.gateway_world
                (Samples.gateway_request "01310100")
                (ServicoA.outgoing Samples.gateway_world
                   (resolver_url Samples.gateway_world) "01310100")
                Samples.resolver_world) as H.
  cbv zeta in H.
  destruct H as (_ & _ & Hv & _ & _ & Hget & _).
  - apply list_elem_of_lookup. exists 6%nat. vm_compute. reflexivity.
  - split; [exact Hv|exact Hget].
Defined.

(** ** The tracing bootstrap *)

Section Bootstrap.

Variable W : Otel.World.

Lemma DialContext_took (a : Otel.collector_answer) :
  (Otel.DialContext Otel.dialTimeout a).2 <= Otel.dialTimeout.
Proof.
  destruct a as [after|after msg|]; cbn [Otel.DialContext].
  - destruct (Z.ltb_spec after Otel.dialTimeout); cbn [snd]; lia.
  - destruct (Z.ltb_spec after Otel.dialTimeout); cbn [snd]; lia.
  - cbn [snd]. lia.
Qed.

Lemma failed_flag (e : error) : bool_decide (Some e = None) = false.
Proof. reflexivity. Qed.

(** What one run of the retry loop leaves in the log, from any value of
    the counter on, when it is given enough rounds: [a] attempts, all
    but the last of which failed and were followed by one sleep of
    [retryDelay]; none takes longer than [dialTimeout]. *)
Lemma retry_loop_log (url : string) (rounds : nat) (i : Z) :
  0 <= i → Otel.maxRetries - i <= Z.of_nat rounds →
  let run := Otel.retry_loop W url rounds i in
  let a := Otel.attempts (events run) in
  0 <= a <= Z.max 0 (Otel.maxRetries - i)
  ∧ (i < Otel.maxRetries → 1 <= a)
  ∧ Otel.slept (events run) = Otel.retryDelay * Z.max 0 (a - 1)
  ∧ Otel.elapsed (events run)
    <= Otel.dialTimeout * a + Otel.slept (events run)
  ∧ (∀ j u took ok, Dial j u took ok ∈ events run →
       took <= Otel.dialTimeout)
  ∧ (∀ d, Sleep d ∈ events run → d = Otel.retryDelay)
  ∧ (∀ err, result run = Otel.Return err →
       a = Otel.maxRetries - i ∧ Otel.failed_attempts (events run) = a
       ∧ connection_error err)
  ∧ (result run = Otel.Break →
       Otel.failed_attempts (events run) = a - 1)
  ∧ (result run = Otel.Exhausted → Otel.maxRetries <= i).
Proof.
  revert i. induction rounds as [|k IH]; intros i Hi Hr.
  - cbn. unfold Otel.maxRetries in *.
    split_and!; try lia; try absent_from_log; try discriminate.
  - cbn [Otel.retry_loop].
    destruct (Z.ltb_spec i Otel.maxRetries) as [Hlt|Hge]; cbn [negb].
    2:{ cbn. unfold Otel.maxRetries in *.
        split_and!; try lia; try absent_from_log; try discriminate. }
    pose proof (DialContext_took (Otel.collector W i)) as Htook.
    destruct (Otel.DialContext Otel.dialTimeout (Otel.collector W i))
      as [[e|] took]; cbn [snd] in Htook.
    + destruct (Z.ltb_spec i (Otel.maxRetries - 1)) as [Hlast|Hlast].
      * specialize (IH (i + 1) ltac:(lia) ltac:(lia)).
        cbv zeta in IH.
        destruct IH as (Ha & Ha1 & Hs & He & Hd & Hsl & Hret & Hbrk & Hex).
        specialize (Ha1 ltac:(lia)).
        rewrite failed_flag, !events_bind, !result_bind.
        cbn [events result emit fst snd app].
        set (rest := Otel.retry_loop W url k (i + 1)) in *.
        cbn [Otel.attempts Otel.slept Otel.elapsed Otel.failed_attempts].
        cbn zeta.
        split_and!; try lia.
        -- rewrite Hs. unfold Otel.retryDelay, Otel.Second. lia.
        -- intros j u t ok Hin. split_log Hin.
           ++ by injection Hin as _ _ -> _.
           ++ by eapply Hd.
        -- intros d Hin. split_log Hin.
           ++ by injection Hin as ->.
           ++ by apply Hsl.
        -- intros err H. destruct (Hret err H) as (? & ? & ?).
           split_and!; [lia|lia|assumption].
        -- intros H. specialize (Hbrk H). lia.
        -- intros H. specialize (Hex H). lia.
      * rewrite failed_flag. cbn.
        unfold Otel.maxRetries, Otel.dialTimeout, Otel.retryDelay,
          Otel.Second in *.
        split_and!; try lia; try discriminate.
        -- intros j u t ok Hin. in_log Hin. lia.
        -- intros d Hin. in_log Hin.
        -- intros err [= <-]. split_and!; [lia|lia|by eexists].
    + cbn. unfold Otel.maxRetries, Otel.dialTimeout, Otel.retryDelay,
        Otel.Second in *.
      split_and!; try lia; try discriminate.
      * intros j u t ok Hin. in_log Hin. lia.
      * intros d Hin. in_log Hin.
Qed.

End Bootstrap.

Section BootstrapClaims.

Variable W : Otel.World.

(** Measures of a log that ends with events that are neither attempts
    nor sleeps. *)
Lemma measures_app_tail (l tail : list event) :
  Otel.attempts tail = 0 → Otel.slept tail = 0 → Otel.elapsed tail = 0 →
  Otel.failed_attempts tail = 0 →
  Otel.attempts (l ++ tail) = Otel.attempts l
  ∧ Otel.slept (l ++ tail) = Otel.slept l
  ∧ Otel.elapsed (l ++ tail) = Otel.elapsed l
  ∧ Otel.failed_attempts (l ++ tail) = Otel.failed_attempts l.
Proof.
  intros Ha Hs He Hf. induction l as [|e l (IHa & IHs & IHe & IHf)].
  - cbn. rewrite Ha, Hs, He, Hf. repeat split.
  - destruct e as [| | | | | | |?? took [|]| | | | |];
      cbn [app Otel.attempts Otel.slept Otel.elapsed Otel.failed_attempts];
      rewrite ?IHa, ?IHs, ?IHe, ?IHf; repeat split.
Qed.

(** The log of [initProvider] is the log of the retry loop, followed at
    most by the two installations; it returns the connection error
    exactly when the loop returned. *)
Lemma initProvider_log (serviceName collectorURL : string) :
  let run := Otel.initProvider W serviceName collectorURL in
  let loop := Otel.retry_loop W collectorURL (Z.to_nat Otel.maxRetries) 0 in
  (events run = [] ∧ Otel.resource_error W ≠ None
   ∧ ∀ err, result run = Err err → ¬ connection_error err)
  ∨ (∃ tail, events run = events loop ++ tail
             ∧ (tail = [] ∨ tail = [SetTracerProvider; SetTextMapPropagator])
             ∧ ∀ err, result run = Err err → connection_error err →
                      result loop = Otel.Return err).
Proof.
  cbv zeta. unfold Otel.initProvider.
  destruct (Otel.resource_error W) as [msg|].
  - left. split; [reflexivity|]. split; [discriminate|].
    intros err [= <-] [cause H]. vm_compute in H. discriminate H.
  - right. rewrite events_bind, result_bind.
    destruct (result (Otel.retry_loop W collectorURL _ 0)) as [|e|].
    + destruct (Otel.exporter_error W) as [msg|].
      * exists []. split; [reflexivity|]. split; [by left|].
        intros err [= <-] [cause H]. vm_compute in H. discriminate H.
      * exists [SetTracerProvider; SetTextMapPropagator].
        split; [reflexivity|]. split; [by right|]. discriminate.
    + exists []. split; [reflexivity|]. split; [by left|].
      by intros err [= <-] _.
    + destruct (Otel.exporter_error W) as [msg|].
      * exists []. split; [reflexivity|]. split; [by left|].
        intros err [= <-] [cause H]. vm_compute in H. discriminate H.
      * exists [SetTracerProvider; SetTextMapPropagator].
        split; [reflexivity|]. split; [by right|]. discriminate.
Qed.

Lemma last_app_snoc {A : Type} (l pre : list A) (x : A) :
  last (l ++ pre ++ [x]) = Some x.
Proof. by rewrite app_assoc, last_snoc. Qed.

(** [main] goes on to start the server whatever [initProvider] returned;
    when it returned an error, that is logged and [shutdown] does
    nothing. *)
Lemma main_goes_on (environ : gmap string string)
    (default_name default_port started : string) :
  let get := env_or environ in
  let init := Otel.initProvider W (get "OTEL_SERVICE_NAME" default_name)
                (get "OTEL_EXPORTER_OTLP_ENDPOINT" "otel-collector:4317") in
  let run := Otel.main W environ default_name default_port started in
  last (events run) = Some (ListenAndServe (get "HTTP_PORT" default_port))
  ∧ result run = match result init with
                 | Err _ => Otel.NoShutdown
                 | Ok s => s
                 end
  ∧ (∀ e, e ∈ events init → e ∈ events run)
  ∧ (∀ err, result init = Err err →
       LogPrintf
         "Warning: Failed to initialize OTEL provider: %v. Continuing without tracing."
         [AErr err] ∈ events run).
Proof.
  intros get init run. subst run init get. unfold env_or.
  unfold Otel.main, os_Getenv, bind, emit, ret. cbn [fst snd].
  destruct (Otel.initProvider W _ _) as [[s|err] l];
    cbn [result events fst snd app].
  - split_and!; [|reflexivity| |discriminate].
    + exact (last_app_snoc (_ :: _ :: l) [_; _] _).
    + intros e He. set_solver.
  - split_and!; [|reflexivity| |].
    + exact (last_app_snoc (_ :: _ :: l) [_; _; _] _).
    + intros e He. set_solver.
    + intros err' [= <-]. set_solver.
Qed.

End BootstrapClaims.

(** C9, as the code has it.  The bootstrap makes at most 20 attempts to
    connect, none of which lasts longer than its 5 seconds; it sleeps 2
    seconds after every failed attempt but the last, that is 38 seconds at
    most, and so holds up the start of the process for at most 138 seconds
    (20 × 5 s + 19 × 2 s); it gives up with the connection error only
    after 20 failed attempts; and [main], of either service, then logs the
    failure, binds [shutdown] to a function that does nothing and starts
    the server. *)
Theorem bootstrap_bounds (W : Otel.World) (serviceName collectorURL : string)
    (environ : gmap string string) :
  let run := Otel.initProvider W serviceName collectorURL in
  let a := Otel.attempts (events run) in
  a <= 20
  ∧ (∀ j u took ok, Dial j u took ok ∈ events run → took <= 5 * Otel.Second)
  ∧ (∀ d, Sleep d ∈ events run → d = 2 * Otel.Second)
  ∧ Otel.slept (events run) = 2 * Otel.Second * Z.max 0 (a - 1)
  ∧ Otel.slept (events run) <= 38 * Otel.Second
  ∧ Otel.elapsed (events run) <= 138 * Otel.Second
  ∧ (∀ err, result run = Err err → connection_error err →
       a = 20 ∧ Otel.failed_attempts (events run) = 20
       ∧ Otel.slept (events run) = 38 * Otel.Second)
  ∧ (let init :=
       Otel.initProvider W (env_or environ "OTEL_SERVICE_NAME" "servico-a")
         (env_or environ "OTEL_EXPORTER_OTLP_ENDPOINT" "otel-collector:4317")
     in
     let main := Otel.main_servico_a W environ in
     last (events main)
     = Some (ListenAndServe (env_or environ "HTTP_PORT" ":8080"))
     ∧ ∀ err, result init = Err err → result main = Otel.NoShutdown)
  ∧ (let init :=
       Otel.initProvider W (env_or environ "OTEL_SERVICE_NAME" "servico-b")
         (env_or environ "OTEL_EXPORTER_OTLP_ENDPOINT" "otel-collector:4317")
     in
     let main := Otel.main_servico_b W environ in
     last (events main)
     = Some (ListenAndServe (env_or environ "HTTP_PORT" ":8081"))
     ∧ ∀ err, result init = Err err → result main = Otel.NoShutdown).
Proof.
  intros run a. subst a run.
  set (run := Otel.initProvider W serviceName collectorURL).
  assert (Hmain : ∀ dn dp st,
    let init :=
      Otel.initProvider W (env_or environ "OTEL_SERVICE_NAME" dn)
        (env_or environ "OTEL_EXPORTER_OTLP_ENDPOINT" "otel-collector:4317") in
    let main := Otel.main W environ dn dp st in
    last (events main) = Some (ListenAndServe (env_or environ "HTTP_PORT" dp))
    ∧ ∀ err, result init = Err err → result main = Otel.NoShutdown).
  { intros dn dp st.
    destruct (main_goes_on W environ dn dp st) as (Hl & Hr & _).
    cbv zeta in *. split; [exact Hl|].
    intros err E. rewrite Hr, E. reflexivity. }
  assert (Hloop := retry_loop_log W collectorURL (Z.to_nat Otel.maxRetries) 0
                     ltac:(lia) ltac:(unfold Otel.maxRetries; lia)).
  cbv zeta in Hloop.
  set (loop := Otel.retry_loop W collectorURL (Z.to_nat Otel.maxRetries) 0)
    in *.
  destruct Hloop as (Ha & _ & Hs & He & Hd & Hsl & Hret & _ & _).
  assert (Hshape :
    Otel.attempts (events run) <= 20
    ∧ (∀ j u took ok, Dial j u took ok ∈ events run →
         took <= 5 * Otel.Second)
    ∧ (∀ d, Sleep d ∈ events run → d = 2 * Otel.Second)
    ∧ Otel.slept (events run)
      = 2 * Otel.Second * Z.max 0 (Otel.attempts (events run) - 1)
    ∧ Otel.elapsed (events run)
      <= 5 * Otel.Second * Otel.attempts (events run)
         + Otel.slept (events run)
    ∧ (∀ err, result run = Err err → connection_error err →
         Otel.attempts (events run) = 20
         ∧ Otel.failed_attempts (events run) = 20)).
  { destruct (initProvider_log W serviceName collectorURL)
      as [(E & _ & Hno)|(tail & E & Htail & Hconn)]; cbv zeta in *.
    - fold run in E, Hno. rewrite E. cbn. split_and!; try lia; try absent_from_log.
      intros err Herr Hc. by destruct (Hno err Herr).
    - fold run loop in E, Hconn.
      assert (Hm : Otel.attempts tail = 0 ∧ Otel.slept tail = 0
                   ∧ Otel.elapsed tail = 0 ∧ Otel.failed_attempts tail = 0)
        by (destruct Htail as [->| ->]; repeat split).
      destruct Hm as (M1 & M2 & M3 & M4).
      rewrite E.
      destruct (measures_app_tail (events loop) tail M1 M2 M3 M4)
        as (R1 & R2 & R3 & R4).
      rewrite R1, R2, R3, R4.
      unfold Otel.maxRetries, Otel.retryDelay, Otel.dialTimeout in *.
      split_and!; try lia.
      + intros j u took ok Hin. apply elem_of_app in Hin as [Hin|Hin].
        * by eapply Hd.
        * destruct Htail as [->| ->]; in_log Hin.
      + intros d Hin. apply elem_of_app in Hin as [Hin|Hin].
        * by apply Hsl.
        * destruct Htail as [->| ->]; in_log Hin.
      + intros err Herr Hc. destruct (Hret err (Hconn err Herr Hc))
          as (? & ? & _). lia. }
  destruct Hshape as (S1 & S2 & S3 & S4 & S5 & S6).
  assert (Hsl38 : Otel.slept (events run) <= 38 * Otel.Second).
  { rewrite S4. unfold Otel.Second. lia. }
  split_and!; try assumption.
  - unfold Otel.Second in *. lia.
  - intros err Herr Hc. destruct (S6 err Herr Hc) as (A1 & A2).
    split_and!; try assumption. rewrite S4, A1. reflexivity.
  - apply Hmain.
  - apply Hmain.
Qed.

(** C9, as the spec has it, fails: with a collector that never answers
    all 20 attempts run into their 5 seconds, 19 sleeps of 2 seconds lie
    between them, and the bootstrap gives up after 138 seconds, not 40. *)
Lemma bootstrap_blocks_138_seconds :
  let run := Otel.initProvider Samples.silent_collector "servico-a"
               "otel-collector:4317" in
  (∃ err, result run = Err err ∧ connection_error err)
  ∧ Otel.attempts (events run) = 20
  ∧ Otel.slept (events run) = 38 * Otel.Second
  ∧ Otel.elapsed (events run) = 138 * Otel.Second
  ∧ ¬ blocks_at_most (40 * Otel.Second).
Proof.
  cbv zeta. split_and!.
  - eexists. split; [vm_compute; reflexivity|]. eexists. vm_compute.
    reflexivity.
  - vm_compute. reflexivity.
  - vm_compute. reflexivity.
  - vm_compute. reflexivity.
  - intros H.
    specialize (H Samples.silent_collector "servico-a" "otel-collector:4317").
    vm_compute in H. apply H. reflexivity.
Qed.

Lemma bootstrap_bounds_witness :
  Otel.elapsed
    (events (Otel.initProvider Samples.late_collector "servico-b"
               "otel-collector:4317")) <= 138 * Otel.Second
  ∧ result (Otel.main_servico_a Samples.silent_collector ∅) = Otel.NoShutdown.
Proof.
  pose proof (bootstrap_bounds Samples.late_collector "servico-b"
                "otel-collector:4317" ∅) as H1.
  pose proof (bootstrap_bounds Samples.silent_collector "servico-a"
                "otel-collector:4317" ∅) as H2.
  cbv zeta in H1, H2.
  destruct H1 as (_ & _ & _ & _ & _ & Hel & _).
  destruct H2 as (_ & _ & _ & _ & _ & _ & _ & (_ & Hmain) & _).
  split; [exact Hel|].
  eapply Hmain. vm_compute. reflexivity.
Defined.

(** * Further properties *)

(** ** Strings and stored members *)

Section Strings.

Lemma append_cons (a : ascii) (s t : string) :
  String a s +:+ t = String a (s +:+ t).
Proof. reflexivity. Qed.

Lemma has_prefix_app (p s : string) : has_prefix p (p +:+ s) = true.
Proof.
  induction p as [|a p IH]; [reflexivity|].
  rewrite append_cons. cbn [has_prefix]. by rewrite Ascii.eqb_refl, IH.
Qed.

Lemma has_prefix_app_r (p s t : string) :
  has_prefix p s = true → has_prefix p (s +:+ t) = true.
Proof.
  revert s. induction p as [|a p IH]; intros s; [reflexivity|].
  destruct s as [|b s]; [discriminate|].
  rewrite append_cons. cbn [has_prefix].
  intros [-> H]%andb_true_iff. by rewrite (IH _ H).
Qed.

Lemma contains_here (p s : string) :
  has_prefix p s = true → contains p s = true.
Proof. intros H. destruct s; cbn [contains]; by rewrite H. Qed.

Lemma contains_app_l (p a s : string) :
  contains p s = true → contains p (a +:+ s) = true.
Proof.
  intros H. induction a as [|c a IH]; [exact H|].
  rewrite append_cons. cbn [contains]. rewrite IH. apply orb_true_r.
Qed.

Lemma contains_app_r (p s t : string) :
  contains p s = true → contains p (s +:+ t) = true.
Proof.
  induction s as [|c s IH].
  - cbn [contains]. rewrite orb_false_r. intros H.
    apply contains_here. destruct p; [reflexivity|discriminate].
  - cbn [contains]. intros [H|H]%orb_true_iff.
    + apply contains_here. by apply has_prefix_app_r.
    + rewrite append_cons. cbn [contains]. rewrite (IH H).
      apply orb_true_r.
Qed.

End Strings.

Section StoredMembers.

Context {S : Type}.
Variable store : nat → json → S → S * option error.
Variable tags : list string.

(** An error that was saved is the one that is reported. *)
Lemma store_members_saved (members : list (string * json)) (cur : S)
    (e : error) :
  (JSON.store_members store tags members cur (Some e)).2 = Some e.
Proof.
  revert cur. induction members as [|[key v] rest IH]; intros cur;
    [reflexivity|].
  cbn [JSON.store_members]. destruct (JSON.field_of tags key) as [i|].
  - destruct (store i v cur) as [cur' e1]. apply IH.
  - apply IH.
Qed.

(** One member that cannot be stored makes the whole document fail,
    wherever it stands among the members. *)
Lemma store_members_fails (members : list (string * json)) (key : string)
    (val : json) (i : nat) :
  (key, val) ∈ members →
  JSON.field_of tags key = Some i →
  (∀ cur, (store i val cur).2 ≠ None) →
  ∀ cur saved, (JSON.store_members store tags members cur saved).2 ≠ None.
Proof.
  intros Hin Hf Hbad.
  induction members as [|[k v] rest IH]; intros cur saved.
  { by apply elem_of_nil in Hin. }
  cbn [JSON.store_members].
  apply elem_of_cons in Hin as [[= <- <-]|Hin].
  - rewrite Hf. specialize (Hbad cur).
    destruct (store i val cur) as [cur' [e|]]; [|done].
    destruct saved as [e0|]; by rewrite store_members_saved.
  - destruct (JSON.field_of tags k) as [i'|].
    + destruct (store i' v cur) as [cur' e1]. by apply IH.
    + by apply IH.
Qed.

(** Members that match no field, or are [null], leave the record as it
    was. *)
Lemma store_members_skipped (members : list (string * json)) (cur : S)
    (saved : option error) :
  (∀ i r, store i JNull r = (r, None)) →
  Forall (fun m => JSON.field_of tags m.1 = None ∨ m.2 = JNull) members →
  JSON.store_members store tags members cur saved = (cur, saved).
Proof.
  intros Hnull Hall. revert saved.
  induction Hall as [|[k v] rest Hm _ IH]; intros saved; [reflexivity|].
  cbn [JSON.store_members]. cbn [fst snd] in Hm.
  destruct (JSON.field_of tags k) as [i|] eqn:Hf.
  - destruct Hm as [?| ->]; [discriminate|]. rewrite Hnull.
    rewrite IH. by destruct saved.
  - apply IH.
Qed.

End StoredMembers.



(** ** The paths through the Resolver *)

Section ResolverPaths.

Variable W : ServicoB.World.

Local Abbreviation L := (ServicoB.json_lib W).
Local Abbreviation sspan := ServicoB.searchCEP_span.
Local Abbreviation gspan := ServicoB.getTemperature_span.
Local Abbreviation hspan := ServicoB.handleTemperature_span.
Local Abbreviation vspan := ServicoB.validateCEP_span.
Local Abbreviation key := (weather_key_of W).
Local Abbreviation wurl := (weather_url_of W).

Ltac run_getTemperature :=
  unfold ServicoB.getTemperature, ServicoB.http_Get, os_Getenv, in_span,
    bind, emit, ret; cbv zeta;
  fold (weather_key_of W).

Lemma getTemperature_no_key city :
  key = "" →
  ServicoB.getTemperature W city
  = (Err (Errorf "WEATHER_API_KEY not set"),
     [SpanStart gspan; Getenv "WEATHER_API_KEY"; SpanEnd gspan]).
Proof. intros H. run_getTemperature. rewrite H. reflexivity. Qed.

Lemma getTemperature_no_response city cause :
  key ≠ "" →
  ServicoB.http_get W (wurl city) = HTTP.NoResponse cause →
  ServicoB.getTemperature W city
  = (Err (UrlError "Get" (wurl city) cause),
     [SpanStart gspan; Getenv "WEATHER_API_KEY"; HttpGet (wurl city);
      RecordError gspan (Error (UrlError "Get" (wurl city) cause));
      SpanEnd gspan]).
Proof.
  intros Hk H. run_getTemperature. apply String.eqb_neq in Hk. rewrite Hk.
  fold (weather_url_of W city). rewrite H. reflexivity.
Qed.

Lemma getTemperature_bad_status city code rd :
  key ≠ "" → code ≠ 200 →
  ServicoB.http_get W (wurl city) = HTTP.Response code rd →
  ServicoB.getTemperature W city
  = (Err (Errorf ("weather API returned status " +:+ itoa code +:+ ": "
                  +:+ read_so_far rd)),
     [SpanStart gspan; Getenv "WEATHER_API_KEY"; HttpGet (wurl city);
      LogPrintf "Weather API error response: %s" [AStr (read_so_far rd)];
      SpanEnd gspan]).
Proof.
  intros Hk Hc H. run_getTemperature. apply String.eqb_neq in Hk. rewrite Hk.
  fold (weather_url_of W city). rewrite H.
  apply Z.eqb_neq in Hc. unfold HTTP.StatusOK. rewrite Hc.
  destruct rd; reflexivity.
Qed.

Lemma getTemperature_read_error city partial msg :
  key ≠ "" →
  ServicoB.http_get W (wurl city)
  = HTTP.Response 200 (HTTP.ReadErr partial msg) →
  ServicoB.getTemperature W city
  = (Err (IoError msg),
     [SpanStart gspan; Getenv "WEATHER_API_KEY"; HttpGet (wurl city);
      SpanEnd gspan]).
Proof.
  intros Hk H. run_getTemperature. apply String.eqb_neq in Hk. rewrite Hk.
  fold (weather_url_of W city). rewrite H. reflexivity.
Qed.

Lemma getTemperature_decode_error city data e :
  key ≠ "" →
  ServicoB.http_get W (wurl city) = HTTP.Response 200 (HTTP.ReadOk data) →
  ServicoB.Unmarshal_WeatherAPIResponse L data = Err e →
  ServicoB.getTemperature W city
  = (Err e,
     [SpanStart gspan; Getenv "WEATHER_API_KEY"; HttpGet (wurl city);
      SpanEnd gspan]).
Proof.
  intros Hk H Hd. run_getTemperature. apply String.eqb_neq in Hk. rewrite Hk.
  fold (weather_url_of W city). rewrite H.
  cbn [HTTP.StatusOK Z.eqb Pos.eqb negb]. rewrite Hd. reflexivity.
Qed.

Lemma getTemperature_ok city data wr :
  key ≠ "" →
  ServicoB.http_get W (wurl city) = HTTP.Response 200 (HTTP.ReadOk data) →
  ServicoB.Unmarshal_WeatherAPIResponse L data = Ok wr →
  ServicoB.getTemperature W city
  = (Ok (ServicoB.Current_TempC (ServicoB.Current wr)),
     [SpanStart gspan; Getenv "WEATHER_API_KEY"; HttpGet (wurl city);
      LogPrintf "Temperature search took %v" [Measured]; SpanEnd gspan]).
Proof.
  intros Hk H Hd. run_getTemperature. apply String.eqb_neq in Hk. rewrite Hk.
  fold (weather_url_of W city). rewrite H.
  cbn [HTTP.StatusOK Z.eqb Pos.eqb negb]. rewrite Hd. reflexivity.
Qed.

(** Every run of the directory lookup has one of three logs. *)
Lemma searchCEP_paths cep (P : Eff (res ServicoB.ViaCEPResponse) → Prop) :
  (∀ err m, P (Err err, [SpanStart sspan; HttpGet (ServicoB.viacep_url cep);
                         RecordError sspan m; SpanEnd sspan])) →
  (∀ err, P (Err err, [SpanStart sspan; HttpGet (ServicoB.viacep_url cep);
                       SpanEnd sspan])) →
  (∀ v, P (Ok v, [SpanStart sspan; HttpGet (ServicoB.viacep_url cep);
                  LogPrintf "CEP search took %v" [Measured];
                  SpanEnd sspan])) →
  P (ServicoB.searchCEP W cep).
Proof.
  intros P1 P2 P3.
  destruct (ServicoB.http_get W (ServicoB.viacep_url cep))
    as [cause|code rd] eqn:H.
  - rewrite (searchCEP_no_response W _ _ H). apply P1.
  - destruct (Z.eq_dec code 400) as [->|Hc].
    { rewrite (searchCEP_bad_request W _ _ H). apply P2. }
    destruct rd as [data|partial msg].
    + destruct (ServicoB.Unmarshal_ViaCEPResponse L data) as [v|e0] eqn:Hd.
      * destruct (ServicoB.Erro v) eqn:He.
        -- rewrite (searchCEP_not_found W _ _ _ _ Hc H Hd He). apply P2.
        -- rewrite (searchCEP_found W _ _ _ _ Hc H Hd He). apply P3.
      * rewrite (searchCEP_decode_error W _ _ _ _ Hc H Hd). apply P2.
    + rewrite (searchCEP_read_error W _ _ _ _ Hc H). apply P2.
Qed.

(** Every run of the weather lookup has one of five logs. *)
Lemma getTemperature_paths city (P : Eff (res float) → Prop) :
  (∀ err, P (Err err, [SpanStart gspan; Getenv "WEATHER_API_KEY";
                       SpanEnd gspan])) →
  (∀ err m, P (Err err, [SpanStart gspan; Getenv "WEATHER_API_KEY";
                         HttpGet (wurl city); RecordError gspan m;
                         SpanEnd gspan])) →
  (∀ err b, P (Err err, [SpanStart gspan; Getenv "WEATHER_API_KEY";
                         HttpGet (wurl city);
                         LogPrintf "Weather API error response: %s" [AStr b];
                         SpanEnd gspan])) →
  (∀ err, P (Err err, [SpanStart gspan; Getenv "WEATHER_API_KEY";
                       HttpGet (wurl city); SpanEnd gspan])) →
  (∀ t, P (Ok t, [SpanStart gspan; Getenv "WEATHER_API_KEY";
                  HttpGet (wurl city);
                  LogPrintf "Temperature search took %v" [Measured];
                  SpanEnd gspan])) →
  P (ServicoB.getTemperature W city).
Proof.
  intros P1 P2 P3 P4 P5.
  destruct (String.eqb_spec key "") as [Hk|Hk].
  { rewrite (getTemperature_no_key _ Hk). apply P1. }
  destruct (ServicoB.http_get W (wurl city)) as [cause|code rd] eqn:H.
  - rewrite (getTemperature_no_response _ _ Hk H). apply P2.
  - destruct (Z.eq_dec code 200) as [->|Hc].
    + destruct rd as [data|partial msg].
      * destruct (ServicoB.Unmarshal_WeatherAPIResponse L data) as [wr|e]
          eqn:Hd.
        -- rewrite (getTemperature_ok _ _ _ Hk H Hd). apply P5.
        -- rewrite (getTemperature_decode_error _ _ _ Hk H Hd). apply P4.
      * rewrite (getTemperature_read_error _ _ _ Hk H). apply P4.
    + rewrite (getTemperature_bad_status _ _ _ Hk Hc H). apply P3.
Qed.

(** Every run of the handler takes one of five paths. *)
Lemma handleTemperature_paths (r : HTTP.Request)
    (P : Eff HTTP.ResponseWriter → Prop) :
  let cep := HTTP.Get (HTTP.req_header r) "X-CEP" in
  let pre := [SpanStart hspan; SpanStart vspan; SpanEnd vspan] in
  (cep = "" →
   P (ServicoB.error_json W 400 "CEP header is required" HTTP.fresh,
      [SpanStart hspan; RecordError hspan "CEP not provided";
       SpanEnd hspan])) →
  (cep ≠ "" → ServicoB.validateCEP cep = false →
   P (ServicoB.error_json W 422 "invalid zipcode" HTTP.fresh,
      pre ++ [RecordError hspan "invalid zipcode"; SpanEnd hspan])) →
  (∀ err S,
     ServicoB.validateCEP cep = true →
     ServicoB.searchCEP W cep = (Err err, S) →
     P (answer_for W err,
        pre ++ S ++ [RecordError hspan (Error err); SpanEnd hspan])) →
  (∀ v S err G,
     ServicoB.validateCEP cep = true →
     ServicoB.searchCEP W cep = (Ok v, S) →
     ServicoB.getTemperature W (ServicoB.Localidade v) = (Err err, G) →
     P (HTTP.Error_ (Error err) 500 HTTP.fresh,
        pre ++ S ++ G ++ [RecordError hspan (Error err); SpanEnd hspan])) →
  (∀ v S t G,
     ServicoB.validateCEP cep = true →
     ServicoB.searchCEP W cep = (Ok v, S) →
     ServicoB.getTemperature W (ServicoB.Localidade v) = (Ok t, G) →
     P (Encode L
          (ServicoB.Marshal_TemperatureResponse
             (reading (ServicoB.Localidade v) t))
          (HTTP.WriteHeader 200
             (HTTP.with_header
                (fun h => HTTP.Set_ h "Content-Type" "application/json")
                HTTP.fresh)),
        pre ++ S ++ G ++ [SpanEnd hspan])) →
  P (ServicoB.handleTemperature W r HTTP.fresh).
Proof.
  intros cep pre P1 P2 P3 P4 P5.
  destruct (String.eqb_spec cep "") as [He|He].
  { specialize (P1 He). unfold ServicoB.handleTemperature. fold cep.
    rewrite He. exact P1. }
  destruct (ServicoB.validateCEP cep) eqn:Hv.
  2:{ specialize (P2 He eq_refl). unfold ServicoB.handleTemperature.
      fold cep. apply String.eqb_neq in He. rewrite He, Hv. exact P2. }
  rewrite (handleTemperature_valid W r HTTP.fresh Hv). fold cep.
  unfold in_span, bind, emit, ret.
  destruct (ServicoB.searchCEP W cep) as [[v|err] S] eqn:Hs.
  - destruct (ServicoB.getTemperature W (ServicoB.Localidade v))
      as [[t|err] G] eqn:Hg.
    + specialize (P5 v S t G eq_refl eq_refl Hg).
      cbn [app]. rewrite app_nil_r, <- app_assoc. exact P5.
    + specialize (P4 v S err G eq_refl eq_refl Hg).
      cbn [app]. rewrite <- !app_assoc. exact P4.
  - specialize (P3 err S eq_refl eq_refl). unfold answer_for in P3.
    destruct (String.eqb (Error err) "invalid zipcode");
      [|destruct (String.eqb (Error err) "can not find zipcode")];
      cbn [app]; rewrite <- !app_assoc; exact P3.
Qed.

End ResolverPaths.

(** Case analysis on a lookup whose outcome is named by an equation. *)
Ltac by_searchCEP W H :=
  revert H;
  match goal with
  | |- ServicoB.searchCEP W ?cep = _ → _ =>
      pattern (ServicoB.searchCEP W cep); apply searchCEP_paths
  end; intros; simplify_eq.

Ltac by_getTemperature W H :=
  revert H;
  match goal with
  | |- ServicoB.getTemperature W ?city = _ → _ =>
      pattern (ServicoB.getTemperature W city); apply getTemperature_paths
  end; intros; simplify_eq.

(** ** What every run of the Resolver keeps to *)

(** X1.  The spans of the Resolver are opened and ended like brackets, with
    the handler's span around everything; errors are recorded on open spans
    and requests go out inside a span. *)
Theorem resolver_spans_nested (W : ServicoB.World) (r : HTTP.Request) :
  let l := events (ServicoB.handleTemperature W r HTTP.fresh) in
  nested [] l = true
  ∧ head l = Some (SpanStart ServicoB.handleTemperature_span)
  ∧ last l = Some (SpanEnd ServicoB.handleTemperature_span).
Proof.
  cbv zeta. apply handleTemperature_paths.
  - intros _. repeat split.
  - intros _ _. repeat split.
  - intros err S _ Hs. by_searchCEP W Hs; repeat split.
  - intros v S err G _ Hs Hg.
    by_searchCEP W Hs. by_getTemperature W Hg; repeat split.
  - intros v S t G _ Hs Hg.
    by_searchCEP W Hs. by_getTemperature W Hg. repeat split.
Qed.


(** X3.  The Resolver records an error on its span exactly when it does not
    answer 200, and then exactly one. *)
Theorem resolver_records_failures (W : ServicoB.World) (r : HTTP.Request) :
  let run := ServicoB.handleTemperature W r HTTP.fresh in
  let errs := recorded ServicoB.handleTemperature_span (events run) in
  (HTTP.status (result run) = Some 200 ∧ errs = [])
  ∨ (HTTP.status (result run) ≠ Some 200 ∧ ∃ msg, errs = [msg]).
Proof.
  cbv zeta. apply handleTemperature_paths.
  - intros _. right. split; [discriminate|]. by eexists.
  - intros _ _. right. split; [discriminate|]. by eexists.
  - intros err S _ Hs. right. split.
    + unfold answer_for.
      destruct (String.eqb (Error err) "invalid zipcode"); [discriminate|].
      destruct (String.eqb (Error err) "can not find zipcode"); discriminate.
    + by_searchCEP W Hs; by eexists.
  - intros v S err G _ Hs Hg. right. split; [discriminate|].
    by_searchCEP W Hs. by_getTemperature W Hg; by eexists.
  - intros v S t G _ Hs Hg. left. split.
    + unfold Encode.
      destruct (ServicoB.Marshal_TemperatureResponse _); reflexivity.
    + by_searchCEP W Hs. by_getTemperature W Hg. reflexivity.
Qed.

(** X4.  The header a response of the Resolver is sent with goes with its
    status: JSON is declared for 200 only, the answers written with
    [http.Error] are plain text, and the JSON error bodies of 400, 404 and 422
    are sent with no content type set. *)
Theorem resolver_response_headers (W : ServicoB.World) (r : HTTP.Request) :
  let w := result (ServicoB.handleTemperature W r HTTP.fresh) in
  HTTP.wrote w = Some (200, json_header)
  ∨ HTTP.wrote w = Some (500, plain_text_header)
  ∨ (∃ code, code ∈ [400; 404; 422] ∧ HTTP.wrote w = Some (code, ∅)).
Proof.
  cbv zeta. apply handleTemperature_paths.
  - intros _. right. right. exists 400. split; [set_solver|reflexivity].
  - intros _ _. right. right. exists 422. split; [set_solver|reflexivity].
  - intros err S _ _. unfold answer_for.
    destruct (String.eqb (Error err) "invalid zipcode").
    { right. right. exists 422. split; [set_solver|reflexivity]. }
    destruct (String.eqb (Error err) "can not find zipcode").
    { right. right. exists 404. split; [set_solver|reflexivity]. }
    right. left. reflexivity.
  - intros v S err G _ _ _. right. left. reflexivity.
  - intros v S t G _ _ _. left. unfold Encode.
    destruct (ServicoB.Marshal_TemperatureResponse _); reflexivity.
Qed.

(** ** The paths of the Resolver past the directory *)

Section ResolverOutcomes.

Variable W : ServicoB.World.
Variable r : HTTP.Request.

Local Abbreviation L := (ServicoB.json_lib W).
Local Abbreviation cep := (HTTP.Get (HTTP.req_header r) "X-CEP").
Local Abbreviation run := (ServicoB.handleTemperature W r HTTP.fresh).

(** What the handler returns once both lookups are known. *)
Lemma handler_after_lookups (v : ServicoB.ViaCEPResponse) :
  ServicoB.validateCEP cep = true →
  result (ServicoB.searchCEP W cep) = Ok v →
  result run
  = match result (ServicoB.getTemperature W (ServicoB.Localidade v)) with
    | Err err => HTTP.Error_ (Error err) 500 HTTP.fresh
    | Ok t =>
        Encode L (ServicoB.Marshal_TemperatureResponse
                    (reading (ServicoB.Localidade v) t))
          (HTTP.WriteHeader 200
             (HTTP.with_header
                (fun h => HTTP.Set_ h "Content-Type" "application/json")
                HTTP.fresh))
    end.
Proof.
  intros Hv Hs. rewrite (handleTemperature_valid W r HTTP.fresh Hv).
  rewrite result_in_span, !result_bind, Hs, result_bind.
  destruct (result (ServicoB.getTemperature W _)); reflexivity.
Qed.

End ResolverOutcomes.

(** X5.  A reading is answered with 200, the content type JSON and the four
    members [city], [temp_C], [temp_F] and [temp_K], where the city is the
    [localidade] of the directory and the two other temperatures are the
    conversions of the reading. Of the directory's status only 400 is looked
    at: a body that decodes is used whatever other status came with it. *)
Theorem resolver_success (W : ServicoB.World) (r : HTTP.Request)
    (code : Z) (data wdata : string) (v : ServicoB.ViaCEPResponse)
    (wr : ServicoB.WeatherAPIResponse) (j : json) :
  let L := ServicoB.json_lib W in
  let cep := HTTP.Get (HTTP.req_header r) "X-CEP" in
  let run := ServicoB.handleTemperature W r HTTP.fresh in
  let t := ServicoB.Current_TempC (ServicoB.Current wr) in
  ServicoB.validateCEP cep = true →
  code ≠ 400 →
  ServicoB.http_get W (ServicoB.viacep_url cep)
  = HTTP.Response code (HTTP.ReadOk data) →
  ServicoB.Unmarshal_ViaCEPResponse L data = Ok v →
  ServicoB.Erro v = false →
  weather_key_of W ≠ "" →
  ServicoB.http_get W (weather_url_of W (ServicoB.Localidade v))
  = HTTP.Response 200 (HTTP.ReadOk wdata) →
  ServicoB.Unmarshal_WeatherAPIResponse L wdata = Ok wr →
  ServicoB.Marshal_TemperatureResponse (reading (ServicoB.Localidade v) t)
  = Some j →
  j = JObj [("city", JStr (ServicoB.Localidade v)); ("temp_C", JNum t);
            ("temp_F", JNum (t * 1.8 + 32)%float);
            ("temp_K", JNum (t + 273)%float)]
  ∧ answered (result run) 200 (JSON.render L j +:+ HTTP.newline)
  ∧ HTTP.wrote (result run) = Some (200, json_header)
  ∧ gets (events run)
    = [ServicoB.viacep_url cep;
       weather_url_of W (ServicoB.Localidade v)].
Proof.
  intros L cep run t Hv Hc Hd Hu He Hk Hw Huw Hm. subst run.
  pose proof (searchCEP_found W cep code data v Hc Hd Hu He) as Hs.
  pose proof (getTemperature_ok W _ wdata wr Hk Hw Huw) as Hg.
  split.
  { by destruct (Marshal_TemperatureResponse_Some _ _ Hm) as (_ & _ & _ & ->). }
  rewrite (handleTemperature_valid W r HTTP.fresh Hv).
  unfold in_span, bind, emit, ret. fold cep. rewrite Hs, Hg.
  cbn [fst snd]. fold t. unfold reading in Hm. rewrite Hm.
  repeat split.
Qed.

Lemma resolver_success_witness :
  answered
    (result (ServicoB.handleTemperature Samples.resolver_world
               (Samples.resolver_request "01310100") HTTP.fresh))
    200 (Samples.text Samples.temperature +:+ HTTP.newline).
Proof.
  refine (proj1 (proj2 (resolver_success Samples.resolver_world
            (Samples.resolver_request "01310100") 200
            (Samples.text Samples.sao_paulo) (Samples.text Samples.weather)
            {| ServicoB.Cep := "01310-100";
               ServicoB.Logradouro := "Avenida Paulista";
               ServicoB.Complemento := ""; ServicoB.Bairro := "";
               ServicoB.Localidade := "São Paulo"; ServicoB.UF := "SP";
               ServicoB.Erro := false |}
            {| ServicoB.Location := {| ServicoB.Name := "Sao Paulo" |};
               ServicoB.Current := {| ServicoB.Current_TempC := 28.5 |} |}
            Samples.temperature _ _ _ _ _ _ _ _ _)));
    try (vm_compute; reflexivity); try discriminate.
Defined.

(** X6.  A status other than 200 from the weather service is answered with 500
    and a text that gives that status and the body that came with it. *)
Theorem weather_bad_status (W : ServicoB.World) (r : HTTP.Request)
    (v : ServicoB.ViaCEPResponse) (code : Z) (rd : HTTP.read_result) :
  let cep := HTTP.Get (HTTP.req_header r) "X-CEP" in
  let run := ServicoB.handleTemperature W r HTTP.fresh in
  ServicoB.validateCEP cep = true →
  result (ServicoB.searchCEP W cep) = Ok v →
  weather_key_of W ≠ "" →
  code ≠ 200 →
  ServicoB.http_get W (weather_url_of W (ServicoB.Localidade v))
  = HTTP.Response code rd →
  answered (result run) 500
    (("weather API returned status " +:+ itoa code +:+ ": "
      +:+ read_so_far rd) +:+ HTTP.newline)
  ∧ HTTP.wrote (result run) = Some (500, plain_text_header).
Proof.
  intros cep run Hv Hs Hk Hc Hw. subst run.
  rewrite (handler_after_lookups W r v Hv Hs).
  rewrite (getTemperature_bad_status W _ code rd Hk Hc Hw).
  cbn [result fst]. split; [split|]; reflexivity.
Qed.

Lemma weather_bad_status_witness :
  answered
    (result (ServicoB.handleTemperature MoreSamples.weather_unavailable
               (Samples.resolver_request "01310100") HTTP.fresh))
    500 ("weather API returned status 503: Service Unavailable"
         +:+ HTTP.newline).
Proof.
  refine (proj1 (weather_bad_status MoreSamples.weather_unavailable
            (Samples.resolver_request "01310100")
            {| ServicoB.Cep := "01310-100";
               ServicoB.Logradouro := "Avenida Paulista";
               ServicoB.Complemento := ""; ServicoB.Bairro := "";
               ServicoB.Localidade := "São Paulo"; ServicoB.UF := "SP";
               ServicoB.Erro := false |}
            503 (HTTP.ReadOk "Service Unavailable") _ _ _ _ _));
    try (vm_compute; reflexivity); discriminate.
Defined.

(** The text of a failed request to the weather service quotes the URL,
    and with it the key. *)
Lemma transport_error_shows_key (W : ServicoB.World) (city cause : string) :
  contains (weather_key_of W)
    (Error (UrlError "Get" (weather_url_of W city) cause) +:+ HTTP.newline)
  = true.
Proof.
  change (Error _)
    with ("Get" +:+ " " +:+ (dquote +:+ weather_url_of W city +:+ dquote)
          +:+ ": " +:+ cause).
  apply contains_app_r, contains_app_l, contains_app_l, contains_app_r,
    contains_app_l, contains_app_r.
  unfold weather_url_of, ServicoB.weather_url.
  apply contains_app_l, contains_here, has_prefix_app.
Qed.

(** X7.  When the weather service cannot be reached, the answer is 500 and the
    text of the transport error, which quotes the URL of the request: the body
    shows the weather key. (A key of unreserved bytes, which the quoting of
    the URL leaves as they are.) *)
Theorem weather_failure_shows_key (W : ServicoB.World) (r : HTTP.Request)
    (v : ServicoB.ViaCEPResponse) (cause : string) :
  let cep := HTTP.Get (HTTP.req_header r) "X-CEP" in
  let run := ServicoB.handleTemperature W r HTTP.fresh in
  let wurl := weather_url_of W (ServicoB.Localidade v) in
  ServicoB.validateCEP cep = true →
  result (ServicoB.searchCEP W cep) = Ok v →
  weather_key_of W ≠ "" →
  forallb URL.unreserved (bytes (weather_key_of W)) = true →
  ServicoB.http_get W wurl = HTTP.NoResponse cause →
  answered (result run) 500
    (("Get " +:+ quote wurl +:+ ": " +:+ cause) +:+ HTTP.newline)
  ∧ contains (weather_key_of W) (HTTP.body (result run)) = true.
Proof.
  intros cep run wurl Hv Hs Hk _ Hw. subst run.
  rewrite (handler_after_lookups W r v Hv Hs).
  rewrite (getTemperature_no_response W _ cause Hk Hw).
  cbn [result fst]. split; [split; reflexivity|].
  apply transport_error_shows_key.
Qed.

Lemma weather_failure_shows_key_witness :
  contains "secret"
    (HTTP.body
       (result (ServicoB.handleTemperature MoreSamples.weather_unreachable
                  (Samples.resolver_request "01310100") HTTP.fresh)))
  = true.
Proof.
  refine (proj2 (weather_failure_shows_key MoreSamples.weather_unreachable
            (Samples.resolver_request "01310100")
            {| ServicoB.Cep := "01310-100";
               ServicoB.Logradouro := "Avenida Paulista";
               ServicoB.Complemento := ""; ServicoB.Bairro := "";
               ServicoB.Localidade := "São Paulo"; ServicoB.UF := "SP";
               ServicoB.Erro := false |}
            "dial tcp: i/o timeout" _ _ _ _ _));
    try (vm_compute; reflexivity); discriminate.
Defined.

(** X8.  A reading whose Fahrenheit value is beyond [float64] cannot be
    encoded: the answer is the status 200, declared as JSON, with no body at
    all, and no error is recorded. *)
Theorem unencodable_reading (W : ServicoB.World) (r : HTTP.Request)
    (v : ServicoB.ViaCEPResponse) (t : float) :
  let cep := HTTP.Get (HTTP.req_header r) "X-CEP" in
  let run := ServicoB.handleTemperature W r HTTP.fresh in
  ServicoB.validateCEP cep = true →
  result (ServicoB.searchCEP W cep) = Ok v →
  result (ServicoB.getTemperature W (ServicoB.Localidade v)) = Ok t →
  JSON.is_finite (t * 1.8 + 32)%float = false →
  answered (result run) 200 ""
  ∧ HTTP.wrote (result run) = Some (200, json_header)
  ∧ recorded ServicoB.handleTemperature_span (events run) = [].
Proof.
  intros cep run Hv Hs Hg Hf. subst run.
  assert (Hm : ServicoB.Marshal_TemperatureResponse
                 (reading (ServicoB.Localidade v) t) = None).
  { unfold ServicoB.Marshal_TemperatureResponse, reading.
    cbn [ServicoB.TempC ServicoB.TempF ServicoB.TempK].
    unfold JSON.marshal_float64 at 2.
    change (ServicoB.celsiusToFahrenheit t) with (t * 1.8 + 32)%float.
    rewrite Hf. by destruct (JSON.marshal_float64 t). }
  split; [|split].
  1,2: rewrite (handler_after_lookups W r v Hv Hs), Hg, Hm;
       repeat split.
  revert Hs Hg. pattern (ServicoB.handleTemperature W r HTTP.fresh).
  apply handleTemperature_paths; fold cep.
  - intros ->. discriminate Hv.
  - intros _ E. rewrite E in Hv. discriminate Hv.
  - intros err S _ Hs' Hs. rewrite Hs' in Hs. discriminate Hs.
  - intros v' S err G _ Hs' Hg' Hs Hg. rewrite Hs' in Hs.
    injection Hs as ->. rewrite Hg' in Hg. discriminate Hg.
  - intros v' S t' G _ Hs Hg _ _.
    by_searchCEP W Hs. by_getTemperature W Hg. reflexivity.
Qed.

Lemma unencodable_reading_witness :
  answered
    (result (ServicoB.handleTemperature MoreSamples.weather_too_hot
               (Samples.resolver_request "01310100") HTTP.fresh))
    200 "".
Proof.
  refine (proj1 (unencodable_reading MoreSamples.weather_too_hot
            (Samples.resolver_request "01310100")
            {| ServicoB.Cep := "01310-100";
               ServicoB.Logradouro := "Avenida Paulista";
               ServicoB.Complemento := ""; ServicoB.Bairro := "";
               ServicoB.Localidade := "São Paulo"; ServicoB.UF := "SP";
               ServicoB.Erro := false |}
            0x1.2p+1023 _ _ _ _));
    vm_compute; reflexivity.
Defined.

(** X9.  A member of the directory's answer that has the wrong type for its
    field (the error flag sent as a string, say) makes the lookup fail with a
    type error, wherever the member stands: the answer is 500 with the text of
    that error, and the weather service is not asked. *)
Theorem directory_wrong_type (W : ServicoB.World) (r : HTTP.Request)
    (code : Z) (data : string) (members : list (string * json))
    (key : string) (val : json) (i : nat) :
  let cep := HTTP.Get (HTTP.req_header r) "X-CEP" in
  let run := ServicoB.handleTemperature W r HTTP.fresh in
  ServicoB.validateCEP cep = true →
  code ≠ 400 →
  ServicoB.http_get W (ServicoB.viacep_url cep)
  = HTTP.Response code (HTTP.ReadOk data) →
  JSON.scan_document (ServicoB.json_lib W) data = inr (JObj members) →
  (key, val) ∈ members →
  JSON.field_of ServicoB.ViaCEPResponse_tags key = Some i →
  ill_typed i val = true →
  ∃ e, is_type_error e
       ∧ answered (result run) 500 (Error e +:+ HTTP.newline)
       ∧ gets (events run) = [ServicoB.viacep_url cep].
Proof.
  intros cep run Hv Hc Hget Hscan Hin Hf Hbad. subst run.
  assert (Hd : ∃ e, ServicoB.Unmarshal_ViaCEPResponse (ServicoB.json_lib W)
                      data = Err e).
  { unfold ServicoB.Unmarshal_ViaCEPResponse, JSON.Unmarshal.
    rewrite Hscan. cbn [JSON.into_struct].
    pose proof (store_members_fails ServicoB.store_ViaCEPResponse
                  ServicoB.ViaCEPResponse_tags members key val i Hin Hf) as H.
    destruct (JSON.store_members _ _ members _ None) as [x [e|]] eqn:E.
    - by exists e.
    - exfalso. eapply H; [|by rewrite E].
      intros cur. unfold ill_typed in Hbad.
      unfold ServicoB.store_ViaCEPResponse in *.
      do 7 (destruct i as [|i];
            [destruct val; cbn in *; done|]).
      destruct val; cbn in *; done. }
  destruct Hd as [e Hd]. exists e.
  assert (Ht : is_type_error e).
  { destruct (Unmarshal_ViaCEPResponse_error W data e Hd)
      as [(msg & Hm & _)|Ht]; [|exact Ht].
    rewrite Hscan in Hm. discriminate Hm. }
  split; [exact Ht|].
  pose proof (searchCEP_decode_error W cep code data e Hc Hget Hd) as Hs.
  destruct (other_failure_500 W r e _ Hv Hs (type_error_not_a_sentinel e Ht))
    as [Ha He].
  split; [exact Ha|]. rewrite He. reflexivity.
Qed.

Lemma directory_wrong_type_witness :
  ∃ e, is_type_error e
       ∧ answered
           (result (ServicoB.handleTemperature
                      MoreSamples.directory_flag_as_string
                      (Samples.resolver_request "01310100") HTTP.fresh))
           500 (Error e +:+ HTTP.newline)
       ∧ gets (events (ServicoB.handleTemperature
                         MoreSamples.directory_flag_as_string
                         (Samples.resolver_request "01310100") HTTP.fresh))
         = [ServicoB.viacep_url "01310100"].
Proof.
  refine (directory_wrong_type MoreSamples.directory_flag_as_string
            (Samples.resolver_request "01310100") 200
            (Samples.text MoreSamples.erro_as_string)
            [("erro", JStr "true")] "erro" (JStr "true") 6%nat _ _ _ _ _ _ _);
    try (vm_compute; reflexivity); try discriminate.
  apply list_elem_of_lookup. exists 0%nat. reflexivity.
Defined.

(** X10.  The status 200 is sent only after both lookups gave a result, and
    what is sent with it is the encoding of that result, if it has one. *)
Theorem ok_only_after_lookups (W : ServicoB.World) (r : HTTP.Request) :
  let cep := HTTP.Get (HTTP.req_header r) "X-CEP" in
  let run := ServicoB.handleTemperature W r HTTP.fresh in
  HTTP.status (result run) = Some 200 →
  ∃ v t,
    ServicoB.validateCEP cep = true
    ∧ result (ServicoB.searchCEP W cep) = Ok v
    ∧ result (ServicoB.getTemperature W (ServicoB.Localidade v)) = Ok t
    ∧ HTTP.body (result run)
      = match ServicoB.Marshal_TemperatureResponse
                (reading (ServicoB.Localidade v) t) with
        | Some j => JSON.render (ServicoB.json_lib W) j +:+ HTTP.newline
        | None => ""
        end.
Proof.
  cbv zeta. pattern (ServicoB.handleTemperature W r HTTP.fresh).
  apply handleTemperature_paths.
  - intros _ [=].
  - intros _ _ [=].
  - intros err S _ _. unfold answer_for.
    destruct (String.eqb (Error err) "invalid zipcode"); [intros [=]|].
    destruct (String.eqb (Error err) "can not find zipcode"); intros [=].
  - intros v S err G _ _ _ [=].
  - intros v S t G Hv Hs Hg _. exists v, t. rewrite Hs. cbn [result fst].
    rewrite Hg. split_and!; try done. unfold Encode.
    by destruct (ServicoB.Marshal_TemperatureResponse _).
Qed.

Lemma ok_only_after_lookups_witness :
  ∃ v t,
    ServicoB.validateCEP "01310100" = true
    ∧ result (ServicoB.searchCEP Samples.resolver_world "01310100") = Ok v
    ∧ result (ServicoB.getTemperature Samples.resolver_world
                (ServicoB.Localidade v)) = Ok t.
Proof.
  destruct (ok_only_after_lookups Samples.resolver_world
              (Samples.resolver_request "01310100"))
    as (v & t & Hv & Hs & Hg & _).
  - vm_compute. reflexivity.
  - exists v, t. split_and!; assumption.
Defined.

(** ** The query of the weather lookup *)

Section Escaping.

Lemma byteZ_inj (a b : ascii) : GoString.byteZ a = GoString.byteZ b → a = b.
Proof.
  unfold GoString.byteZ. intros H%N2Z.inj.
  by rewrite <- (ascii_N_embedding a), <- (ascii_N_embedding b), H.
Qed.

Lemma upperhex_safe (a : ascii) :
  query_safe (URL.upperhex (Z.shiftr (GoString.byteZ a) 4)) = true
  ∧ query_safe (URL.upperhex (Z.land (GoString.byteZ a) 15)) = true.
Proof.
  destruct a as [[] [] [] [] [] [] [] []]; split; vm_compute; reflexivity.
Qed.

(** The two digits written for a byte are its value in base 16. *)
Lemma upperhex_value (a : ascii) :
  16 * unhex (URL.upperhex (Z.shiftr (GoString.byteZ a) 4))
  + unhex (URL.upperhex (Z.land (GoString.byteZ a) 15))
  = GoString.byteZ a.
Proof.
  destruct a as [[] [] [] [] [] [] [] []]; vm_compute; reflexivity.
Qed.

Lemma unreserved_not_mark (a : ascii) :
  URL.unreserved a = true → a ≠ "+"%char ∧ a ≠ "%"%char.
Proof. intros H. split; intros ->; vm_compute in H; discriminate H. Qed.

Lemma QueryEscape_safe (s : string) :
  forallb query_safe (bytes (URL.QueryEscape s)) = true.
Proof.
  induction s as [|a t IH]; [reflexivity|].
  cbn [URL.QueryEscape].
  destruct (URL.unreserved a) eqn:Hu.
  - cbn [bytes forallb]. rewrite IH. unfold query_safe. by rewrite Hu.
  - destruct (bool_decide (a = " "%char)).
    + cbn [bytes forallb]. by rewrite IH.
    + cbn [bytes forallb]. destruct (upperhex_safe a) as [-> ->].
      by rewrite IH.
Qed.

Lemma QueryEscape_inj (s s' : string) :
  URL.QueryEscape s = URL.QueryEscape s' → s = s'.
Proof.
  revert s'. induction s as [|a t IH]; intros [|a' t'].
  - reflexivity.
  - cbn [URL.QueryEscape].
    destruct (URL.unreserved a'); [discriminate|].
    destruct (bool_decide (a' = " "%char)); discriminate.
  - cbn [URL.QueryEscape].
    destruct (URL.unreserved a); [discriminate|].
    destruct (bool_decide (a = " "%char)); discriminate.
  - cbn [URL.QueryEscape].
    destruct (URL.unreserved a) eqn:Hu, (URL.unreserved a') eqn:Hu'.
    + intros [= -> H]. by rewrite (IH _ H).
    + destruct (unreserved_not_mark a Hu) as [H1 H2].
      destruct (bool_decide (a' = " "%char)); intros [= E _];
        by rewrite E in *.
    + destruct (unreserved_not_mark a' Hu') as [H1 H2].
      destruct (bool_decide (a = " "%char)); intros [= E _];
        by rewrite <- E in *.
    + destruct (bool_decide_reflect (a = " "%char)) as [->|Hs],
        (bool_decide_reflect (a' = " "%char)) as [->|Hs'];
        try discriminate.
      * intros [= H]. by rewrite (IH _ H).
      * intros [= E1 E2 H].
        pose proof (upperhex_value a) as Ha.
        pose proof (upperhex_value a') as Ha'.
        rewrite E1, E2, Ha' in Ha. apply byteZ_inj in Ha.
        by rewrite Ha, (IH _ H).
Qed.

Lemma append_length (s t : string) :
  String.length (s +:+ t) = (String.length s + String.length t)%nat.
Proof.
  induction s as [|a s IH]; [reflexivity|].
  rewrite append_cons. cbn [String.length Nat.add]. by rewrite IH.
Qed.

Lemma append_inj_r (s s' t : string) : s +:+ t = s' +:+ t → s = s'.
Proof.
  revert s'. induction s as [|a s IH]; intros [|a' s'].
  - reflexivity.
  - intros H%(f_equal String.length). rewrite !append_length in H.
    cbn in H. lia.
  - intros H%(f_equal String.length). rewrite !append_length in H.
    cbn in H. lia.
  - rewrite !append_cons. intros [= -> H]. by rewrite (IH _ H).
Qed.

End Escaping.

(** X11.  The weather lookup sends a GET only with a key, and only to the
    fixed address with the key and, as [q], the escaped city, which consists
    of letters, digits, [-], [_], [.], [~], [+] and [%] only. Whatever the
    directory gave as the city, it can neither end the parameter nor add one. *)
Theorem weather_query_safe (W : ServicoB.World) (city : string) :
  let q := URL.QueryEscape city in
  forallb query_safe (bytes q) = true
  ∧ ∀ u, HttpGet u ∈ events (ServicoB.getTemperature W city) →
         weather_key_of W ≠ ""
         ∧ u = "http://api.weatherapi.com/v1/current.json?key="
               +:+ weather_key_of W +:+ "&q=" +:+ q +:+ "&aqi=no".
Proof.
  cbv zeta. split; [apply QueryEscape_safe|].
  intros u. destruct (String.eqb_spec (weather_key_of W) "") as [Hk|Hk].
  { rewrite (getTemperature_no_key W city Hk). intros H. in_log H. }
  pattern (ServicoB.getTemperature W city). apply getTemperature_paths;
    intros; match goal with H : _ ∈ _ |- _ => in_log H end;
    by split.
Qed.

Lemma weather_query_safe_witness :
  weather_key_of Samples.resolver_world ≠ ""
  ∧ MoreSamples.sao_paulo_weather_url
    = "http://api.weatherapi.com/v1/current.json?key=secret&q=S%C3%A3o+Paulo&aqi=no".
Proof.
  destruct (weather_query_safe Samples.resolver_world "São Paulo")
    as [_ H].
  destruct (H MoreSamples.sao_paulo_weather_url) as [Hk Hu].
  - apply list_elem_of_lookup. exists 2%nat. vm_compute. reflexivity.
  - split; [exact Hk|]. vm_compute. reflexivity.
Defined.

(** X12.  Two cities are asked under the same URL only if they are the same
    city: the escaping loses nothing. *)
Theorem weather_url_determines_city (W : ServicoB.World)
    (city city' : string) :
  weather_url_of W city = weather_url_of W city' → city = city'.
Proof.
  unfold weather_url_of, ServicoB.weather_url.
  intros H. do 3 apply String.app_inj in H.
  apply append_inj_r in H. by apply QueryEscape_inj.
Qed.

Lemma weather_url_determines_city_witness :
  weather_url_of Samples.resolver_world "São Paulo"
  = weather_url_of Samples.resolver_world "São Paulo"
  ∧ "São Paulo" = "São Paulo".
Proof.
  split; [reflexivity|].
  apply (weather_url_determines_city Samples.resolver_world).
  reflexivity.
Defined.

(** ** The paths through the Gateway *)

Section GatewayPaths.

Variable W : ServicoA.World.
Variable r : HTTP.Request.

Local Abbreviation L := (ServicoA.json_lib W).
Local Abbreviation hspan := ServicoA.handleCEP_span.
Local Abbreviation vspan := ServicoA.validateCEP_span.
Local Abbreviation cspan := ServicoA.callServicoB_span.
Local Abbreviation url := (resolver_url W).


(** Every run of the handler takes one of four paths. *)
Lemma handleCEP_paths (P : Eff HTTP.ResponseWriter → Prop) :
  (∀ err,
     ServicoA.Decode_CEPRequest L (HTTP.req_body r) = Err err →
     P (HTTP.Error_ "invalid request body" 400 HTTP.fresh,
        [SpanStart hspan; RecordError hspan (Error err); SpanEnd hspan])) →
  (∀ req,
     ServicoA.Decode_CEPRequest L (HTTP.req_body r) = Ok req →
     ServicoA.validateCEP (ServicoA.CEP req) = false →
     P (Encode L (Some (JSON.marshal_map1 "error" "invalid zipcode"))
          (HTTP.WriteHeader 422 HTTP.fresh),
        [SpanStart hspan; SpanStart vspan; SpanEnd vspan;
         RecordError hspan "invalid zipcode"; SpanEnd hspan])) →
  (∀ req reason,
     ServicoA.Decode_CEPRequest L (HTTP.req_body r) = Ok req →
     ServicoA.validateCEP (ServicoA.CEP req) = true →
     ServicoA.url_error W url = Some reason →
     P (HTTP.Error_ (Error (UrlError "parse" url reason)) 500 HTTP.fresh,
        gateway_prelude W
        ++ [RecordError cspan (Error (UrlError "parse" url reason));
            SpanEnd cspan; SpanEnd hspan])) →
  (∀ req,
     ServicoA.Decode_CEPRequest L (HTTP.req_body r) = Ok req →
     ServicoA.validateCEP (ServicoA.CEP req) = true →
     ServicoA.url_error W url = None →
     let out := ServicoA.outgoing W url (ServicoA.CEP req) in
     P (result (after W (ServicoA.client_do W out)),
        gateway_prelude W
        ++ ClientDo out :: events (after W (ServicoA.client_do W out))
        ++ [SpanEnd cspan; SpanEnd hspan])) →
  P (ServicoA.handleCEP W r HTTP.fresh).
Proof.
  intros P1 P2 P3 P4.
  destruct (ServicoA.Decode_CEPRequest L (HTTP.req_body r)) as [req|err]
    eqn:Hd.
  2:{ rewrite (handleCEP_malformed W r err Hd). by apply P1. }
  destruct (ServicoA.validateCEP (ServicoA.CEP req)) eqn:Hv.
  2:{ rewrite (handleCEP_invalid W r req Hd Hv). by apply (P2 req). }
  rewrite (handleCEP_valid W r req Hd Hv).
  destruct (ServicoA.url_error W url) as [reason|] eqn:Hu.
  - specialize (P3 req reason eq_refl Hv eq_refl). exact P3.
  - specialize (P4 req eq_refl Hv eq_refl). cbv zeta in *.
    unfold in_span, bind, emit, ret.
    destruct (after W _) as [w l].
    cbn [result events fst snd gateway_prelude app] in P4 |- *.
    rewrite <- app_assoc. exact P4.
Qed.


End GatewayPaths.

(** ** What every run of the Gateway keeps to *)




(** ** The Gateway, path by path *)

Section GatewayDecoding.

Variable L : JSON.lib.

Lemma store_CEPRequest_null (i : nat) (r : ServicoA.CEPRequest) :
  ServicoA.store_CEPRequest i JNull r = (r, None).
Proof. reflexivity. Qed.

(** A body that is not fit for a [CEPRequest] is not decoded. *)
Lemma Decode_CEPRequest_malformed (data : string) :
  malformed_request L data →
  ∃ err, ServicoA.Decode_CEPRequest L data = Err err.
Proof.
  unfold malformed_request, ServicoA.Decode_CEPRequest.
  destruct (JSON.scan_stream L data) as [msg|doc]; [by eexists|].
  destruct doc as [|b|f|s|items|members]; cbn [unfit_for_CEPRequest];
    try done; try (intros _; by eexists).
  intros (key & val & i & Hin & Hf & Hbad). cbn [JSON.into_struct].
  pose proof (store_members_fails ServicoA.store_CEPRequest
                ServicoA.CEPRequest_tags members key val i Hin Hf) as H.
  destruct (JSON.store_members _ _ members _ None) as [x [e|]] eqn:E;
    [by eexists|].
  exfalso. eapply H; [|by rewrite E].
  intros cur. unfold ServicoA.store_CEPRequest. by rewrite Hbad.
Qed.

(** A document without a code is decoded into the empty code. *)
Lemma Decode_CEPRequest_without_cep (data : string) (doc : json) :
  JSON.scan_stream L data = inr doc → without_cep doc →
  ServicoA.Decode_CEPRequest L data = Ok {| ServicoA.CEP := "" |}.
Proof.
  intros Hs Hw. unfold ServicoA.Decode_CEPRequest. rewrite Hs.
  destruct doc as [|b|f|s|items|members]; cbn [without_cep] in Hw;
    try done.
  cbn [JSON.into_struct].
  by rewrite (store_members_skipped _ _ _ _ _ store_CEPRequest_null Hw).
Qed.

(** Whatever is stored into a [CEPResponse], its numbers stay finite. *)
Lemma store_CEPResponse_finite (i : nat) (v : json)
    (r : ServicoA.CEPResponse) :
  finite_CEPResponse r →
  finite_CEPResponse (ServicoA.store_CEPResponse i v r).1.
Proof.
  intros (Hc & Hf & Hk). unfold ServicoA.store_CEPResponse.
  destruct i as [|[|[|i]]].
  - destruct v; cbn; by repeat split.
  - destruct v as [|b|f|s|items|members]; cbn -[JSON.is_finite];
      try by repeat split.
    destruct (JSON.is_finite f) eqn:E; cbn -[JSON.is_finite];
      by repeat split.
  - destruct v as [|b|f|s|items|members]; cbn -[JSON.is_finite];
      try by repeat split.
    destruct (JSON.is_finite f) eqn:E; cbn -[JSON.is_finite];
      by repeat split.
  - destruct v as [|b|f|s|items|members]; cbn -[JSON.is_finite];
      try by repeat split.
    destruct (JSON.is_finite f) eqn:E; cbn -[JSON.is_finite];
      by repeat split.
Qed.

Lemma store_members_finite (members : list (string * json))
    (cur : ServicoA.CEPResponse) (saved : option error) :
  finite_CEPResponse cur →
  finite_CEPResponse
    (JSON.store_members ServicoA.store_CEPResponse ServicoA.CEPResponse_tags
       members cur saved).1.
Proof.
  revert cur saved. induction members as [|[key v] rest IH];
    intros cur saved Hc; [exact Hc|].
  cbn [JSON.store_members].
  destruct (JSON.field_of ServicoA.CEPResponse_tags key) as [i|].
  - pose proof (store_CEPResponse_finite i v cur Hc) as H.
    destruct (ServicoA.store_CEPResponse i v cur) as [cur' e].
    by apply IH.
  - by apply IH.
Qed.

Lemma Unmarshal_CEPResponse_finite (data : string)
    (c : ServicoA.CEPResponse) :
  ServicoA.Unmarshal_CEPResponse L data = Ok c → finite_CEPResponse c.
Proof.
  unfold ServicoA.Unmarshal_CEPResponse, JSON.Unmarshal.
  destruct (JSON.scan_document L data) as [msg|doc]; [discriminate|].
  assert (Hz : finite_CEPResponse ServicoA.CEPResponse_zero)
    by (repeat split).
  destruct doc as [|b|f|s|items|members]; cbn [JSON.into_struct];
    try discriminate.
  - by intros [= <-].
  - pose proof (store_members_finite members _ None Hz) as H.
    destruct (JSON.store_members _ _ members _ None) as [x [e|]];
      [discriminate|].
    by intros [= <-].
Qed.

End GatewayDecoding.

(** X16.  A body that is not JSON, a document that is neither an object nor
    [null], and an object whose [cep] is neither a string nor [null] are
    answered with 400 and a fixed text, as plain text; what was wrong is
    recorded on the span but not told, and nothing else happens. *)
Theorem gateway_rejects_malformed (W : ServicoA.World) (r : HTTP.Request) :
  let run := ServicoA.handleCEP W r HTTP.fresh in
  malformed_request (ServicoA.json_lib W) (HTTP.req_body r) →
  answered (result run) 400 ("invalid request body" +:+ HTTP.newline)
  ∧ HTTP.wrote (result run) = Some (400, plain_text_header)
  ∧ ∃ err, events run
           = [SpanStart ServicoA.handleCEP_span;
              RecordError ServicoA.handleCEP_span (Error err);
              SpanEnd ServicoA.handleCEP_span].
Proof.
  intros run [err Hd]%Decode_CEPRequest_malformed. subst run.
  rewrite (handleCEP_malformed W r err Hd).
  split; [split; reflexivity|]. split; [reflexivity|]. by exists err.
Qed.

Lemma gateway_rejects_malformed_witness :
  answered
    (result (ServicoA.handleCEP
               (MoreSamples.gateway_world ∅ (HTTP.NoResponse ""))
               (MoreSamples.request_with_body
                  (Samples.text MoreSamples.cep_as_number))
               HTTP.fresh))
    400 ("invalid request body" +:+ HTTP.newline).
Proof.
  refine (proj1 (gateway_rejects_malformed
                   (MoreSamples.gateway_world ∅ (HTTP.NoResponse ""))
                   (MoreSamples.request_with_body
                      (Samples.text MoreSamples.cep_as_number)) _)).
  unfold malformed_request.
  change (JSON.scan_stream _ _) with (@inr string json MoreSamples.cep_as_number).
  exists "cep", (JNum 28.5), 0%nat. split_and!; try reflexivity.
  apply list_elem_of_lookup. exists 0%nat. reflexivity.
Defined.

(** X17.  A body without a code ([null], an object with no [cep] or with a
    [cep] that is [null]) is taken as the empty code: the answer is 422, not
    400, and nothing is sent. *)
Theorem gateway_missing_cep (W : ServicoA.World) (r : HTTP.Request)
    (doc : json) :
  let run := ServicoA.handleCEP W r HTTP.fresh in
  JSON.scan_stream (ServicoA.json_lib W) (HTTP.req_body r) = inr doc →
  without_cep doc →
  answered (result run) 422
    (error_body (ServicoA.json_lib W) "invalid zipcode")
  ∧ HTTP.wrote (result run) = Some (422, ∅)
  ∧ no_outbound_request (events run).
Proof.
  intros run Hs Hw. subst run.
  pose proof (Decode_CEPRequest_without_cep _ _ _ Hs Hw) as Hd.
  rewrite (handleCEP_invalid W r _ Hd eq_refl).
  split; [split; reflexivity|]. split; [reflexivity|].
  split_and!; absent_from_log.
Qed.

Lemma gateway_missing_cep_witness :
  answered
    (result (ServicoA.handleCEP
               (MoreSamples.gateway_world ∅ (HTTP.NoResponse ""))
               (MoreSamples.request_with_body
                  (Samples.text MoreSamples.empty_object))
               HTTP.fresh))
    422 (error_body MoreSamples.lib "invalid zipcode").
Proof.
  refine (proj1 (gateway_missing_cep
                   (MoreSamples.gateway_world ∅ (HTTP.NoResponse ""))
                   (MoreSamples.request_with_body
                      (Samples.text MoreSamples.empty_object))
                   MoreSamples.empty_object _ _)).
  - vm_compute. reflexivity.
  - constructor.
Defined.



(** X19.  An answer 200 whose body cannot be decoded is answered with 500 and
    the decoder's complaint after a fixed prefix. *)
Theorem gateway_bad_ok_body (W : ServicoA.World) (r : HTTP.Request)
    (req : ServicoA.CEPRequest) (data : string) (err : error) :
  let run := ServicoA.handleCEP W r HTTP.fresh in
  let out := ServicoA.outgoing W (resolver_url W) (ServicoA.CEP req) in
  ServicoA.Decode_CEPRequest (ServicoA.json_lib W) (HTTP.req_body r)
  = Ok req →
  ServicoA.validateCEP (ServicoA.CEP req) = true →
  ServicoA.url_error W (resolver_url W) = None →
  ServicoA.client_do W out = HTTP.Response 200 (HTTP.ReadOk data) →
  ServicoA.Unmarshal_CEPResponse (ServicoA.json_lib W) data = Err err →
  answered (result run) 500
    (("failed to decode response: " +:+ Error err) +:+ HTTP.newline)
  ∧ HTTP.wrote (result run) = Some (500, plain_text_header)
  ∧ recorded ServicoA.callServicoB_span (events run) = [Error err].
Proof.
  intros run out Hd Hv Hu Hr He. subst run.
  rewrite (handleCEP_valid W r req Hd Hv), Hu. cbv zeta. fold out.
  rewrite Hr. unfold after. cbn [Z.eqb Pos.eqb negb]. rewrite He.
  repeat split.
Qed.

Lemma gateway_bad_ok_body_witness :
  answered
    (result (ServicoA.handleCEP
               (MoreSamples.gateway_world ∅
                  (HTTP.Response 200 (HTTP.ReadOk "<html>")))
               (Samples.gateway_request "01310100") HTTP.fresh))
    500 ("failed to decode response: invalid character looking for beginning of value"
         +:+ HTTP.newline).
Proof.
  refine (proj1 (gateway_bad_ok_body
                   (MoreSamples.gateway_world ∅
                      (HTTP.Response 200 (HTTP.ReadOk "<html>")))
                   (Samples.gateway_request "01310100")
                   {| ServicoA.CEP := "01310100" |} "<html>"
                   (JsonError "invalid character looking for beginning of value")
                   _ _ _ _ _));
    vm_compute; reflexivity.
Defined.



(** X21.  Whatever the Gateway decodes from an answer 200 can be encoded
    again: its own 200 always has a body, the document with the four members
    [city], [temp_C], [temp_F] and [temp_K]. A member the answer did not have
    comes out empty or zero, and a member it had besides these is gone. *)
Theorem gateway_ok_body (W : ServicoA.World) (r : HTTP.Request)
    (req : ServicoA.CEPRequest) (data : string) (c : ServicoA.CEPResponse) :
  let L := ServicoA.json_lib W in
  let run := ServicoA.handleCEP W r HTTP.fresh in
  let out := ServicoA.outgoing W (resolver_url W) (ServicoA.CEP req) in
  ServicoA.Decode_CEPRequest L (HTTP.req_body r) = Ok req →
  ServicoA.validateCEP (ServicoA.CEP req) = true →
  ServicoA.url_error W (resolver_url W) = None →
  ServicoA.client_do W out = HTTP.Response 200 (HTTP.ReadOk data) →
  ServicoA.Unmarshal_CEPResponse L data = Ok c →
  answered (result run) 200
    (JSON.render L
       (JObj [("city", JStr (ServicoA.City c));
              ("temp_C", JNum (ServicoA.TempC c));
              ("temp_F", JNum (ServicoA.TempF c));
              ("temp_K", JNum (ServicoA.TempK c))])
     +:+ HTTP.newline)
  ∧ HTTP.wrote (result run) = Some (200, json_header).
Proof.
  intros L run out Hd Hv Hu Hr Hc. subst run.
  destruct (Unmarshal_CEPResponse_finite L data c Hc) as (F1 & F2 & F3).
  rewrite (handleCEP_valid W r req Hd Hv), Hu. cbv zeta. fold out.
  rewrite Hr. unfold after. cbn [Z.eqb Pos.eqb negb]. fold L. rewrite Hc.
  unfold ServicoA.Marshal_CEPResponse, JSON.marshal_float64.
  rewrite F1, F2, F3. repeat split.
Qed.

Lemma gateway_ok_body_witness :
  answered
    (result (ServicoA.handleCEP
               (MoreSamples.gateway_world ∅
                  (HTTP.Response 200
                     (HTTP.ReadOk (Samples.text MoreSamples.empty_object))))
               (Samples.gateway_request "01310100") HTTP.fresh))
    200 (Samples.text
           (JObj [("city", JStr ""); ("temp_C", JNum 0); ("temp_F", JNum 0);
                  ("temp_K", JNum 0)])
         +:+ HTTP.newline).
Proof.
  refine (proj1 (gateway_ok_body
                   (MoreSamples.gateway_world ∅
                      (HTTP.Response 200
                         (HTTP.ReadOk (Samples.text MoreSamples.empty_object))))
                   (Samples.gateway_request "01310100")
                   {| ServicoA.CEP := "01310100" |}
                   (Samples.text MoreSamples.empty_object)
                   ServicoA.CEPResponse_zero _ _ _ _ _));
    vm_compute; reflexivity.
Defined.

(** X22.  An error the Gateway relays is not an error of its own: when the
    Resolver answers with a status other than 200, the Gateway records no
    error on any of its spans, and its log is that of a call that went well. *)
Theorem gateway_relay_records_nothing (W : ServicoA.World)
    (r : HTTP.Request) (req : ServicoA.CEPRequest) (code : Z)
    (data : string) :
  let run := ServicoA.handleCEP W r HTTP.fresh in
  let out := ServicoA.outgoing W (resolver_url W) (ServicoA.CEP req) in
  ServicoA.Decode_CEPRequest (ServicoA.json_lib W) (HTTP.req_body r)
  = Ok req →
  ServicoA.validateCEP (ServicoA.CEP req) = true →
  ServicoA.url_error W (resolver_url W) = None →
  ServicoA.client_do W out = HTTP.Response code (HTTP.ReadOk data) →
  code ≠ 200 →
  (∀ span, recorded span (events run) = [])
  ∧ events run
    = gateway_prelude W
      ++ [ClientDo out; SpanEnd ServicoA.callServicoB_span;
          SpanEnd ServicoA.handleCEP_span].
Proof.
  intros run out Hd Hv Hu Hr Hc. subst run.
  rewrite (handleCEP_valid W r req Hd Hv), Hu. cbv zeta. fold out.
  rewrite Hr. unfold after. apply Z.eqb_neq in Hc. rewrite Hc.
  split; [intros span|]; reflexivity.
Qed.

Lemma gateway_relay_records_nothing_witness :
  recorded ServicoA.callServicoB_span
    (events (ServicoA.handleCEP Samples.gateway_world
               (Samples.gateway_request "99999999") HTTP.fresh))
  = [].
Proof.
  refine (proj1 (gateway_relay_records_nothing Samples.gateway_world
                   (Samples.gateway_request "99999999")
                   {| ServicoA.CEP := "99999999" |} 404
                   (error_body Samples.lib "can not find zipcode")
                   _ _ _ _ _) _);
    try (vm_compute; reflexivity); discriminate.
Defined.

(** ** The two services together, path by path *)

Section PipelinePaths.

Variable L : JSON.lib.
Variable environ : gmap string string.
Variable p : ServicoA.propagator.
Variable WB : ServicoB.World.
Variable r : HTTP.Request.
Variable req : ServicoA.CEPRequest.

Local Abbreviation WA := (Pipeline.gateway_world L environ p WB).
Local Abbreviation out :=
  (ServicoA.outgoing WA (resolver_url WA) (ServicoA.CEP req)).
Local Abbreviation answer :=
  (result (ServicoB.handleTemperature WB (Pipeline.deliver out) HTTP.fresh)).

Hypothesis Hd : ServicoA.Decode_CEPRequest L (HTTP.req_body r) = Ok req.
Hypothesis Hv : ServicoA.validateCEP (ServicoA.CEP req) = true.

(** The Gateway in front of the Resolver: its answer is what it makes of
    the Resolver's. *)
Lemma pipeline_result :
  result (ServicoA.handleCEP WA r HTTP.fresh)
  = result (after WA
              (HTTP.Response (default 200 (HTTP.status answer))
                 (HTTP.ReadOk (HTTP.body answer)))).
Proof.
  rewrite (handleCEP_valid WA r req Hd Hv).
  cbn [ServicoA.url_error Pipeline.gateway_world]. cbv zeta.
  cbn [ServicoA.client_do Pipeline.gateway_world].
  unfold Pipeline.resolver, in_span, bind, emit, ret.
  destruct (after WA _) as [w l]. reflexivity.
Qed.

(** The Resolver is asked for the code the Gateway validated, and for it
    the two validators agree. *)
Lemma pipeline_code :
  HTTP.Get (HTTP.req_header (Pipeline.deliver out)) "X-CEP"
  = ServicoA.CEP req
  ∧ ServicoB.validateCEP (ServicoA.CEP req) = true.
Proof.
  split; [apply outgoing_X_CEP|]. by rewrite validators_agree.
Qed.

(** The answer of the Resolver once both of its lookups are known. *)
Lemma pipeline_answer (v : ServicoB.ViaCEPResponse) :
  result (ServicoB.searchCEP WB (ServicoA.CEP req)) = Ok v →
  answer
  = match result (ServicoB.getTemperature WB (ServicoB.Localidade v)) with
    | Err err => HTTP.Error_ (Error err) 500 HTTP.fresh
    | Ok t =>
        Encode (ServicoB.json_lib WB)
          (ServicoB.Marshal_TemperatureResponse
             (reading (ServicoB.Localidade v) t))
          (HTTP.WriteHeader 200
             (HTTP.with_header
                (fun h => HTTP.Set_ h "Content-Type" "application/json")
                HTTP.fresh))
    end.
Proof.
  intros Hs. destruct pipeline_code as [Hc HvB].
  apply handler_after_lookups; by rewrite Hc.
Qed.

End PipelinePaths.

(** X23.  The content type of an answer of the Resolver does not reach the
    client: whatever is relayed (the plain text of a 500, or a JSON error that
    was sent with no content type set) is declared as JSON by the Gateway. *)
Theorem pipeline_declares_json (L : JSON.lib) (environ : gmap string string)
    (p : ServicoA.propagator) (WB : ServicoB.World) (r : HTTP.Request)
    (req : ServicoA.CEPRequest) (code : Z) (h : HTTP.Header) :
  let WA := Pipeline.gateway_world L environ p WB in
  let answer :=
    result (ServicoB.handleTemperature WB
              (Pipeline.deliver
                 (ServicoA.outgoing WA (resolver_url WA) (ServicoA.CEP req)))
              HTTP.fresh) in
  let w := result (ServicoA.handleCEP WA r HTTP.fresh) in
  ServicoA.Decode_CEPRequest L (HTTP.req_body r) = Ok req →
  ServicoA.validateCEP (ServicoA.CEP req) = true →
  HTTP.wrote answer = Some (code, h) → code ≠ 200 →
  HTTP.wrote w = Some (code, json_header)
  ∧ HTTP.body w = HTTP.body answer.
Proof.
  intros WA answer w Hd Hv Hw Hc. subst w answer WA.
  rewrite (pipeline_result L environ p WB r req Hd Hv).
  unfold HTTP.status. rewrite Hw.
  cbn [fmap option_fmap option_map fst default from_option id].
  unfold after. apply Z.eqb_neq in Hc. rewrite Hc. split; reflexivity.
Qed.

Lemma pipeline_declares_json_witness :
  HTTP.wrote
    (result (ServicoB.handleTemperature MoreSamples.weather_unreachable
               (Samples.resolver_request "01310100") HTTP.fresh))
  = Some (500, plain_text_header)
  ∧ HTTP.wrote
      (result (ServicoA.handleCEP
                 (Pipeline.gateway_world MoreSamples.lib ∅
                    ServicoA.NoPropagation MoreSamples.weather_unreachable)
                 (Samples.gateway_request "01310100") HTTP.fresh))
    = Some (500, json_header).
Proof.
  split; [vm_compute; reflexivity|].
  refine (proj1 (pipeline_declares_json MoreSamples.lib ∅
                   ServicoA.NoPropagation MoreSamples.weather_unreachable
                   (Samples.gateway_request "01310100")
                   {| ServicoA.CEP := "01310100" |} 500 plain_text_header
                   _ _ _ _));
    try (vm_compute; reflexivity); discriminate.
Defined.

(** X24.  From end to end: when the directory knows the code and the weather
    service gives a reading that can be encoded, the client of the Gateway
    gets 200 and the document the Resolver built, byte for byte (given a
    library that reads back what it wrote). *)
Theorem pipeline_success (L : JSON.lib) (environ : gmap string string)
    (p : ServicoA.propagator) (WB : ServicoB.World) (r : HTTP.Request)
    (req : ServicoA.CEPRequest) (v : ServicoB.ViaCEPResponse) (t : float)
    (j : json) :
  let WA := Pipeline.gateway_world L environ p WB in
  let data := JSON.render L j +:+ HTTP.newline in
  ServicoB.json_lib WB = L →
  ServicoA.Decode_CEPRequest L (HTTP.req_body r) = Ok req →
  ServicoA.validateCEP (ServicoA.CEP req) = true →
  result (ServicoB.searchCEP WB (ServicoA.CEP req)) = Ok v →
  result (ServicoB.getTemperature WB (ServicoB.Localidade v)) = Ok t →
  ServicoB.Marshal_TemperatureResponse (reading (ServicoB.Localidade v) t)
  = Some j →
  JSON.scan_document L data = inr j →
  answered (result (ServicoA.handleCEP WA r HTTP.fresh)) 200 data
  ∧ j = JObj [("city", JStr (ServicoB.Localidade v)); ("temp_C", JNum t);
              ("temp_F", JNum (t * 1.8 + 32)%float);
              ("temp_K", JNum (t + 273)%float)].
Proof.
  intros WA data HL Hd Hv Hs Hg Hm Hscan. subst WA. split.
  2:{ by destruct (Marshal_TemperatureResponse_Some _ _ Hm)
        as (_ & _ & _ & ->). }
  rewrite (pipeline_result L environ p WB r req Hd Hv).
  rewrite (pipeline_answer L environ p WB req Hv v Hs), Hg, Hm, HL.
  cbn [Encode HTTP.status HTTP.body HTTP.wrote HTTP.Write HTTP.WriteHeader
       HTTP.with_header HTTP.fresh fmap option_fmap option_map fst default
       from_option id].
  unfold after. cbn [Z.eqb Pos.eqb negb].
  change ("" +:+ JSON.render L j +:+ HTTP.newline) with data.
  cbn [ServicoA.json_lib Pipeline.gateway_world].
  rewrite (decode_encoded L _ j data Hm Hscan).
  rewrite (reencode _ j Hm). split; reflexivity.
Qed.

Lemma pipeline_success_witness :
  answered
    (result (ServicoA.handleCEP Samples.gateway_world
               (Samples.gateway_request "01310100") HTTP.fresh))
    200 (Samples.text Samples.temperature +:+ HTTP.newline).
Proof.
  refine (proj1 (pipeline_success Samples.lib ∅ _ Samples.resolver_world
                   (Samples.gateway_request "01310100")
                   {| ServicoA.CEP := "01310100" |}
                   {| ServicoB.Cep := "01310-100";
                      ServicoB.Logradouro := "Avenida Paulista";
                      ServicoB.Complemento := ""; ServicoB.Bairro := "";
                      ServicoB.Localidade := "São Paulo"; ServicoB.UF := "SP";
                      ServicoB.Erro := false |}
                   28.5 Samples.temperature _ _ _ _ _ _ _));
    vm_compute; reflexivity.
Defined.

(** X25.  From end to end: a reading that cannot be encoded leaves the
    Resolver's 200 without a body, which the Gateway fails to decode: the
    client gets 500 and the decoder's complaint about the empty input. *)
Theorem pipeline_unencodable (L : JSON.lib) (environ : gmap string string)
    (p : ServicoA.propagator) (WB : ServicoB.World) (r : HTTP.Request)
    (req : ServicoA.CEPRequest) (v : ServicoB.ViaCEPResponse) (t : float)
    (msg : string) :
  let WA := Pipeline.gateway_world L environ p WB in
  ServicoA.Decode_CEPRequest L (HTTP.req_body r) = Ok req →
  ServicoA.validateCEP (ServicoA.CEP req) = true →
  result (ServicoB.searchCEP WB (ServicoA.CEP req)) = Ok v →
  result (ServicoB.getTemperature WB (ServicoB.Localidade v)) = Ok t →
  JSON.is_finite (t * 1.8 + 32)%float = false →
  JSON.scan_document L "" = inl msg →
  answered (result (ServicoA.handleCEP WA r HTTP.fresh)) 500
    (("failed to decode response: " +:+ msg) +:+ HTTP.newline).
Proof.
  intros WA Hd Hv Hs Hg Hf Hscan. subst WA.
  assert (Hm : ServicoB.Marshal_TemperatureResponse
                 (reading (ServicoB.Localidade v) t) = None).
  { unfold ServicoB.Marshal_TemperatureResponse, reading.
    cbn [ServicoB.TempC ServicoB.TempF ServicoB.TempK].
    unfold JSON.marshal_float64 at 2.
    change (ServicoB.celsiusToFahrenheit t) with (t * 1.8 + 32)%float.
    rewrite Hf. by destruct (JSON.marshal_float64 t). }
  rewrite (pipeline_result L environ p WB r req Hd Hv).
  rewrite (pipeline_answer L environ p WB req Hv v Hs), Hg, Hm.
  cbn [Encode HTTP.status HTTP.body HTTP.wrote HTTP.Write HTTP.WriteHeader
       HTTP.with_header HTTP.fresh fmap option_fmap option_map fst default
       from_option id].
  unfold after. cbn [Z.eqb Pos.eqb negb].
  unfold ServicoA.Unmarshal_CEPResponse, JSON.Unmarshal.
  cbn [ServicoA.json_lib Pipeline.gateway_world]. rewrite Hscan.
  split; reflexivity.
Qed.

Lemma pipeline_unencodable_witness :
  answered
    (result (ServicoA.handleCEP
               (Pipeline.gateway_world MoreSamples.lib ∅
                  ServicoA.NoPropagation MoreSamples.weather_too_hot)
               (Samples.gateway_request "01310100") HTTP.fresh))
    500 ("failed to decode response: invalid character looking for beginning of value"
         +:+ HTTP.newline).
Proof.
  refine (pipeline_unencodable MoreSamples.lib ∅ ServicoA.NoPropagation
            MoreSamples.weather_too_hot
            (Samples.gateway_request "01310100")
            {| ServicoA.CEP := "01310100" |}
            {| ServicoB.Cep := "01310-100";
               ServicoB.Logradouro := "Avenida Paulista";
               ServicoB.Complemento := ""; ServicoB.Bairro := "";
               ServicoB.Localidade := "São Paulo"; ServicoB.UF := "SP";
               ServicoB.Erro := false |}
            0x1.2p+1023 _ _ _ _ _ _ _);
    vm_compute; reflexivity.
Defined.

(** X26.  From end to end: when the weather service cannot be reached, the
    client of the Gateway gets 500 and a text that shows the weather key. *)
Theorem pipeline_shows_key (L : JSON.lib) (environ : gmap string string)
    (p : ServicoA.propagator) (WB : ServicoB.World) (r : HTTP.Request)
    (req : ServicoA.CEPRequest) (v : ServicoB.ViaCEPResponse)
    (cause : string) :
  let WA := Pipeline.gateway_world L environ p WB in
  let w := result (ServicoA.handleCEP WA r HTTP.fresh) in
  ServicoA.Decode_CEPRequest L (HTTP.req_body r) = Ok req →
  ServicoA.validateCEP (ServicoA.CEP req) = true →
  result (ServicoB.searchCEP WB (ServicoA.CEP req)) = Ok v →
  weather_key_of WB ≠ "" →
  forallb URL.unreserved (bytes (weather_key_of WB)) = true →
  ServicoB.http_get WB (weather_url_of WB (ServicoB.Localidade v))
  = HTTP.NoResponse cause →
  HTTP.status w = Some 500
  ∧ contains (weather_key_of WB) (HTTP.body w) = true.
Proof.
  intros WA w Hd Hv Hs Hk _ Hw. subst w WA.
  rewrite (pipeline_result L environ p WB r req Hd Hv).
  rewrite (pipeline_answer L environ p WB req Hv v Hs).
  rewrite (getTemperature_no_response WB _ cause Hk Hw).
  cbn [result fst]. split; [reflexivity|].
  apply transport_error_shows_key.
Qed.

Lemma pipeline_shows_key_witness :
  contains "secret"
    (HTTP.body
       (result (ServicoA.handleCEP
                  (Pipeline.gateway_world MoreSamples.lib ∅
                     ServicoA.NoPropagation MoreSamples.weather_unreachable)
                  (Samples.gateway_request "01310100") HTTP.fresh)))
  = true.
Proof.
  refine (proj2 (pipeline_shows_key MoreSamples.lib ∅ ServicoA.NoPropagation
                   MoreSamples.weather_unreachable
                   (Samples.gateway_request "01310100")
                   {| ServicoA.CEP := "01310100" |}
                   {| ServicoB.Cep := "01310-100";
                      ServicoB.Logradouro := "Avenida Paulista";
                      ServicoB.Complemento := ""; ServicoB.Bairro := "";
                      ServicoB.Localidade := "São Paulo"; ServicoB.UF := "SP";
                      ServicoB.Erro := false |}
                   "dial tcp: i/o timeout" _ _ _ _ _ _));
    try (vm_compute; reflexivity); discriminate.
Defined.

(** X27.  The Gateway in front of the Resolver answers with one of five status
    codes. *)
Theorem pipeline_status_codes (L : JSON.lib) (environ : gmap string string)
    (p : ServicoA.propagator) (WB : ServicoB.World) (r : HTTP.Request) :
  let WA := Pipeline.gateway_world L environ p WB in
  HTTP.status (result (ServicoA.handleCEP WA r HTTP.fresh))
  ∈ [Some 200; Some 400; Some 404; Some 422; Some 500].
Proof.
  cbv zeta. apply handleCEP_paths.
  - intros err _. set_solver.
  - intros req _ _. set_solver.
  - intros req reason _ _ _. set_solver.
  - intros req _ _ _ out. cbn [result fst].
    cbn [ServicoA.client_do Pipeline.gateway_world].
    unfold Pipeline.resolver.
    pose proof (resolver_status_codes WB (Pipeline.deliver out)) as Hcodes.
    destruct (HTTP.status _) as [code|]; [|in_log Hcodes].
    cbn [default from_option id]. unfold after.
    destruct (Z.eqb_spec code 200) as [->|Hc]; cbn [negb].
    + clear Hcodes.
      destruct (ServicoA.Unmarshal_CEPResponse _ _) as [c|e];
        [|set_solver].
      cbn [result ret fst]. unfold Encode.
      destruct (ServicoA.Marshal_CEPResponse c); set_solver.
    + cbn [result ret fst].
      change (HTTP.status _) with (Some code).
      exact Hcodes.
Qed.

(** ** The tracing bootstrap, attempt by attempt *)

Section BootstrapPaths.

Variable W : Otel.World.
Variable url : string.

Local Abbreviation loop := (Otel.retry_loop W url).

Lemma connects_dial (i : Z) :
  connects W i →
  ∃ took, Otel.DialContext Otel.dialTimeout (Otel.collector W i)
          = (None, took).
Proof.
  unfold connects.
  destruct (Otel.DialContext _ _) as [[e|] took]; [discriminate|].
  by exists took.
Qed.

Lemma fails_dial (i : Z) :
  ¬ connects W i →
  ∃ e took, Otel.DialContext Otel.dialTimeout (Otel.collector W i)
            = (Some e, took).
Proof.
  unfold connects.
  destruct (Otel.DialContext _ _) as [[e|] took]; [by exists e, took|].
  intros H. by destruct H.
Qed.

Lemma connects_dec (i : Z) : connects W i ∨ ¬ connects W i.
Proof.
  unfold connects.
  destruct (Otel.DialContext _ _) as [[e|] took]; [right|left]; done.
Qed.

(** The loop from [i] on, when [k] is the first attempt the collector
    accepts: it is left by [break] after the attempts [i] to [k], with
    one sleep after each but the last. *)
Lemma retry_loop_first (k : Z) (rounds : nat) (i : Z) :
  0 <= i <= k → k < Otel.maxRetries → k - i < Z.of_nat rounds →
  (∀ j, i <= j < k → ¬ connects W j) → connects W k →
  result (loop rounds i) = Otel.Break
  ∧ Otel.attempts (events (loop rounds i)) = k - i + 1
  ∧ Otel.failed_attempts (events (loop rounds i)) = k - i
  ∧ Otel.slept (events (loop rounds i)) = Otel.retryDelay * (k - i)
  ∧ LogPrintf "Successfully connected to OTEL collector after %d attempts"
      [AInt (k + 1)] ∈ events (loop rounds i).
Proof.
  revert i. induction rounds as [|n IH]; intros i Hi Hk Hr Hfail Hok;
    [lia|].
  cbn [Otel.retry_loop].
  destruct (Z.ltb_spec i Otel.maxRetries) as [_|?]; [|lia]. cbn [negb].
  destruct (Z.eq_dec i k) as [->|Hne].
  - destruct (connects_dial k Hok) as [took ->]. cbn.
    split_and!; try lia; try reflexivity.
    apply list_elem_of_lookup. by exists 1%nat.
  - destruct (fails_dial i (Hfail i ltac:(lia))) as (e & took & ->).
    destruct (Z.ltb_spec i (Otel.maxRetries - 1)) as [_|?]; [|lia].
    destruct (IH (i + 1) ltac:(lia) Hk ltac:(lia)
                (fun j Hj => Hfail j ltac:(lia)) Hok)
      as (R & A & F & S & Hlog).
    rewrite failed_flag, !events_bind, !result_bind.
    cbn [events result emit fst snd app].
    cbn [Otel.attempts Otel.slept Otel.failed_attempts].
    rewrite R, A, F, S. split_and!; try lia; try reflexivity.
    do 3 apply list_elem_of_further. exact Hlog.
Qed.

(** The loop is left by [break] exactly when one of the attempts that are
    left is accepted. *)
Lemma retry_loop_break (rounds : nat) (i : Z) :
  0 <= i → Otel.maxRetries - i <= Z.of_nat rounds →
  result (loop rounds i) = Otel.Break
  ↔ ∃ k, i <= k < Otel.maxRetries ∧ connects W k.
Proof.
  revert i. induction rounds as [|n IH]; intros i Hi Hr.
  { cbn. split; [discriminate|]. intros (k & ? & _). lia. }
  cbn [Otel.retry_loop].
  destruct (Z.ltb_spec i Otel.maxRetries) as [Hlt|Hge]; cbn [negb].
  2:{ cbn. split; [discriminate|]. intros (k & ? & _). lia. }
  destruct (connects_dec i) as [Hc|Hc].
  - destruct (connects_dial i Hc) as [took ->]. cbn.
    split; [|reflexivity]. intros _. exists i. split; [lia|exact Hc].
  - destruct (fails_dial i Hc) as (e & took & ->).
    destruct (Z.ltb_spec i (Otel.maxRetries - 1)) as [Hlast|Hlast].
    + rewrite !result_bind. cbn [result emit fst].
      rewrite (IH (i + 1) ltac:(lia) ltac:(lia)). split.
      * intros (k & ? & ?). exists k. split; [lia|done].
      * intros (k & ? & Hk). exists k. split; [|done].
        destruct (Z.eq_dec k i) as [->|]; [done|lia].
    + cbn. split; [discriminate|]. intros (k & ? & Hk).
      assert (k = i) as -> by lia. done.
Qed.

(** Nothing but attempts to connect to the given address, log lines and
    sleeps is in the log of the loop. *)
Lemma retry_loop_events (rounds : nat) (i : Z) :
  0 <= i → Forall (of_retry_loop url) (events (loop rounds i)).
Proof.
  revert i. induction rounds as [|n IH]; intros i Hi; [constructor|].
  cbn [Otel.retry_loop].
  destruct (Z.ltb_spec i Otel.maxRetries) as [Hlt|Hge]; cbn [negb];
    [|constructor].
  destruct (Otel.DialContext _ _) as [[e|] took].
  - destruct (Z.ltb_spec i (Otel.maxRetries - 1)) as [Hlast|Hlast].
    + rewrite !events_bind. cbn [events emit snd result fst app].
      repeat constructor; try lia. apply IH. lia.
    + cbn. repeat constructor; lia.
  - cbn. repeat constructor; lia.
Qed.

End BootstrapPaths.

Section BootstrapOutcomes.

Variable W : Otel.World.
Variables serviceName collectorURL : string.

Local Abbreviation run := (Otel.initProvider W serviceName collectorURL).
Local Abbreviation loop :=
  (Otel.retry_loop W collectorURL (Z.to_nat Otel.maxRetries) 0).

(** The log of [initProvider]: nothing when the resource cannot be made,
    else the log of the loop, followed by the two installations exactly
    when a shutdown function is returned. *)
Lemma initProvider_events :
  (run = (Err (Wrapped "failed to create resource: "
                 (LibError (default "" (Otel.resource_error W)))), [])
   ∧ Otel.resource_error W ≠ None)
  ∨ (Otel.resource_error W = None
     ∧ ((result run = Ok Otel.TracerProviderShutdown
         ∧ result loop = Otel.Break ∧ Otel.exporter_error W = None
         ∧ events run
           = events loop ++ [SetTracerProvider; SetTextMapPropagator])
        ∨ ((∃ err, result run = Err err)
           ∧ (result loop ≠ Otel.Break ∨ Otel.exporter_error W ≠ None)
           ∧ events run = events loop))).
Proof.
  unfold Otel.initProvider.
  destruct (Otel.resource_error W) as [msg|].
  { left. by split. }
  right. split; [reflexivity|].
  rewrite events_bind, result_bind.
  pose proof (retry_loop_log W collectorURL (Z.to_nat Otel.maxRetries) 0
                ltac:(lia) ltac:(unfold Otel.maxRetries; lia)) as Hlog.
  cbv zeta in Hlog. destruct Hlog as (_ & _ & _ & _ & _ & _ & _ & _ & Hex).
  destruct (result loop) as [|e|] eqn:R.
  - destruct (Otel.exporter_error W) as [msg|].
    + right. cbn. rewrite app_nil_r. split_and!; [by eexists|by right|done].
    + left. by split_and!.
  - right. cbn. rewrite app_nil_r. split_and!; [by eexists|by left|done].
  - specialize (Hex eq_refl). unfold Otel.maxRetries in Hex. lia.
Qed.

End BootstrapOutcomes.

(** X28.  When attempt [k] is the first the collector accepts, the bootstrap
    succeeds after [k + 1] attempts, of which [k] failed, and [k] sleeps of
    two seconds; it logs the number of attempts and returns the shutdown
    function of the tracer provider. *)
Theorem bootstrap_connects (W : Otel.World)
    (serviceName collectorURL : string) (k : Z) :
  let run := Otel.initProvider W serviceName collectorURL in
  Otel.resource_error W = None →
  Otel.exporter_error W = None →
  0 <= k < 20 →
  (∀ i, 0 <= i < k → ¬ connects W i) →
  connects W k →
  result run = Ok Otel.TracerProviderShutdown
  ∧ Otel.attempts (events run) = k + 1
  ∧ Otel.failed_attempts (events run) = k
  ∧ Otel.slept (events run) = 2 * Otel.Second * k
  ∧ LogPrintf "Successfully connected to OTEL collector after %d attempts"
      [AInt (k + 1)] ∈ events run.
Proof.
  intros run Hres Hexp Hk Hfail Hok. subst run.
  destruct (retry_loop_first W collectorURL k (Z.to_nat Otel.maxRetries) 0
              ltac:(lia) ltac:(unfold Otel.maxRetries; lia)
              ltac:(unfold Otel.maxRetries; lia)
              (fun j Hj => Hfail j ltac:(lia)) Hok)
    as (R & A & F & S & Hlog).
  unfold Otel.initProvider. rewrite Hres, events_bind, result_bind, R, Hexp.
  cbn [events result fst snd].
  destruct (measures_app_tail
              (events (Otel.retry_loop W collectorURL
                         (Z.to_nat Otel.maxRetries) 0))
              [SetTracerProvider; SetTextMapPropagator]
              eq_refl eq_refl eq_refl eq_refl) as (M1 & M2 & _ & M4).
  cbn [bind emit ret events snd app] in *.
  rewrite M1, M2, M4, A, F, S. unfold Otel.retryDelay.
  split_and!; try lia; try reflexivity.
  apply elem_of_app. by left.
Qed.

Lemma bootstrap_connects_witness :
  Otel.attempts
    (events (Otel.initProvider Samples.late_collector "servico-a"
               "otel-collector:4317")) = 3
  ∧ Otel.slept
      (events (Otel.initProvider Samples.late_collector "servico-a"
                 "otel-collector:4317")) = 4 * Otel.Second.
Proof.
  destruct (bootstrap_connects Samples.late_collector "servico-a"
              "otel-collector:4317" 2) as (_ & A & _ & S & _).
  - reflexivity.
  - reflexivity.
  - lia.
  - intros i Hi. assert (i = 0 ∨ i = 1) as [-> | ->] by lia;
      vm_compute; discriminate.
  - vm_compute. reflexivity.
  - split; [exact A|exact S].
Defined.

(** X29.  Tracing is set up exactly when the resource can be made, one of the
    20 attempts is accepted and the exporter can be made; and the tracer
    provider and the propagator are installed in exactly that case. *)
Theorem tracing_set_up_iff (W : Otel.World)
    (serviceName collectorURL : string) :
  let run := Otel.initProvider W serviceName collectorURL in
  (result run = Ok Otel.TracerProviderShutdown
   ↔ Otel.resource_error W = None
     ∧ (∃ k, 0 <= k < 20 ∧ connects W k)
     ∧ Otel.exporter_error W = None)
  ∧ (SetTracerProvider ∈ events run
     ↔ result run = Ok Otel.TracerProviderShutdown)
  ∧ (SetTextMapPropagator ∈ events run
     ↔ result run = Ok Otel.TracerProviderShutdown).
Proof.
  cbv zeta.
  pose proof (retry_loop_break W collectorURL (Z.to_nat Otel.maxRetries) 0
                ltac:(lia) ltac:(unfold Otel.maxRetries; lia)) as Hbrk.
  pose proof (retry_loop_events W collectorURL (Z.to_nat Otel.maxRetries) 0
                ltac:(lia)) as Hev.
  rewrite Forall_forall in Hev.
  destruct (initProvider_events W serviceName collectorURL)
    as [[E Hres]|[Hres [(R & Rl & Hexp & E)|((err & R) & Hwhy & E)]]].
  - rewrite E. cbn [result events fst snd]. split_and!.
    + split; [discriminate|]. by intros (? & _).
    + split; [intros H; in_log H|discriminate].
    + split; [intros H; in_log H|discriminate].
  - rewrite R, E. split_and!.
    + split; [|done]. intros _. split_and!; [done| |done].
      by apply Hbrk.
    + split; [done|]. intros _. apply elem_of_app. right.
      apply list_elem_of_here.
    + split; [done|]. intros _. apply elem_of_app. right.
      apply list_elem_of_further, list_elem_of_here.
  - rewrite R, E. split_and!.
    + split; [discriminate|]. intros (_ & Hk & Hexp).
      destruct Hwhy as [Hnb|Hne]; [|done]. destruct Hnb. by apply Hbrk.
    + split; [|discriminate]. intros H. by destruct (Hev _ H).
    + split; [|discriminate]. intros H. by destruct (Hev _ H).
Qed.

(** X30.  [main] reads three variables of the environment, in a fixed order;
    every attempt to connect goes to the configured address of the collector,
    or to the default when none is configured; and one server is started, on
    the configured port or the default one. *)
Theorem main_uses_configuration (W : Otel.World)
    (environ : gmap string string)
    (default_name default_port started : string) :
  let run := Otel.main W environ default_name default_port started in
  env_reads (events run)
  = ["OTEL_EXPORTER_OTLP_ENDPOINT"; "OTEL_SERVICE_NAME"; "HTTP_PORT"]
  ∧ (∀ j u took ok, Dial j u took ok ∈ events run →
       u = env_or environ "OTEL_EXPORTER_OTLP_ENDPOINT" "otel-collector:4317"
       ∧ 0 <= j < 20)
  ∧ served (events run) = [env_or environ "HTTP_PORT" default_port].
Proof.
  cbv zeta.
  set (target := env_or environ "OTEL_EXPORTER_OTLP_ENDPOINT"
                   "otel-collector:4317").
  set (name := env_or environ "OTEL_SERVICE_NAME" default_name).
  pose proof (retry_loop_events W target (Z.to_nat Otel.maxRetries) 0
                ltac:(lia)) as Hev.
  assert (Hinit : Forall (fun e => of_retry_loop target e
                                   ∨ e = SetTracerProvider
                                   ∨ e = SetTextMapPropagator)
                    (events (Otel.initProvider W name target))).
  { destruct (initProvider_events W name target)
      as [[E _]|[_ [(_ & _ & _ & E)|(_ & _ & E)]]]; rewrite E.
    - constructor.
    - apply Forall_app. split.
      + eapply Forall_impl; [exact Hev|]. by left.
      + repeat constructor; by right; (left + right).
    - eapply Forall_impl; [exact Hev|]. by left. }
  assert (Hmeasure : ∀ l,
            Forall (fun e => of_retry_loop target e ∨ e = SetTracerProvider
                             ∨ e = SetTextMapPropagator) l →
            env_reads l = [] ∧ served l = []
            ∧ ∀ tail, env_reads (l ++ tail) = env_reads tail
                      ∧ served (l ++ tail) = served tail).
  { intros l Hl. induction Hl as [|e l He _ (IH1 & IH2 & IH3)].
    - by split_and!.
    - destruct e; cbn [of_retry_loop] in He;
        try (destruct He as [[]|[?|?]]; discriminate);
        cbn [env_reads served app]; split_and!; try done. }
  unfold Otel.main, os_Getenv, bind, emit, ret. cbn [fst snd].
  fold target name.
  change (if String.eqb (default "" (environ !! "OTEL_EXPORTER_OTLP_ENDPOINT"))
               ""
          then "otel-collector:4317"
          else default "" (environ !! "OTEL_EXPORTER_OTLP_ENDPOINT"))
    with target.
  change (if String.eqb (default "" (environ !! "OTEL_SERVICE_NAME")) ""
          then default_name
          else default "" (environ !! "OTEL_SERVICE_NAME"))
    with name.
  rewrite Forall_forall in Hinit.
  destruct (Otel.initProvider W name target) as [[s|err] l] eqn:E;
    cbn [events result fst snd app] in *.
  - destruct (Hmeasure l ltac:(by apply Forall_forall)) as (_ & _ & Hm).
    split_and!.
    + cbn [env_reads]. by rewrite (proj1 (Hm _)).
    + intros j u took ok Hin. split_log Hin.
      destruct (Hinit _ Hin) as [[-> ?]|[?|?]]; try discriminate.
      by split.
    + cbn [served]. by rewrite (proj2 (Hm _)).
  - destruct (Hmeasure l ltac:(by apply Forall_forall)) as (_ & _ & Hm).
    split_and!.
    + cbn [env_reads]. by rewrite (proj1 (Hm _)).
    + intros j u took ok Hin. split_log Hin.
      destruct (Hinit _ Hin) as [[-> ?]|[?|?]]; try discriminate.
      by split.
    + cbn [served]. by rewrite (proj2 (Hm _)).
Qed.

Lemma main_uses_configuration_witness :
  served (events (Otel.main_servico_b Samples.late_collector
                    {[ "HTTP_PORT" := ":9090" ]}))
  = [":9090"]
  ∧ "otel-collector:4317"
    = env_or {[ "HTTP_PORT" := ":9090" ]} "OTEL_EXPORTER_OTLP_ENDPOINT"
        "otel-collector:4317".
Proof.
  destruct (main_uses_configuration Samples.late_collector
              {[ "HTTP_PORT" := ":9090" ]} "servico-b" ":8081"
              "Serviço B iniciado na porta %s") as (_ & Hd & Hs).
  split; [exact Hs|].
  refine (proj1 (Hd 0 "otel-collector:4317" (5 * Otel.Second) false _)).
  apply list_elem_of_lookup. exists 2%nat. vm_compute. reflexivity.
Defined.
